(** * Percona Everest backend: shared-configuration reconciliation

    A shallow embedding of [api/database_cluster.go] and
    [api/backup_storage.go]: the reference resolvers, the database-cluster
    create / update / delete handlers and the backup-storage lifecycle
    endpoints, together with the properties they satisfy.

    Go maps used as sets ([map[string]struct{}]) are [gset string]; nillable
    pointers are [option]; handlers are state-passing functions over a
    [World] that holds the metadata store, the secrets vault and the
    chronological record of every call made to a collaborator. *)

From Stdlib Require Import String List Sorted.
From stdpp Require Import gmap strings list fin_maps fin_sets.

Set Warnings "-clear-no-such-hyp".

Open Scope string_scope.
Open Scope list_scope.
Open Scope nat_scope.

(** ** Errors

    Go [error] values as the handlers build and inspect them:
    sentinels compared with [errors.Is], [errors.New] / [fmt.Errorf]
    messages, [errors.Join] pairs and PostgreSQL driver errors found with
    [errors.As]. *)

Inductive error : Type :=
| ErrRecordNotFound                       (* gorm.ErrRecordNotFound *)
| ErrConfigInUse                          (* kubernetes.ErrConfigInUse *)
| ErrNew (msg : string)                   (* errors.New, fmt.Errorf *)
| ErrPq (codeName detail : string)        (* *pq.Error *)
| ErrJoin (e1 e2 : error).                (* errors.Join(e1, e2) *)

#[global] Instance error_eq_dec : EqDecision error.
Proof. solve_decision. Defined.

(** [errors.Is(err, target)] for a sentinel [target]: the tree built by
    [errors.Join] is searched depth-first. *)
Fixpoint errors_Is (err target : error) : bool :=
  bool_decide (err = target) ||
  match err with
  | ErrJoin e1 e2 => errors_Is e1 target || errors_Is e2 target
  | _ => false
  end.

(** [errors.As(err, &pgErr)]: the first driver error in the tree, as its
    code name and detail. *)
Fixpoint errors_As_pq (err : error) : option (string * string) :=
  match err with
  | ErrPq c d => Some (c, d)
  | ErrJoin e1 e2 =>
      match errors_As_pq e1 with
      | Some r => Some r
      | None => errors_As_pq e2
      end
  | _ => None
  end.

Definition newline : string := String (Ascii.ascii_of_nat 10) EmptyString.

(** [err.Error()]. *)
Fixpoint Error_string (err : error) : string :=
  match err with
  | ErrRecordNotFound => "record not found"
  | ErrConfigInUse => "config is in use"
  | ErrNew m => m
  | ErrPq c d => "pq: " +:+ d
  | ErrJoin e1 e2 => Error_string e1 +:+ newline +:+ Error_string e2
  end.

Definition pgErrUniqueViolation : string := "unique_violation".

Inductive result (A : Type) : Type :=
| Ok (a : A)
| Err (e : error).
Arguments Ok {A} a.
Arguments Err {A} e.

(** ** Data model *)

(** The request-side [DatabaseCluster] generated from the OpenAPI schema:
    every sub-structure is a nillable pointer. *)
Module API.
Record BackupSource := { BackupStorageName : string }.
Record DataSource := { BackupSource_ : option BackupSource }.
Record Schedule := { ScheduleBackupStorageName : string }.
Record Backup := { Schedules : option (list Schedule) }.
Record Monitoring := { MonitoringConfigName : option string }.
Record Spec := {
  DataSource_ : option DataSource;
  Backup_ : option Backup;
  Monitoring_ : option Monitoring;
}.
Record DatabaseCluster := { Spec_ : option Spec }.
End API.

(** The stored [everestv1alpha1.DatabaseCluster]: [Spec] and [Spec.Backup]
    are values, [Schedules] is a slice, the monitoring name a plain string. *)
Module K8s.
Record BackupSource := { BackupStorageName : string }.
Record DataSource := { BackupSource_ : option BackupSource }.
Record BackupSchedule := { ScheduleBackupStorageName : string }.
Record Backup := { Schedules : list BackupSchedule }.
Record Monitoring := { MonitoringConfigName : string }.
Record Spec := {
  DataSource_ : option DataSource;
  Backup_ : Backup;
  Monitoring_ : option Monitoring;
}.
Record DatabaseCluster := { Spec_ : Spec }.
End K8s.

(** ** Reference resolver *)

(** [backupStorageNamesFrom]: names referenced by an incoming spec. *)
Definition backupStorageNamesFrom (dbc : API.DatabaseCluster) : gset string :=
  let names : gset string := ∅ in
  match API.Spec_ dbc with
  | None => names
  | Some spec =>
      let names :=
        match API.DataSource_ spec with
        | Some ds =>
            match API.BackupSource_ ds with
            | Some src => {[ API.BackupStorageName src ]} ∪ names
            | None => names
            end
        | None => names
        end in
      match API.Backup_ spec with
      | None => names
      | Some backup =>
          match API.Schedules backup with
          | None => names
          | Some schedules =>
              fold_left
                (fun names schedule =>
                   {[ API.ScheduleBackupStorageName schedule ]} ∪ names)
                schedules names
          end
      end
  end.

(** [monitoringNameFrom]. *)
Definition monitoringNameFrom (db : API.DatabaseCluster) : string :=
  match API.Spec_ db with
  | None => ""
  | Some spec =>
      match API.Monitoring_ spec with
      | None => ""
      | Some m =>
          match API.MonitoringConfigName m with
          | None => ""
          | Some n => n
          end
      end
  end.

(** [withBackupStorageNamesFromDBCluster]: adds to [existing] the non-empty
    names referenced by a stored cluster. *)
Definition withBackupStorageNamesFromDBCluster
    (existing : gset string) (dbc : K8s.DatabaseCluster) : gset string :=
  let spec := K8s.Spec_ dbc in
  let existing :=
    match K8s.DataSource_ spec with
    | Some ds =>
        match K8s.BackupSource_ ds with
        | Some src =>
            if bool_decide (K8s.BackupStorageName src ≠ "")
            then {[ K8s.BackupStorageName src ]} ∪ existing
            else existing
        | None => existing
        end
    | None => existing
    end in
  fold_left
    (fun existing schedule =>
       if bool_decide (K8s.ScheduleBackupStorageName schedule ≠ "")
       then {[ K8s.ScheduleBackupStorageName schedule ]} ∪ existing
       else existing)
    (K8s.Schedules (K8s.Backup_ spec)) existing.

(** [uniqueKeys source target]: the keys of [target] absent from [source]. *)
Definition uniqueKeys (source target : gset string) : gset string :=
  filter (fun key => key ∉ source) target.

(** ** Stored records *)

(** [model.BackupStorage]. *)
Record BackupStorage := {
  bsName : string;
  bsDescription : string;
  bsType : string;
  bsBucketName : string;
  bsURL : string;
  bsRegion : string;
  bsAccessKeyID : string;
  bsSecretKeyID : string;
}.

(** Modelled from the spec: [model.MonitoringInstance] is declared in
    package [model]; a monitoring instance has a unique name, a monitoring
    type, an endpoint URL and one opaque secret reference. *)
Record MonitoringInstance := {
  miName : string;
  miType : string;
  miURL : string;
  miAPIKeySecretID : string;
}.

(** [model.KubernetesCluster], as far as [initKubeClient] reads it. *)
Record KubernetesCluster := {
  kID : string;
  kNamespace : string;
}.

(** The client returned by [kubernetes.NewFromSecretsStorage] for one
    registered cluster. *)
Record Kubernetes := {
  kubeID : string;
  kubeNamespace : string;
}.

(** What [EnsureConfigExists], [UpdateConfig] and [DeleteConfig] accept. *)
Inductive Config : Type :=
| CfgBackupStorage (bs : BackupStorage)
| CfgMonitoring (i : MonitoringInstance).

Definition configName (cfg : Config) : string :=
  match cfg with
  | CfgBackupStorage bs => bsName bs
  | CfgMonitoring i => miName i
  end.

(** [model.CreateBackupStorageParams] and [model.UpdateBackupStorageParams]. *)
Record ModelCreateBackupStorageParams := {
  mcName : string;
  mcDescription : string;
  mcType : string;
  mcBucketName : string;
  mcURL : string;
  mcRegion : string;
  mcAccessKeyID : string;
  mcSecretKeyID : string;
}.

Record ModelUpdateBackupStorageParams := {
  muName : string;
  muDescription : option string;
  muBucketName : option string;
  muURL : option string;
  muRegion : option string;
  muAccessKeyID : option string;
  muSecretKeyID : option string;
}.

(** Request bodies of the backup-storage endpoints, after validation. *)
Record CreateBackupStorageParams := {
  cpName : string;
  cpDescription : option string;
  cpType : string;
  cpBucketName : string;
  cpUrl : option string;
  cpRegion : string;
  cpAccessKey : string;
  cpSecretKey : string;
}.

Record UpdateBackupStorageParams := {
  upDescription : option string;
  upBucketName : option string;
  upUrl : option string;
  upRegion : option string;
  upAccessKey : option string;
  upSecretKey : option string;
}.

(** The [BackupStorage] object of the REST API. *)
Record APIBackupStorage := {
  apiType : string;
  apiName : string;
  apiDescription : string;
  apiBucketName : string;
  apiRegion : string;
  apiUrl : string;
}.

(** ** Goroutines, calls and the world *)

(** The functions started with [go] by the handlers, with their arguments. *)
Inductive Task : Type :=
| go_deleteK8SBackupStorages (kubeClient : Kubernetes) (names : gset string)
| go_deleteK8SMonitoringConfig (kubeClient : Kubernetes) (name : string)
| go_deleteBackupStoragesOnUpdate
    (kubeClient : Kubernetes) (oldDB : K8s.DatabaseCluster) (newNames : gset string)
| go_deleteMonitoringInstanceOnUpdate
    (kubeClient : Kubernetes) (oldDB : K8s.DatabaseCluster) (newName : string).

(** [DeleteConfig] receives the in-use predicate as a closure; the handlers
    pass one of these two. *)
Inductive InUseCheck : Type :=
| IsBackupStorageConfigInUse
| IsMonitoringConfigInUse.

(** Calls to the collaborators: metadata store, secrets vault, Kubernetes. *)
Inductive Call : Type :=
| CGetBackupStorage (name : string)
| CCreateBackupStorage (params : ModelCreateBackupStorageParams)
| CUpdateBackupStorage (params : ModelUpdateBackupStorageParams)
| CCommit
| CGetMonitoringInstance (name : string)
| CListKubernetesClusters
| CGetKubernetesCluster (id : string)
| CGetSecret (id : string)
| CCreateSecret (id value : string)
| CDeleteSecret (id : string)
| CNewFromSecretsStorage (id namespace : string)
| CGetDatabaseCluster (kubeClient : Kubernetes) (name : string)
| CEnsureConfigExists (kubeClient : Kubernetes) (cfg : Config)
| CUpdateConfig (kubeClient : Kubernetes) (cfg : Config)
| CDeleteConfig (kubeClient : Kubernetes) (cfg : Config) (inUse : InUseCheck).

(** One entry of the chronological record: a collaborator call with the
    error it returned ([None] for success), the cluster object a successful
    [GetDatabaseCluster] returned, the proxied Kubernetes request with the
    error and the response status it produced, or a log line. *)
Inductive Event : Type :=
| Called (c : Call) (err : option error)
| GotDatabaseCluster (kubeClient : Kubernetes) (name : string) (db : K8s.DatabaseCluster)
| Proxied (kubernetesID name : string) (err : option error) (status : nat)
| LogError (e : error)
| LogErrorf (msg : string).

(** The persistent stores: the tables of the metadata store, row by row,
    and the secrets vault, from generated id to value. *)
Record Stores := {
  storages : list BackupStorage;
  monitoringInstances : list MonitoringInstance;
  kubernetesClusters : list KubernetesCluster;
  secrets : gmap string string;
}.

Record World := {
  stores : Stores;
  waitGroup : nat;                 (* e.waitGroup: goroutines in flight *)
  panicked : bool;                 (* a [Done] found the counter at zero *)
  goroutines : list Task;          (* started with [go], not yet run *)
  trace : list Event;              (* every call so far, oldest first *)
  history : list Stores;           (* the stores after each write, oldest first *)
}.

Definition emit (ev : Event) (w : World) : World :=
  {| stores := stores w; waitGroup := waitGroup w; panicked := panicked w;
     goroutines := goroutines w; trace := trace w ++ [ev]; history := history w |}.

Definition write (s : Stores) (w : World) : World :=
  {| stores := s; waitGroup := waitGroup w; panicked := panicked w;
     goroutines := goroutines w; trace := trace w; history := history w ++ [s] |}.

Definition set_storages (m : list BackupStorage) (s : Stores) : Stores :=
  {| storages := m; monitoringInstances := monitoringInstances s;
     kubernetesClusters := kubernetesClusters s; secrets := secrets s |}.

Definition set_secrets (m : gmap string string) (s : Stores) : Stores :=
  {| storages := storages s; monitoringInstances := monitoringInstances s;
     kubernetesClusters := kubernetesClusters s; secrets := m |}.

(** The decoded request: what [getBodyFromContext] and the request
    validators of the backup-storage endpoints return for it. *)
Record Context := {
  bodyDatabaseCluster : result API.DatabaseCluster;
  bodyCreateBackupStorage : result CreateBackupStorageParams;
  bodyUpdateBackupStorage : result UpdateBackupStorageParams;
}.

(** The environment of a run: everything the handlers cannot decide.
    Each answer may depend on the whole world, hence on all earlier calls. *)
Record Env := {
  (* [Some e]: the call fails with [e]; for the stores, without effect *)
  fault : World → Call → option error;
  (* the cluster object Kubernetes returns *)
  storedDatabaseCluster : World → Kubernetes → string → K8s.DatabaseCluster;
  (* the error and response status of a proxied request *)
  proxyResponse : World → string → string → option error * nat;
  validateDatabaseClusterCR : World → string → API.DatabaseCluster → option error;
  validateDatabaseClusterOnUpdate :
    API.DatabaseCluster → K8s.DatabaseCluster → option error;
  validateStorageAccessByUpdate :
    World → BackupStorage → string → string → UpdateBackupStorageParams → option error;
  (* kubernetes.BackupStorageNamesFromDBCluster *)
  BackupStorageNamesFromDBCluster : K8s.DatabaseCluster → gset string;
  (* uuid.NewString: an id no secret is stored under *)
  uuid_NewString : World → string;
  uuid_fresh : ∀ w, secrets (stores w) !! uuid_NewString w = None;
  (* the order in which a [range] visits the keys of a map *)
  rangeKeys : World → gset string → list string;
  rangeKeys_perm : ∀ w s, rangeKeys w s ≡ₚ elements s;
}.

(** ** The handler monad: state passing over the world *)

Definition M (A : Type) : Type := World → A * World.

Definition ret {A} (a : A) : M A := fun w => (a, w).

Definition bind {A B} (m : M A) (k : A → M B) : M B :=
  fun w => let (a, w1) := m w in k a w1.

Declare Scope go_scope.
Delimit Scope go_scope with go.
Notation "x <- c ;; k" := (bind c (fun x => k))
  (at level 100, c at next level, right associativity) : go_scope.
Notation "c ;; k" := (bind c (fun _ => k))
  (at level 100, right associativity) : go_scope.
Open Scope go_scope.

Definition log_Error (e : error) : M unit := fun w => (tt, emit (LogError e) w).
Definition log_Errorf (msg : string) : M unit := fun w => (tt, emit (LogErrorf msg) w).

Definition result_err {A} (r : result A) : option error :=
  match r with
  | Ok _ => None
  | Err e => Some e
  end.

(** net/http status codes used by the handlers. *)
Definition StatusOK : nat := 200.
Definition StatusMultipleChoices : nat := 300.
Definition StatusBadRequest : nat := 400.
Definition StatusNotFound : nat := 404.
Definition StatusConflict : nat := 409.
Definition StatusInternalServerError : nat := 500.

(** What a handler hands back to the HTTP layer. *)
Inductive Body : Type :=
| BodyError (message : string)
| BodyBackupStorage (bs : APIBackupStorage).

Inductive Reply : Type :=
| JSON (code : nat) (body : Body)          (* return ctx.JSON(code, body) *)
| Proxy (err : option error) (status : nat)  (* response written by the proxy *)
| Failed (e : error).                      (* a Go error, nothing written *)

Section Server.

Context (env : Env).

(** *** Collaborators *)

(** Modelled from the spec: the metadata store ([e.storage]) is
    implemented in package [model]. Its operations are fallible with a
    distinguishable not-found condition; a failed call has no effect. *)
Definition storage_GetBackupStorage (name : string) : M (result BackupStorage) :=
  fun w =>
    let r := match fault env w (CGetBackupStorage name) with
             | Some e => Err e
             | None =>
                 match find (fun bs => bool_decide (bsName bs = name))
                            (storages (stores w)) with
                 | Some bs => Ok bs
                 | None => Err ErrRecordNotFound
                 end
             end in
    (r, emit (Called (CGetBackupStorage name) (result_err r)) w).

Definition storage_GetMonitoringInstance (name : string) : M (result MonitoringInstance) :=
  fun w =>
    let r := match fault env w (CGetMonitoringInstance name) with
             | Some e => Err e
             | None =>
                 match find (fun i => bool_decide (miName i = name))
                            (monitoringInstances (stores w)) with
                 | Some i => Ok i
                 | None => Err ErrRecordNotFound
                 end
             end in
    (r, emit (Called (CGetMonitoringInstance name) (result_err r)) w).

Definition storage_ListKubernetesClusters : M (result (list KubernetesCluster)) :=
  fun w =>
    let r := match fault env w CListKubernetesClusters with
             | Some e => Err e
             | None => Ok (kubernetesClusters (stores w))
             end in
    (r, emit (Called CListKubernetesClusters (result_err r)) w).

Definition storage_GetKubernetesCluster (id : string) : M (result KubernetesCluster) :=
  fun w =>
    let r := match fault env w (CGetKubernetesCluster id) with
             | Some e => Err e
             | None =>
                 match find (fun k => bool_decide (kID k = id))
                            (kubernetesClusters (stores w)) with
                 | Some k => Ok k
                 | None => Err ErrRecordNotFound
                 end
             end in
    (r, emit (Called (CGetKubernetesCluster id) (result_err r)) w).

Definition newBackupStorage (p : ModelCreateBackupStorageParams) : BackupStorage :=
  {| bsName := mcName p; bsDescription := mcDescription p; bsType := mcType p;
     bsBucketName := mcBucketName p; bsURL := mcURL p; bsRegion := mcRegion p;
     bsAccessKeyID := mcAccessKeyID p; bsSecretKeyID := mcSecretKeyID p |}.

(** The name is the natural key: inserting a second record under it is a
    unique violation. *)
Definition storage_CreateBackupStorage (p : ModelCreateBackupStorageParams)
    : M (result BackupStorage) :=
  fun w =>
    match fault env w (CCreateBackupStorage p) with
    | Some e => (Err e, emit (Called (CCreateBackupStorage p) (Some e)) w)
    | None =>
        match find (fun bs => bool_decide (bsName bs = mcName p))
                   (storages (stores w)) with
        | Some _ =>
            let e := ErrPq pgErrUniqueViolation (mcName p) in
            (Err e, emit (Called (CCreateBackupStorage p) (Some e)) w)
        | None =>
            let bs := newBackupStorage p in
            (Ok bs,
             emit (Called (CCreateBackupStorage p) None)
               (write (set_storages (storages (stores w) ++ [bs]) (stores w)) w))
        end
    end.

(** A [nil] field of the update parameters keeps the stored value. *)
Definition updatedBackupStorage (p : ModelUpdateBackupStorageParams)
    (old : BackupStorage) : BackupStorage :=
  {| bsName := bsName old;
     bsDescription := default (bsDescription old) (muDescription p);
     bsType := bsType old;
     bsBucketName := default (bsBucketName old) (muBucketName p);
     bsURL := default (bsURL old) (muURL p);
     bsRegion := default (bsRegion old) (muRegion p);
     bsAccessKeyID := default (bsAccessKeyID old) (muAccessKeyID p);
     bsSecretKeyID := default (bsSecretKeyID old) (muSecretKeyID p) |}.

Definition storage_UpdateBackupStorage (p : ModelUpdateBackupStorageParams)
    : M (option error) :=
  fun w =>
    match fault env w (CUpdateBackupStorage p) with
    | Some e => (Some e, emit (Called (CUpdateBackupStorage p) (Some e)) w)
    | None =>
        match find (fun bs => bool_decide (bsName bs = muName p))
                   (storages (stores w)) with
        | None =>
            (Some ErrRecordNotFound,
             emit (Called (CUpdateBackupStorage p) (Some ErrRecordNotFound)) w)
        | Some _ =>
            (None,
             emit (Called (CUpdateBackupStorage p) None)
               (write (set_storages
                         (map (fun bs =>
                                 if bool_decide (bsName bs = muName p)
                                 then updatedBackupStorage p bs else bs)
                              (storages (stores w)))
                         (stores w)) w))
        end
    end.

(** [e.storage.Transaction(func(tx) error {...})]: the metadata written by
    the body is kept when the body returns [nil] and the commit succeeds,
    and undone otherwise. The vault is not part of the transaction. *)
Definition storage_Transaction {A} (body : M (A * option error)) : M (A * option error) :=
  fun w =>
    let '((a, r), w1) := body w in
    let undone := write (set_storages (storages (stores w)) (stores w1)) w1 in
    match r with
    | Some e => ((a, Some e), undone)
    | None =>
        match fault env w1 CCommit with
        | Some e => ((a, Some e), emit (Called CCommit (Some e)) undone)
        | None => ((a, None), emit (Called CCommit None) w1)
        end
    end.

(** Modelled from the spec: the secrets vault ([e.secretsStorage]) is an
    interface of the server, implemented elsewhere. [GetSecret],
    [CreateSecret] and [DeleteSecret] are fallible, without partial
    writes. *)
Definition secrets_GetSecret (id : string) : M (result string) :=
  fun w =>
    let r := match fault env w (CGetSecret id) with
             | Some e => Err e
             | None =>
                 match secrets (stores w) !! id with
                 | Some v => Ok v
                 | None => Err ErrRecordNotFound
                 end
             end in
    (r, emit (Called (CGetSecret id) (result_err r)) w).

Definition secrets_CreateSecret (id value : string) : M (option error) :=
  fun w =>
    match fault env w (CCreateSecret id value) with
    | Some e => (Some e, emit (Called (CCreateSecret id value) (Some e)) w)
    | None =>
        (None,
         emit (Called (CCreateSecret id value) None)
           (write (set_secrets (<[id := value]> (secrets (stores w))) (stores w)) w))
    end.

Definition secrets_DeleteSecret (id : string) : M (option error) :=
  fun w =>
    match fault env w (CDeleteSecret id) with
    | Some e => (Some e, emit (Called (CDeleteSecret id) (Some e)) w)
    | None =>
        (None,
         emit (Called (CDeleteSecret id) None)
           (write (set_secrets (delete id (secrets (stores w))) (stores w)) w))
    end.

(** The Kubernetes client (package [kubernetes]) and the proxy are
    collaborators of the handlers: whether a call fails is the
    environment's choice. *)
Definition kube_call (c : Call) : M (option error) :=
  fun w => let r := fault env w c in (r, emit (Called c r) w).

Definition kubernetes_NewFromSecretsStorage (id namespace : string) : M (result Kubernetes) :=
  r <- kube_call (CNewFromSecretsStorage id namespace) ;;
  match r with
  | Some e => ret (Err e)
  | None => ret (Ok {| kubeID := id; kubeNamespace := namespace |})
  end.

Definition kube_GetDatabaseCluster (kubeClient : Kubernetes) (name : string)
    : M (result K8s.DatabaseCluster) :=
  fun w =>
    match fault env w (CGetDatabaseCluster kubeClient name) with
    | Some e => (Err e, emit (Called (CGetDatabaseCluster kubeClient name) (Some e)) w)
    | None =>
        let db := storedDatabaseCluster env w kubeClient name in
        (Ok db, emit (GotDatabaseCluster kubeClient name db) w)
    end.

Definition kube_EnsureConfigExists (kubeClient : Kubernetes) (cfg : Config) : M (option error) :=
  kube_call (CEnsureConfigExists kubeClient cfg).

Definition kube_UpdateConfig (kubeClient : Kubernetes) (cfg : Config) : M (option error) :=
  kube_call (CUpdateConfig kubeClient cfg).

Definition kube_DeleteConfig (kubeClient : Kubernetes) (cfg : Config)
    (inUse : InUseCheck) : M (option error) :=
  kube_call (CDeleteConfig kubeClient cfg inUse).

(** [e.proxyKubernetes]: returns the proxy error together with the status
    of the response it wrote ([ctx.Response().Status]). *)
Definition proxyKubernetes (kubernetesID name : string) : M (option error * nat) :=
  fun w =>
    let '(err, status) := proxyResponse env w kubernetesID name in
    ((err, status), emit (Proxied kubernetesID name err status) w).

Definition uuid_New : M string := fun w => (uuid_NewString env w, w).

Definition range (m : gset string) : M (list string) :=
  fun w => (rangeKeys env w m, w).

(** [e.waitGroup.Add(n)], for the positive [n] the handlers pass. *)
Definition waitGroup_Add (n : nat) : M unit :=
  fun w => (tt, {| stores := stores w; waitGroup := waitGroup w + n;
                   panicked := panicked w; goroutines := goroutines w;
                   trace := trace w; history := history w |}).

(** [e.waitGroup.Done()] decrements the counter. With the counter at zero
    it would become negative: [sync.WaitGroup] panics ("sync: negative
    WaitGroup counter"), which ends the process. The world is marked then,
    and stays marked. *)
Definition waitGroup_Done : M unit :=
  fun w =>
    match waitGroup w with
    | 0 =>
        (tt, {| stores := stores w; waitGroup := 0; panicked := true;
                goroutines := goroutines w; trace := trace w;
                history := history w |})
    | S n =>
        (tt, {| stores := stores w; waitGroup := n; panicked := panicked w;
                goroutines := goroutines w; trace := trace w;
                history := history w |})
    end.

Definition go (t : Task) : M unit :=
  fun w => (tt, {| stores := stores w; waitGroup := waitGroup w;
                   panicked := panicked w; goroutines := goroutines w ++ [t];
                   trace := trace w; history := history w |}).

(** *** api/everest.go *)

(** [initKubeClient]: the cluster record, then a client for it. *)
Definition initKubeClient (kubernetesID : string) : M (result Kubernetes * nat) :=
  k <- storage_GetKubernetesCluster kubernetesID ;;
  match k with
  | Err err =>
      log_Error err ;;
      ret (Err (ErrNew "could not find Kubernetes cluster"), StatusBadRequest)
  | Ok k =>
      kubeClient <- kubernetes_NewFromSecretsStorage (kID k) (kNamespace k) ;;
      match kubeClient with
      | Err err =>
          log_Error err ;;
          ret (Err (ErrNew "could not create Kubernetes client from kubeconfig"),
               StatusInternalServerError)
      | Ok kubeClient => ret (Ok kubeClient, 0)
      end
  end.

(** *** api/database_cluster.go *)

(** [rollbackCreatedBackupStorages]. *)
Fixpoint rollbackCreatedBackupStorages (kubeClient : Kubernetes)
    (toDelete : list string) : M unit :=
  match toDelete with
  | [] => ret tt
  | name :: toDelete =>
      bs <- storage_GetBackupStorage name ;;
      match bs with
      | Err err =>
          log_Error (ErrJoin err (ErrNew "could not get backup storage")) ;;
          rollbackCreatedBackupStorages kubeClient toDelete
      | Ok bs =>
          err <- kube_DeleteConfig kubeClient (CfgBackupStorage bs)
                   IsBackupStorageConfigInUse ;;
          match err with
          | Some err =>
              if negb (errors_Is err ErrConfigInUse) then
                log_Error (ErrJoin err (ErrNew "could not delete backup storage config")) ;;
                rollbackCreatedBackupStorages kubeClient toDelete
              else rollbackCreatedBackupStorages kubeClient toDelete
          | None => rollbackCreatedBackupStorages kubeClient toDelete
          end
      end
  end.

(** The [for name := range ...] loop shared by [createK8SBackupStorages]
    and [createBackupStoragesOnUpdate]; [keys] are the keys still to visit
    and [processed] the slice built so far. *)
Fixpoint createBackupStorages_loop (kubeClient : Kubernetes)
    (keys processed : list string) : M (option error) :=
  match keys with
  | [] => ret None
  | name :: keys =>
      bs <- storage_GetBackupStorage name ;;
      match bs with
      | Err err => ret (Some (ErrJoin err (ErrNew "could not get backup storage")))
      | Ok bs =>
          err <- kube_EnsureConfigExists kubeClient (CfgBackupStorage bs) ;;
          match err with
          | Some err =>
              rollbackCreatedBackupStorages kubeClient processed ;;
              ret (Some (ErrJoin err (ErrNew ("could not create CRs for " +:+ name))))
          | None => createBackupStorages_loop kubeClient keys (processed ++ [name])
          end
      end
  end.

(** [createK8SBackupStorages]. *)
Definition createK8SBackupStorages (kubeClient : Kubernetes)
    (names : gset string) : M (option error) :=
  if bool_decide (size names = 0) then ret None
  else
    keys <- range names ;;
    createBackupStorages_loop kubeClient keys [].

(** [deleteK8SMonitoringConfig], run as a goroutine. *)
Definition deleteK8SMonitoringConfig (kubeClient : Kubernetes) (name : string) : M unit :=
  (i <- storage_GetMonitoringInstance name ;;
   match i with
   | Err err => log_Error (ErrJoin err (ErrNew "could get monitoring instance"))
   | Ok i =>
       err <- kube_DeleteConfig kubeClient (CfgMonitoring i) IsMonitoringConfigInUse ;;
       match err with
       | Some err =>
           if negb (errors_Is err ErrConfigInUse) then
             log_Error (ErrJoin err
               (ErrNew "could not delete monitoring config in Kubernetes"))
           else ret tt
       | None => ret tt
       end
   end) ;;
  waitGroup_Done.                                   (* defer e.waitGroup.Done() *)

Fixpoint deleteK8SBackupStorages_loop (kubeClient : Kubernetes)
    (keys : list string) : M unit :=
  match keys with
  | [] => ret tt
  | name :: keys =>
      bs <- storage_GetBackupStorage name ;;
      match bs with
      | Err err =>
          log_Error (ErrJoin err (ErrNew "could not get backup storage")) ;;
          deleteK8SBackupStorages_loop kubeClient keys
      | Ok bs =>
          err <- kube_DeleteConfig kubeClient (CfgBackupStorage bs)
                   IsBackupStorageConfigInUse ;;
          match err with
          | Some err =>
              if negb (errors_Is err ErrConfigInUse) then
                log_Error (ErrJoin err
                  (ErrNew "could not delete backup storage config in Kubernetes")) ;;
                deleteK8SBackupStorages_loop kubeClient keys
              else deleteK8SBackupStorages_loop kubeClient keys
          | None => deleteK8SBackupStorages_loop kubeClient keys
          end
      end
  end.

(** [deleteK8SBackupStorages], run as a goroutine. *)
Definition deleteK8SBackupStorages (kubeClient : Kubernetes) (names : gset string) : M unit :=
  (keys <- range names ;;
   deleteK8SBackupStorages_loop kubeClient keys) ;;
  waitGroup_Done.                                   (* defer e.waitGroup.Done() *)

(** [deleteK8SBackupStorage]. *)
Definition deleteK8SBackupStorage (kubeClient : Kubernetes) (name : string)
    : M (option error) :=
  bs <- storage_GetBackupStorage name ;;
  match bs with
  | Err err => ret (Some (ErrJoin err (ErrNew "could not find backup storage")))
  | Ok bs =>
      err <- kube_DeleteConfig kubeClient (CfgBackupStorage bs)
               IsBackupStorageConfigInUse ;;
      match err with
      | Some err =>
          if negb (errors_Is err ErrConfigInUse) then
            ret (Some (ErrJoin err (ErrNew "could not delete config in Kubernetes")))
          else ret None
      | None => ret None
      end
  end.

(** [createBackupStoragesOnUpdate]. *)
Definition createBackupStoragesOnUpdate (kubeClient : Kubernetes)
    (oldNames newNames : gset string) : M (option error) :=
  let toCreate := uniqueKeys oldNames newNames in
  keys <- range toCreate ;;
  createBackupStorages_loop kubeClient keys [].

Fixpoint deleteBackupStoragesOnUpdate_loop (kubeClient : Kubernetes)
    (keys : list string) : M unit :=
  match keys with
  | [] => ret tt
  | name :: keys =>
      err <- deleteK8SBackupStorage kubeClient name ;;
      match err with
      | Some err =>
          if negb (errors_Is err ErrConfigInUse) then
            log_Error (ErrJoin err (ErrNew ("could not delete CRs for " +:+ name))) ;;
            deleteBackupStoragesOnUpdate_loop kubeClient keys
          else deleteBackupStoragesOnUpdate_loop kubeClient keys
      | None => deleteBackupStoragesOnUpdate_loop kubeClient keys
      end
  end.

(** [deleteBackupStoragesOnUpdate], run as a goroutine. *)
Definition deleteBackupStoragesOnUpdate (kubeClient : Kubernetes)
    (oldDB : K8s.DatabaseCluster) (newNames : gset string) : M unit :=
  (let oldNames := withBackupStorageNamesFromDBCluster ∅ oldDB in
   let toDelete := uniqueKeys newNames oldNames in
   keys <- range toDelete ;;
   deleteBackupStoragesOnUpdate_loop kubeClient keys) ;;
  waitGroup_Done.                                   (* defer e.waitGroup.Done() *)

(** The [oldName] both monitoring helpers compute from the stored cluster. *)
Definition oldMonitoringName (oldDB : K8s.DatabaseCluster) : string :=
  match K8s.Monitoring_ (K8s.Spec_ oldDB) with
  | Some m => K8s.MonitoringConfigName m
  | None => ""
  end.

(** [createMonitoringInstanceOnUpdate]. *)
Definition createMonitoringInstanceOnUpdate (kubeClient : Kubernetes)
    (oldDB : K8s.DatabaseCluster) (newName : string) : M (option error) :=
  let oldName := oldMonitoringName oldDB in
  if bool_decide (newName ≠ "") && bool_decide (newName ≠ oldName) then
    i <- storage_GetMonitoringInstance newName ;;
    match i with
    | Err err => ret (Some (ErrJoin err (ErrNew "could not get monitoring instance")))
    | Ok i =>
        err <- kube_EnsureConfigExists kubeClient (CfgMonitoring i) ;;
        match err with
        | Some err =>
            ret (Some (ErrJoin err
                   (ErrNew "could not create monitoring config in Kubernetes")))
        | None => ret None
        end
    end
  else ret None.

(** [deleteMonitoringInstanceOnUpdate], run as a goroutine. *)
Definition deleteMonitoringInstanceOnUpdate (kubeClient : Kubernetes)
    (oldDB : K8s.DatabaseCluster) (newName : string) : M unit :=
  (let oldName := oldMonitoringName oldDB in
   if bool_decide (oldName ≠ "") && bool_decide (newName ≠ oldName) then
     i <- storage_GetMonitoringInstance oldName ;;
     match i with
     | Err err => log_Error (ErrJoin err (ErrNew "could not get monitoring instance"))
     | Ok i =>
         err <- kube_DeleteConfig kubeClient (CfgMonitoring i) IsMonitoringConfigInUse ;;
         match err with
         | Some err =>
             if negb (errors_Is err ErrConfigInUse) then
               log_Error (ErrJoin err
                 (ErrNew "could not delete monitoring config from Kubernetes"))
             else ret tt
         | None => ret tt
         end
     end
   else ret tt) ;;
  waitGroup_Done.                                   (* defer e.waitGroup.Done() *)

(** [createResources]. *)
Definition createResources (oldDB : K8s.DatabaseCluster) (kubeClient : Kubernetes)
    (newMonitoringName : string) (newBackupNames : gset string) : M (option error) :=
  let oldNames := withBackupStorageNamesFromDBCluster ∅ oldDB in
  err <- createBackupStoragesOnUpdate kubeClient oldNames newBackupNames ;;
  match err with
  | Some err =>
      log_Error err ;;
      ret (Some (ErrNew "could not create new BackupStorages in Kubernetes"))
  | None =>
      err <- createMonitoringInstanceOnUpdate kubeClient oldDB newMonitoringName ;;
      match err with
      | Some err =>
          log_Error err ;;
          ret (Some (ErrNew "could not create new monitoring configs in Kubernetes"))
      | None => ret None
      end
  end.

(** [CreateDatabaseCluster]. *)
Definition CreateDatabaseCluster (ctx : Context) (kubernetesID : string) : M Reply :=
  match bodyDatabaseCluster ctx with
  | Err err =>
      log_Error err ;;
      ret (JSON StatusBadRequest
             (BodyError "Could not get DatabaseCluster from the request body"))
  | Ok dbc =>
      fun w =>
      match validateDatabaseClusterCR env w kubernetesID dbc with
      | Some err => ret (JSON StatusBadRequest (BodyError (Error_string err))) w
      | None =>
          (k <- initKubeClient kubernetesID ;;
           match k with
           | (Err err, code) => ret (JSON code (BodyError (Error_string err)))
           | (Ok kubeClient, _) =>
               let backupNames := backupStorageNamesFrom dbc in
               err <- createK8SBackupStorages kubeClient backupNames ;;
               match err with
               | Some err =>
                   log_Error err ;;
                   ret (JSON StatusInternalServerError
                          (BodyError "Could not create BackupStorage"))
               | None =>
                   let monitoringName := monitoringNameFrom dbc in
                   let proxy :=
                     (r <- proxyKubernetes kubernetesID "" ;;
                      ret (Proxy (fst r) (snd r))) in
                   if bool_decide (monitoringName ≠ "") then
                     i <- storage_GetMonitoringInstance monitoringName ;;
                     match i with
                     | Err _ =>
                         ret (JSON StatusBadRequest
                                (BodyError "Could not find monitoring instance"))
                     | Ok i =>
                         err <- kube_EnsureConfigExists kubeClient (CfgMonitoring i) ;;
                         match err with
                         | Some err =>
                             log_Error err ;;
                             ret (JSON StatusBadRequest
                                    (BodyError "Could not create monitoring config in Kubernetes"))
                         | None => proxy
                         end
                     end
                   else proxy
               end
           end) w
      end
  end.

(** [DeleteDatabaseCluster]. *)
Definition DeleteDatabaseCluster (ctx : Context) (kubernetesID name : string) : M Reply :=
  k <- initKubeClient kubernetesID ;;
  match k with
  | (Err err, code) => ret (JSON code (BodyError (Error_string err)))
  | (Ok kubeClient, _) =>
      db <- kube_GetDatabaseCluster kubeClient name ;;
      match db with
      | Err err =>
          log_Error err ;;
          ret (JSON StatusInternalServerError
                 (BodyError "Could not get database cluster"))
      | Ok db =>
          r <- proxyKubernetes kubernetesID name ;;
          let '(proxyErr, status) := r in
          match proxyErr with
          | Some _ => ret (Proxy proxyErr status)
          | None =>
              if bool_decide (StatusMultipleChoices ≤ status) then
                ret (Proxy None status)
              else
                let names := BackupStorageNamesFromDBCluster env db in
                waitGroup_Add 1 ;;
                go (go_deleteK8SBackupStorages kubeClient names) ;;
                match K8s.Monitoring_ (K8s.Spec_ db) with
                | Some m =>
                    if bool_decide (K8s.MonitoringConfigName m ≠ "") then
                      waitGroup_Add 1 ;;
                      go (go_deleteK8SMonitoringConfig kubeClient
                            (K8s.MonitoringConfigName m)) ;;
                      ret (Proxy None status)
                    else ret (Proxy None status)
                | None => ret (Proxy None status)
                end
          end
      end
  end.

(** [UpdateDatabaseCluster]. *)
Definition UpdateDatabaseCluster (ctx : Context) (kubernetesID name : string) : M Reply :=
  match bodyDatabaseCluster ctx with
  | Err err =>
      log_Error err ;;
      ret (JSON StatusBadRequest
             (BodyError "Could not get DatabaseCluster from the request body"))
  | Ok dbc =>
      fun w =>
      match validateDatabaseClusterCR env w kubernetesID dbc with
      | Some err => ret (JSON StatusBadRequest (BodyError (Error_string err))) w
      | None =>
          (k <- initKubeClient kubernetesID ;;
           match k with
           | (Err err, code) => ret (JSON code (BodyError (Error_string err)))
           | (Ok kubeClient, _) =>
               oldDB <- kube_GetDatabaseCluster kubeClient name ;;
               match oldDB with
               | Err err =>
                   ret (Failed (ErrJoin err (ErrNew "could not get old Database Cluster")))
               | Ok oldDB =>
                   match validateDatabaseClusterOnUpdate env dbc oldDB with
                   | Some err => ret (JSON StatusBadRequest (BodyError (Error_string err)))
                   | None =>
                       let newMonitoringName := monitoringNameFrom dbc in
                       let newBackupNames := backupStorageNamesFrom dbc in
                       err <- createResources oldDB kubeClient
                                newMonitoringName newBackupNames ;;
                       match err with
                       | Some err =>
                           ret (JSON StatusInternalServerError
                                  (BodyError (Error_string err)))
                       | None =>
                           r <- proxyKubernetes kubernetesID name ;;
                           let '(proxyErr, status) := r in
                           match proxyErr with
                           | Some _ => ret (Proxy proxyErr status)
                           | None =>
                               if bool_decide (StatusMultipleChoices ≤ status) then
                                 ret (Proxy None status)
                               else
                                 waitGroup_Add 1 ;;
                                 go (go_deleteBackupStoragesOnUpdate
                                       kubeClient oldDB newBackupNames) ;;
                                 waitGroup_Add 1 ;;
                                 go (go_deleteMonitoringInstanceOnUpdate
                                       kubeClient oldDB newMonitoringName) ;;
                                 ret (Proxy None status)
                           end
                       end
                   end
               end
           end) w
      end
  end.

(** *** api/backup_storage.go *)

Definition toAPIBackupStorage (s : BackupStorage) : APIBackupStorage :=
  {| apiType := bsType s; apiName := bsName s; apiDescription := bsDescription s;
     apiBucketName := bsBucketName s; apiRegion := bsRegion s; apiUrl := bsURL s |}.

Definition unusedSecretMessage (id : string) : string :=
  "Failed to delete unused secret, please delete it manually. id = " +:+ id.

(** [cleanUpNewSecretsOnUpdateError]. *)
Definition cleanUpNewSecretsOnUpdateError (err : option error)
    (newAccessKeyID newSecretKeyID : option string) : M unit :=
  match err with
  | None => ret tt
  | Some _ =>
      match newAccessKeyID with
      | Some id =>
          err <- secrets_DeleteSecret id ;;
          match err with
          | Some _ => log_Errorf (unusedSecretMessage id)
          | None => ret tt
          end
      | None => ret tt
      end ;;
      match newSecretKeyID with
      | Some id =>
          err <- secrets_DeleteSecret id ;;
          match err with
          | Some _ => log_Errorf (unusedSecretMessage id)
          | None => ret tt
          end
      | None => ret tt
      end
  end.

(** [createSecrets]: returns [(newAccessKeyID, newSecretKeyID, err)]. *)
Definition createSecrets (accessKey secretKey : option string)
    : M (option string * option string * option error) :=
  let second (newAccessKeyID : option string) :=
    match secretKey with
    | Some secretKey =>
        newID <- uuid_New ;;
        err <- secrets_CreateSecret newID secretKey ;;
        match err with
        | Some err =>
            log_Error err ;;
            ret (newAccessKeyID, Some newID,
                 Some (ErrNew "could not store secret key in secrets storage"))
        | None => ret (newAccessKeyID, Some newID, None)
        end
    | None => ret (newAccessKeyID, None, None)
    end in
  match accessKey with
  | Some accessKey =>
      newID <- uuid_New ;;
      err <- secrets_CreateSecret newID accessKey ;;
      match err with
      | Some err =>
          log_Error err ;;
          ret (Some newID, None,
               Some (ErrNew "could not store access key in secrets storage"))
      | None => second (Some newID)
      end
  | None => second None
  end.

(** [createBackupStorage]. The two ids are dereferenced; the only caller
    passes the ids [createSecrets] returned for two non-nil keys. *)
Definition createBackupStorage (params : CreateBackupStorageParams)
    (accessKeyID secretKeyID : option string) : M (result BackupStorage) :=
  let url := default "" (cpUrl params) in
  let description := default "" (cpDescription params) in
  storage_CreateBackupStorage
    {| mcName := cpName params; mcDescription := description;
       mcType := cpType params; mcBucketName := cpBucketName params;
       mcURL := url; mcRegion := cpRegion params;
       mcAccessKeyID := default "" accessKeyID;
       mcSecretKeyID := default "" secretKeyID |}.

(** [CreateBackupStorage]. *)
Definition CreateBackupStorage (ctx : Context) : M Reply :=
  match bodyCreateBackupStorage ctx with
  | Err err => ret (JSON StatusBadRequest (BodyError (Error_string err)))
  | Ok params =>
      existingStorage <- storage_GetBackupStorage (cpName params) ;;
      let continue (err : option error) : M Reply :=
        (* var accessKeyID, secretKeyID *string
           defer e.cleanUpNewSecretsOnUpdateError(err, accessKeyID, secretKeyID)
           The arguments of a deferred call are evaluated when the defer
           statement runs: [err] as it is now and two nil pointers. *)
        let deferred := cleanUpNewSecretsOnUpdateError err None None in
        reply <-
          (r <- createSecrets (Some (cpAccessKey params)) (Some (cpSecretKey params)) ;;
           let '(accessKeyID, secretKeyID, err) := r in
           match err with
           | Some err =>
               ret (JSON StatusInternalServerError (BodyError (Error_string err)))
           | None =>
               s <- createBackupStorage params accessKeyID secretKeyID ;;
               match s with
               | Err err =>
                   let other :=
                     (log_Error err ;;
                      ret (JSON StatusInternalServerError
                             (BodyError "Could not create a new backup storage"))) in
                   match errors_As_pq err with
                   | Some (codeName, detail) =>
                       if bool_decide (codeName = pgErrUniqueViolation) then
                         ret (JSON StatusBadRequest
                                (BodyError ("Backup storage with the same name already exists. "
                                            +:+ detail)))
                       else other
                   | None => other
                   end
               | Ok s => ret (JSON StatusOK (BodyBackupStorage (toAPIBackupStorage s)))
               end
           end) ;;
        deferred ;;
        ret reply in
      match existingStorage with
      | Err err =>
          if negb (errors_Is err ErrRecordNotFound) then
            log_Error err ;;
            ret (JSON StatusInternalServerError (BodyError "Failed to get BackupStorage"))
          else continue (Some err)
      | Ok _ =>
          let err := ErrNew ("storage " +:+ cpName params +:+ " already exists") in
          log_Error err ;;
          ret (JSON StatusConflict (BodyError (Error_string err)))
      end
  end.

(** [checkStorageAccessByUpdate]. *)
Definition checkStorageAccessByUpdate (storageName : string)
    (params : UpdateBackupStorageParams) : M (result BackupStorage) :=
  s <- storage_GetBackupStorage storageName ;;
  match s with
  | Err err => ret (Err err)
  | Ok s =>
      accessKey <- secrets_GetSecret (bsAccessKeyID s) ;;
      match accessKey with
      | Err err => ret (Err err)
      | Ok accessKey =>
          secretKey <- secrets_GetSecret (bsSecretKeyID s) ;;
          match secretKey with
          | Err err => ret (Err err)
          | Ok secretKey =>
              fun w =>
                match validateStorageAccessByUpdate env w s accessKey secretKey params with
                | Some err => (Err err, w)
                | None => (Ok s, w)
                end
          end
      end
  end.

(** [updateBackupStorage]: returns [(httpStatusCode, err)]. *)
Definition updateBackupStorage (backupStorageName : string)
    (params : UpdateBackupStorageParams)
    (newAccessKeyID newSecretKeyID : option string) : M (nat * option error) :=
  err <- storage_UpdateBackupStorage
           {| muName := backupStorageName; muDescription := upDescription params;
              muBucketName := upBucketName params; muURL := upUrl params;
              muRegion := upRegion params; muAccessKeyID := newAccessKeyID;
              muSecretKeyID := newSecretKeyID |} ;;
  match err with
  | Some err =>
      let other :=
        (log_Error err ;;
         ret (StatusInternalServerError, Some (ErrNew "could not update backup storage"))) in
      match errors_As_pq err with
      | Some (codeName, detail) =>
          if bool_decide (codeName = pgErrUniqueViolation) then
            ret (StatusBadRequest,
                 Some (ErrNew ("backup storage with the same name already exists. " +:+ detail)))
          else other
      | None => other
      end
  | None => ret (0, None)
  end.

(** [deleteOldSecretsAfterUpdate]. *)
Definition deleteOldSecretsAfterUpdate (params : UpdateBackupStorageParams)
    (s : BackupStorage) : M unit :=
  match upAccessKey params with
  | Some _ =>
      cErr <- secrets_DeleteSecret (bsAccessKeyID s) ;;
      match cErr with
      | Some _ => log_Errorf (unusedSecretMessage (bsAccessKeyID s))
      | None => ret tt
      end
  | None => ret tt
  end ;;
  match upSecretKey params with
  | Some _ =>
      cErr <- secrets_DeleteSecret (bsSecretKeyID s) ;;
      match cErr with
      | Some _ => log_Errorf (unusedSecretMessage (bsSecretKeyID s))
      | None => ret tt
      end
  | None => ret tt
  end.

(** [performBackupStorageUpdate]. *)
Definition performBackupStorageUpdate (backupStorageName : string)
    (params : UpdateBackupStorageParams)
    (newAccessKeyID newSecretKeyID : option string) (s : BackupStorage) : M Reply :=
  tx <- storage_Transaction
          (updateBackupStorage backupStorageName params newAccessKeyID newSecretKeyID) ;;
  let '(httpStatusCode, err) := tx in
  match err with
  | Some err => ret (JSON httpStatusCode (BodyError (Error_string err)))
  | None =>
      bs <- storage_GetBackupStorage backupStorageName ;;
      match bs with
      | Err err =>
          log_Error err ;;
          ret (JSON StatusInternalServerError
                 (BodyError "Could not find updated backup storage"))
      | Ok bs =>
          ks <- storage_ListKubernetesClusters ;;
          match ks with
          | Err err =>
              log_Error err ;;
              ret (JSON StatusInternalServerError
                     (BodyError "Could not list Kubernetes clusters"))
          | Ok [] =>
              ret (JSON StatusInternalServerError
                     (BodyError "No registered kubernetes clusters available"))
          | Ok (k0 :: _) =>
              (* FIXME: Revisit it once multi k8s support will be enabled *)
              k <- initKubeClient (kID k0) ;;
              match k with
              | (Err err, _) =>
                  log_Error (ErrJoin err
                    (ErrNew "could not init kube client to update config")) ;;
                  ret (JSON StatusInternalServerError
                         (BodyError "Could not init kubernetes client to update config"))
              | (Ok kubeClient, _) =>
                  err <- kube_UpdateConfig kubeClient (CfgBackupStorage bs) ;;
                  match err with
                  | Some err =>
                      log_Error (ErrJoin err (ErrNew "could not update config")) ;;
                      ret (JSON StatusInternalServerError
                             (BodyError "Could not update config on the kubernetes cluster"))
                  | None =>
                      deleteOldSecretsAfterUpdate params s ;;
                      ret (JSON StatusOK (BodyBackupStorage (toAPIBackupStorage bs)))
                  end
              end
          end
      end
  end.

(** [UpdateBackupStorage]. *)
Definition UpdateBackupStorage (ctx : Context) (backupStorageName : string) : M Reply :=
  match bodyUpdateBackupStorage ctx with
  | Err err => ret (JSON StatusBadRequest (BodyError (Error_string err)))
  | Ok params =>
      s <- checkStorageAccessByUpdate backupStorageName params ;;
      match s with
      | Err err =>
          if errors_Is err ErrRecordNotFound then
            ret (JSON StatusNotFound (BodyError "Could not find backup storage"))
          else
            log_Error err ;;
            ret (JSON StatusBadRequest
                   (BodyError ("Could not connect to the backup storage, please check the new credentials are correct: "
                               +:+ Error_string err)))
      | Ok s =>
          (* var newAccessKeyID, newSecretKeyID *string
             defer e.cleanUpNewSecretsOnUpdateError(err, newAccessKeyID, newSecretKeyID)
             evaluated here: [err] is nil and both pointers are nil. *)
          let deferred := cleanUpNewSecretsOnUpdateError None None None in
          reply <-
            (r <- createSecrets (upAccessKey params) (upSecretKey params) ;;
             let '(newAccessKeyID, newSecretKeyID, err) := r in
             match err with
             | Some err =>
                 log_Error err ;;
                 ret (JSON StatusInternalServerError (BodyError "Failed to create secrets"))
             | None =>
                 performBackupStorageUpdate backupStorageName params
                   newAccessKeyID newSecretKeyID s
             end) ;;
          deferred ;;
          ret reply
      end
  end.

(** What each goroutine runs. *)
Definition run_task (t : Task) : M unit :=
  match t with
  | go_deleteK8SBackupStorages kubeClient names =>
      deleteK8SBackupStorages kubeClient names
  | go_deleteK8SMonitoringConfig kubeClient name =>
      deleteK8SMonitoringConfig kubeClient name
  | go_deleteBackupStoragesOnUpdate kubeClient oldDB newNames =>
      deleteBackupStoragesOnUpdate kubeClient oldDB newNames
  | go_deleteMonitoringInstanceOnUpdate kubeClient oldDB newName =>
      deleteMonitoringInstanceOnUpdate kubeClient oldDB newName
  end.

End Server.

(** * Observations on the record of calls *)

(** Names of the backup storages handed to [EnsureConfigExists]. *)
Definition ensuredBackupStorages (evs : list Event) : list string :=
  omap (fun ev =>
          match ev with
          | Called (CEnsureConfigExists _ (CfgBackupStorage bs)) _ => Some (bsName bs)
          | _ => None
          end) evs.

(** Names of the monitoring instances handed to [EnsureConfigExists]. *)
Definition ensuredMonitoring (evs : list Event) : list string :=
  omap (fun ev =>
          match ev with
          | Called (CEnsureConfigExists _ (CfgMonitoring i)) _ => Some (miName i)
          | _ => None
          end) evs.

(** Every [DeleteConfig] call: the client, the config and the predicate. *)
Definition deleteConfigCalls (evs : list Event) : list (Kubernetes * Config * InUseCheck) :=
  omap (fun ev =>
          match ev with
          | Called (CDeleteConfig k cfg inUse) _ => Some (k, cfg, inUse)
          | _ => None
          end) evs.

(** Names whose backup-storage record was asked of the metadata store, and
    those among them for which the store returned the record. *)
Definition requestedBackupStorages (evs : list Event) : list string :=
  omap (fun ev =>
          match ev with
          | Called (CGetBackupStorage name) _ => Some name
          | _ => None
          end) evs.

Definition fetchedBackupStorages (evs : list Event) : list string :=
  omap (fun ev =>
          match ev with
          | Called (CGetBackupStorage name) None => Some name
          | _ => None
          end) evs.

Definition requestedMonitoring (evs : list Event) : list string :=
  omap (fun ev =>
          match ev with
          | Called (CGetMonitoringInstance name) _ => Some name
          | _ => None
          end) evs.

Definition fetchedMonitoring (evs : list Event) : list string :=
  omap (fun ev =>
          match ev with
          | Called (CGetMonitoringInstance name) None => Some name
          | _ => None
          end) evs.

(** Names of the configs handed to [DeleteConfig], by kind. *)
Definition deletedBackupStorages (evs : list Event) : list string :=
  omap (fun ev =>
          match ev with
          | Called (CDeleteConfig _ (CfgBackupStorage bs) _) _ => Some (bsName bs)
          | _ => None
          end) evs.

Definition deletedMonitoring (evs : list Event) : list string :=
  omap (fun ev =>
          match ev with
          | Called (CDeleteConfig _ (CfgMonitoring i) _) _ => Some (miName i)
          | _ => None
          end) evs.

(** The proxied requests. *)
Definition proxyCalls (evs : list Event) : list (string * string) :=
  omap (fun ev =>
          match ev with
          | Proxied kubernetesID name _ _ => Some (kubernetesID, name)
          | _ => None
          end) evs.

(** The errors written to the log. *)
Definition loggedErrors (evs : list Event) : list error :=
  omap (fun ev => match ev with LogError e => Some e | _ => None end) evs.

(** The errors a best-effort cleanup has to log: every failed record fetch
    and every [DeleteConfig] failure other than [ErrConfigInUse], each joined
    with the message of the place that logs it. *)
Definition cleanupFailures (fetchMsg deleteMsg : string) (evs : list Event) : list error :=
  omap (fun ev =>
          match ev with
          | Called (CGetBackupStorage _) (Some e) => Some (ErrJoin e (ErrNew fetchMsg))
          | Called (CGetMonitoringInstance _) (Some e) => Some (ErrJoin e (ErrNew fetchMsg))
          | Called (CDeleteConfig _ _ _) (Some e) =>
              if errors_Is e ErrConfigInUse then None
              else Some (ErrJoin e (ErrNew deleteMsg))
          | _ => None
          end) evs.

(** [frame w w' evs]: from [w] to [w'] the calls [evs] were made, and
    nothing was written, started or finished. *)
Definition frame (w w' : World) (evs : list Event) : Prop :=
  trace w' = trace w ++ evs
  ∧ stores w' = stores w
  ∧ history w' = history w
  ∧ goroutines w' = goroutines w
  ∧ waitGroup w' = waitGroup w
  ∧ panicked w' = panicked w.

(** The references of an incoming spec, read off the data model: the
    storage named by the data source, and the storages named by the backup
    schedules. *)
Definition dataSourceName (dbc : API.DatabaseCluster) : option string :=
  match API.Spec_ dbc with
  | Some spec =>
      match API.DataSource_ spec with
      | Some ds =>
          match API.BackupSource_ ds with
          | Some src => Some (API.BackupStorageName src)
          | None => None
          end
      | None => None
      end
  | None => None
  end.

Definition scheduleNames (dbc : API.DatabaseCluster) : list string :=
  match API.Spec_ dbc with
  | Some spec =>
      match API.Backup_ spec with
      | Some backup =>
          match API.Schedules backup with
          | Some schedules => map API.ScheduleBackupStorageName schedules
          | None => []
          end
      | None => []
      end
  | None => []
  end.

(** The same for a stored cluster. *)
Definition storedDataSourceName (dbc : K8s.DatabaseCluster) : option string :=
  match K8s.DataSource_ (K8s.Spec_ dbc) with
  | Some ds =>
      match K8s.BackupSource_ ds with
      | Some src => Some (K8s.BackupStorageName src)
      | None => None
      end
  | None => None
  end.

Definition storedScheduleNames (dbc : K8s.DatabaseCluster) : list string :=
  map K8s.ScheduleBackupStorageName (K8s.Schedules (K8s.Backup_ (K8s.Spec_ dbc))).

(** What one pass of [deleteK8SBackupStorages] or
    [rollbackCreatedBackupStorages] over its names does: [DeleteConfig] is
    called, on [kube] and with the backup-storage predicate, for exactly the
    names whose record the store returned; the failures logged are the
    failed fetches and the failed deletions other than [ErrConfigInUse]. *)
Definition cleanupPass (kube : Kubernetes) (deleteMsg : string) (evs : list Event) : Prop :=
  deletedBackupStorages evs = fetchedBackupStorages evs
  ∧ Forall (fun c => c.1.1 = kube ∧ c.2 = IsBackupStorageConfigInUse) (deleteConfigCalls evs)
  ∧ requestedMonitoring evs = []
  ∧ deletedMonitoring evs = []
  ∧ ensuredBackupStorages evs = []
  ∧ ensuredMonitoring evs = []
  ∧ proxyCalls evs = []
  ∧ loggedErrors evs = cleanupFailures "could not get backup storage" deleteMsg evs.

(** * Scenarios

    Concrete environments, worlds and requests on which the handlers are
    run. *)

(** An environment in which a call fails as [faults] says, Kubernetes
    stores [db], the proxy answers [proxy], every validation passes, ids are
    fresh for the vault and a map is visited in the order of [elements]. *)
Definition scenarioEnv (faults : World → Call → option error)
    (db : K8s.DatabaseCluster) (proxy : option error * nat) : Env :=
  {| fault := faults;
     storedDatabaseCluster := fun _ _ _ => db;
     proxyResponse := fun _ _ _ => proxy;
     validateDatabaseClusterCR := fun _ _ _ => None;
     validateDatabaseClusterOnUpdate := fun _ _ => None;
     validateStorageAccessByUpdate := fun _ _ _ _ _ => None;
     BackupStorageNamesFromDBCluster := withBackupStorageNamesFromDBCluster ∅;
     uuid_NewString := fun w => fresh (dom (secrets (stores w)));
     uuid_fresh := fun w =>
       proj1 (not_elem_of_dom (secrets (stores w)) _)
             (is_fresh (dom (secrets (stores w))));
     rangeKeys := fun _ s => elements s;
     rangeKeys_perm := fun _ _ => reflexivity _ |}.

Definition noFaults : World → Call → option error := fun _ _ => None.

Definition storageRecord (name accessKeyID secretKeyID : string) : BackupStorage :=
  {| bsName := name; bsDescription := ""; bsType := "s3"; bsBucketName := "bucket";
     bsURL := ""; bsRegion := "us-east-1";
     bsAccessKeyID := accessKeyID; bsSecretKeyID := secretKeyID |}.

Definition monitoringRecord (name : string) : MonitoringInstance :=
  {| miName := name; miType := "pmm"; miURL := "http://pmm"; miAPIKeySecretID := "pmm-key" |}.

Definition world (rows : list BackupStorage) (instances : list MonitoringInstance)
    (clusters : list KubernetesCluster) (vault : gmap string string) : World :=
  {| stores := {| storages := rows; monitoringInstances := instances;
                  kubernetesClusters := clusters; secrets := vault |};
     waitGroup := 0; panicked := false; goroutines := []; trace := [];
     history := [] |}.

Definition k1 : KubernetesCluster := {| kID := "k1"; kNamespace := "everest" |}.
Definition k2 : KubernetesCluster := {| kID := "k2"; kNamespace := "everest" |}.
Definition kube1 : Kubernetes := {| kubeID := "k1"; kubeNamespace := "everest" |}.
Definition kube2 : Kubernetes := {| kubeID := "k2"; kubeNamespace := "everest" |}.

(** An incoming spec: data source, schedules, monitoring. *)
Definition incoming (dataSource : option string) (schedules : list string)
    (monitoring : string) : API.DatabaseCluster :=
  {| API.Spec_ := Some
       {| API.DataSource_ :=
            match dataSource with
            | Some n => Some {| API.BackupSource_ := Some {| API.BackupStorageName := n |} |}
            | None => None
            end;
          API.Backup_ :=
            Some {| API.Schedules :=
                      Some (map (fun n => {| API.ScheduleBackupStorageName := n |}) schedules) |};
          API.Monitoring_ := Some {| API.MonitoringConfigName := Some monitoring |} |} |}.

(** A stored cluster: data source, schedules, monitoring. *)
Definition stored (dataSource : option string) (schedules : list string)
    (monitoring : string) : K8s.DatabaseCluster :=
  {| K8s.Spec_ :=
       {| K8s.DataSource_ :=
            match dataSource with
            | Some n => Some {| K8s.BackupSource_ := Some {| K8s.BackupStorageName := n |} |}
            | None => None
            end;
          K8s.Backup_ :=
            {| K8s.Schedules :=
                 map (fun n => {| K8s.ScheduleBackupStorageName := n |}) schedules |};
          K8s.Monitoring_ := Some {| K8s.MonitoringConfigName := monitoring |} |} |}.

Definition noBody {A} : result A := Err (ErrNew "no body").

Definition clusterRequest (dbc : API.DatabaseCluster) : Context :=
  {| bodyDatabaseCluster := Ok dbc;
     bodyCreateBackupStorage := noBody;
     bodyUpdateBackupStorage := noBody |}.

(** Deleting the cluster [db], which Kubernetes stores with data source
    [A], a schedule on [B] and monitoring [M]. *)
Definition deleteEnv : Env :=
  scenarioEnv noFaults (stored (Some "A") ["B"] "M") (None, 200).

Definition registeredWorld : World :=
  world [storageRecord "A" "a-access" "a-secret"; storageRecord "B" "b-access" "b-secret"]
        [monitoringRecord "M"] [k1] ∅.

Definition emptyRequest : Context :=
  {| bodyDatabaseCluster := noBody;
     bodyCreateBackupStorage := noBody;
     bodyUpdateBackupStorage := noBody |}.

Definition reliableEnv : Env := scenarioEnv noFaults (stored None [] "") (None, 200).

(** Creating a cluster with data source [A] and a schedule on [B], both
    registered, while the metadata store fails to return the record of [B]. *)
Definition losesB : World → Call → option error :=
  fun _ c =>
    match c with
    | CGetBackupStorage name =>
        if bool_decide (name = "B") then Some (ErrNew "connection refused") else None
    | _ => None
    end.

Definition losingEnv : Env := scenarioEnv losesB (stored None [] "") (None, 200).

Definition createAB : Context := clusterRequest (incoming (Some "A") ["B"] "").

(** The same request with both storages registered, while Kubernetes
    refuses to materialize [B]. *)
Definition refusesB : World → Call → option error :=
  fun _ c =>
    match c with
    | CEnsureConfigExists _ (CfgBackupStorage bs) =>
        if bool_decide (bsName bs = "B") then Some (ErrNew "forbidden") else None
    | _ => None
    end.

Definition refusingEnv : Env := scenarioEnv refusesB (stored None [] "") (None, 200).

(** Creating the backup storage [s3] while the insert into the metadata
    store fails. *)
Definition insertFails : World → Call → option error :=
  fun _ c =>
    match c with
    | CCreateBackupStorage _ => Some (ErrNew "connection refused")
    | _ => None
    end.

Definition insertFailsEnv : Env := scenarioEnv insertFails (stored None [] "") (None, 200).

Definition s3Params : CreateBackupStorageParams :=
  {| cpName := "s3"; cpDescription := None; cpType := "s3"; cpBucketName := "bucket";
     cpUrl := None; cpRegion := "us-east-1";
     cpAccessKey := "AK"; cpSecretKey := "SK" |}.

Definition createS3 : Context :=
  {| bodyDatabaseCluster := noBody;
     bodyCreateBackupStorage := Ok s3Params;
     bodyUpdateBackupStorage := noBody |}.

Definition noStorages : World := world [] [] [k1] ∅.

Definition s3Registered : World :=
  world [storageRecord "s3" "old-access" "old-secret"] [] [k1]
        {[ "old-access" := "AK0"; "old-secret" := "SK0" ]}.

(** What the create loop does: it never proxies and never touches a
    monitoring config; when it returns [nil] it has fetched and materialized
    exactly its keys, in order, and deleted and logged nothing. *)
Definition createPass (keys : list string) (r : option error) (evs : list Event) : Prop :=
  proxyCalls evs = []
  ∧ requestedMonitoring evs = []
  ∧ ensuredMonitoring evs = []
  ∧ deletedMonitoring evs = []
  ∧ (r = None →
     requestedBackupStorages evs = keys
     ∧ ensuredBackupStorages evs = keys
     ∧ deleteConfigCalls evs = []
     ∧ loggedErrors evs = []).

(** The monitoring name an update has to materialize: the new name when
    it is not empty and differs from the old one. *)
Definition monitoringToCreate (oldDB : K8s.DatabaseCluster) (newName : string) : list string :=
  if bool_decide (newName ≠ "" ∧ newName ≠ oldMonitoringName oldDB) then [newName] else [].

(** What the create phase of an update has done when it succeeds: the
    records fetched and the configs materialized are those of the new
    backup-storage names that are not old names, each once, and of the
    monitoring name to create; nothing is deleted. *)
Definition createPhase (oldDB : K8s.DatabaseCluster) (newMonitoringName : string)
    (newBackupNames : gset string) (evs : list Event) : Prop :=
  requestedBackupStorages evs
    ≡ₚ elements (newBackupNames ∖ withBackupStorageNamesFromDBCluster ∅ oldDB)
  ∧ ensuredBackupStorages evs = requestedBackupStorages evs
  ∧ requestedMonitoring evs = monitoringToCreate oldDB newMonitoringName
  ∧ ensuredMonitoring evs = monitoringToCreate oldDB newMonitoringName
  ∧ deleteConfigCalls evs = [].

(** Updating the cluster [db] from storages [A], [B] and monitoring [M] to
    storages [B], [C] and monitoring [N]. *)
Definition updateEnv : Env :=
  scenarioEnv noFaults (stored (Some "A") ["B"] "M") (None, 200).

Definition updateToBC : Context := clusterRequest (incoming (Some "B") ["C"] "N").

Definition allRegistered : World :=
  world [storageRecord "A" "a-access" "a-secret"; storageRecord "B" "b-access" "b-secret";
         storageRecord "C" "c-access" "c-secret"]
        [monitoringRecord "M"; monitoringRecord "N"] [k1] ∅.

(** Every [UpdateConfig] call: the client and the config. *)
Definition updateConfigCalls (evs : list Event) : list (Kubernetes * Config) :=
  omap (fun ev =>
          match ev with
          | Called (CUpdateConfig k cfg) _ => Some (k, cfg)
          | _ => None
          end) evs.

(** The steps of a credential update, numbered in the order they have to
    follow: create the new secrets, switch the record, commit, update the
    Kubernetes config, delete the old secrets. Other calls are not steps. *)
Definition updateStep (ev : Event) : option nat :=
  match ev with
  | Called (CCreateSecret _ _) _ => Some 1
  | Called (CUpdateBackupStorage _) _ => Some 2
  | Called CCommit _ => Some 3
  | Called (CUpdateConfig _ _) _ => Some 4
  | Called (CDeleteSecret _) _ => Some 5
  | _ => None
  end.

(** A secret id is resolvable when the vault holds a value under it. *)
Definition resolvable (s : Stores) (id : string) : Prop := is_Some (secrets s !! id).

(** The record [GetBackupStorage] finds under a name. *)
Definition lookupBackupStorage (name : string) (s : Stores) : option BackupStorage :=
  find (fun bs => bool_decide (bsName bs = name)) (storages s).

(** Both secret ids of the record stored under [name] are resolvable. *)
Definition recordResolvable (name : string) (s : Stores) : Prop :=
  ∀ bs, lookupBackupStorage name s = Some bs →
        resolvable s (bsAccessKeyID bs) ∧ resolvable s (bsSecretKeyID bs).

(** Rotating both keys of the backup storage [s3] while two Kubernetes
    clusters are registered. *)
Definition rotate : UpdateBackupStorageParams :=
  {| upDescription := None; upBucketName := None; upUrl := None; upRegion := None;
     upAccessKey := Some "AK1"; upSecretKey := Some "SK1" |}.

Definition rotateS3 : Context :=
  {| bodyDatabaseCluster := Ok (incoming (Some "s3") [] "");
     bodyCreateBackupStorage := noBody;
     bodyUpdateBackupStorage := Ok rotate |}.

Definition twoClusters : World :=
  world [storageRecord "s3" "old-access" "old-secret"] [] [k1; k2]
        {[ "old-access" := "AK0"; "old-secret" := "SK0" ]}.

(** The same world after a database cluster using [s3] was created on the
    second cluster, which materialized the config of [s3] there. *)
Definition deployedOnK2 : World :=
  (CreateDatabaseCluster reliableEnv rotateS3 "k2" twoClusters).2.

(** Rotating the keys while the vault refuses to delete. *)
Definition deleteFails : World → Call → option error :=
  fun _ c =>
    match c with
    | CDeleteSecret _ => Some (ErrNew "connection refused")
    | _ => None
    end.

Definition deleteFailsEnv : Env := scenarioEnv deleteFails (stored None [] "") (None, 200).

(** * The read and delete endpoints

    The handlers of [api/database_cluster.go] and [api/backup_storage.go]
    that list, read and delete, and the order in which the goroutines a
    handler started may run. *)

Definition StatusNoContent : nat := 204.

(** What these handlers hand back: a reply as above, a JSON array of
    backup storages, or an empty body. *)
Inductive Response : Type :=
| Replied (r : Reply)
| JSONList (code : nat) (items : list APIBackupStorage)  (* ctx.JSON(code, result) *)
| NoContent (code : nat).                                 (* ctx.NoContent(code) *)

Section Endpoints.

Context (env : Env).

(** Whether the metadata store fails to list the backup storages, or to
    delete the one of a name: the environment's choice, like [fault]. *)
Context (failsToList : World → option error).
Context (failsToDelete : World → string → option error).

(** Modelled from the spec: [ListBackupStorages] and [DeleteBackupStorage]
    of the metadata store, fallible like its other operations and without
    effect when they fail; deleting removes the row of that name. These
    two calls are observed through the stores, not through the record of
    calls. *)
Definition storage_ListBackupStorages : M (result (list BackupStorage)) :=
  fun w =>
    match failsToList w with
    | Some e => (Err e, w)
    | None => (Ok (storages (stores w)), w)
    end.

Definition storage_DeleteBackupStorage (name : string) : M (option error) :=
  fun w =>
    match failsToDelete w name with
    | Some e => (Some e, w)
    | None =>
        (None,
         write (set_storages
                  (filter (fun bs => bsName bs ≠ name) (storages (stores w)))
                  (stores w)) w)
    end.

(** *** api/database_cluster.go *)

(** [ListDatabaseClusters]. *)
Definition ListDatabaseClusters (ctx : Context) (kubernetesID : string) : M Reply :=
  r <- proxyKubernetes env kubernetesID "" ;;
  ret (Proxy (fst r) (snd r)).

(** [GetDatabaseCluster]. *)
Definition GetDatabaseCluster (ctx : Context) (kubernetesID name : string) : M Reply :=
  r <- proxyKubernetes env kubernetesID name ;;
  ret (Proxy (fst r) (snd r)).

(** *** api/backup_storage.go *)

(** [ListBackupStorages]. *)
Definition ListBackupStorages (ctx : Context) : M Response :=
  list <- storage_ListBackupStorages ;;
  match list with
  | Err err =>
      log_Error err ;;
      ret (Replied (JSON StatusInternalServerError
                      (BodyError "Could not list backup storages")))
  | Ok list =>
      let result :=
        fold_left (fun result bs => result ++ [toAPIBackupStorage bs]) list [] in
      ret (JSONList StatusOK result)
  end.

(** [deleteBackupStorage]: the record and its two secrets, in one store
    transaction. *)
Definition deleteBackupStorage (bs : BackupStorage) : M (option error) :=
  tx <- storage_Transaction env
          (err <- storage_DeleteBackupStorage (bsName bs) ;;
           match err with
           | Some err =>
               log_Error err ;;
               ret (tt, Some (ErrNew "could not delete backup storage"))
           | None =>
               err <- secrets_DeleteSecret env (bsAccessKeyID bs) ;;
               match err with
               | Some err =>
                   ret (tt, Some (ErrJoin err
                          (ErrNew "could not delete access key from secrets storage")))
               | None =>
                   err <- secrets_DeleteSecret env (bsSecretKeyID bs) ;;
                   match err with
                   | Some err =>
                       ret (tt, Some (ErrJoin err
                              (ErrNew "could not delete secret key from secrets storage")))
                   | None => ret (tt, None)
                   end
               end
           end) ;;
  ret (snd tx).

(** [DeleteBackupStorage]. *)
Definition DeleteBackupStorage (ctx : Context) (backupStorageName : string) : M Response :=
  bs <- storage_GetBackupStorage env backupStorageName ;;
  match bs with
  | Err err =>
      if errors_Is err ErrRecordNotFound then
        ret (Replied (JSON StatusNotFound (BodyError "Could not find backup storage")))
      else
        log_Error err ;;
        ret (Replied (JSON StatusInternalServerError
                        (BodyError "Could not get backup storage")))
  | Ok bs =>
      ks <- storage_ListKubernetesClusters env ;;
      match ks with
      | Err err =>
          log_Error (ErrJoin err (ErrNew "could not list Kubernetes clusters")) ;;
          ret (Replied (JSON StatusInternalServerError
                          (BodyError "Could not list Kubernetes clusters")))
      | Ok [] =>
          ret (Replied (JSON StatusInternalServerError
                          (BodyError "No registered kubernetes clusters available")))
      | Ok (k0 :: _) =>
          (* FIXME: Revisit it once multi k8s support will be enabled *)
          k <- initKubeClient env (kID k0) ;;
          match k with
          | (Err err, _) =>
              log_Error (ErrJoin err (ErrNew "could not init kube client for config")) ;;
              ret (Replied (JSON StatusInternalServerError
                              (BodyError "Could not connect to the Kubernetes cluster")))
          | (Ok kubeClient, _) =>
              err <- kube_DeleteConfig env kubeClient (CfgBackupStorage bs)
                       IsBackupStorageConfigInUse ;;
              match err with
              | Some err =>
                  log_Error (ErrJoin err (ErrNew "could not delete config")) ;;
                  if errors_Is err ErrConfigInUse then
                    ret (Replied (JSON StatusBadRequest
                           (BodyError "Cannot delete the backup storage because it's used on the Kubernetes cluster")))
                  else
                    ret (Replied (JSON StatusInternalServerError
                                    (BodyError (Error_string err))))
              | None =>
                  err <- deleteBackupStorage bs ;;
                  match err with
                  | Some err =>
                      ret (Replied (JSON StatusInternalServerError
                                      (BodyError (Error_string err))))
                  | None => ret (NoContent StatusNoContent)
                  end
              end
          end
      end
  end.

(** [GetBackupStorage]. *)
Definition GetBackupStorage (ctx : Context) (backupStorageID : string) : M Reply :=
  s <- storage_GetBackupStorage env backupStorageID ;;
  match s with
  | Err err =>
      if errors_Is err ErrRecordNotFound then
        ret (JSON StatusNotFound (BodyError "Could not find backup storage"))
      else
        log_Error err ;;
        ret (JSON StatusInternalServerError (BodyError "Could not get backup storage"))
  | Ok s => ret (JSON StatusOK (BodyBackupStorage (toAPIBackupStorage s)))
  end.

(** The goroutines [ts] run to completion one after the other, in the
    order of the list. *)
Fixpoint run_tasks (ts : list Task) : M unit :=
  match ts with
  | [] => ret tt
  | t :: ts => run_task env t ;; run_tasks ts
  end.

End Endpoints.

(** * Shapes of a run *)

(** The calls that materialize the backup storages [records] on
    [kubeClient], one after the other: each record is fetched by its name
    and handed to [EnsureConfigExists], and both calls succeed. *)
Definition materialized (kubeClient : Kubernetes) (records : list BackupStorage)
    : list Event :=
  flat_map (fun bs =>
              [Called (CGetBackupStorage (bsName bs)) None;
               Called (CEnsureConfigExists kubeClient (CfgBackupStorage bs)) None])
           records.

(** The same for the monitoring instance a spec names, if it names one. *)
Definition materializedMonitoring (kubeClient : Kubernetes)
    (instance : option MonitoringInstance) : list Event :=
  match instance with
  | Some i =>
      [Called (CGetMonitoringInstance (miName i)) None;
       Called (CEnsureConfigExists kubeClient (CfgMonitoring i)) None]
  | None => []
  end.

(** The record the metadata store holds under the name of [bs] is [bs]. *)
Definition storedIn (s : Stores) (bs : BackupStorage) : Prop :=
  lookupBackupStorage (bsName bs) s = Some bs.

(** The monitoring instance the metadata store holds under a name. *)
Definition lookupMonitoringInstance (name : string) (s : Stores) : option MonitoringInstance :=
  find (fun i => bool_decide (miName i = name)) (monitoringInstances s).

(** The registered Kubernetes cluster of an id. *)
Definition lookupKubernetesCluster (id : string) (s : Stores) : option KubernetesCluster :=
  find (fun k => bool_decide (kID k = id)) (kubernetesClusters s).

(** What a cleanup goroutine may do: read a record from the metadata
    store, call [DeleteConfig], write to the log. *)
Definition cleanupEvent (ev : Event) : bool :=
  match ev with
  | Called (CGetBackupStorage _) _ => true
  | Called (CGetMonitoringInstance _) _ => true
  | Called (CDeleteConfig _ _ _) _ => true
  | LogError _ => true
  | _ => false
  end.

(** What a run of [DeleteDatabaseCluster] or [UpdateDatabaseCluster] has
    done when it returns [reply]. *)
Definition mutationOutcome (kubernetesID name : string) (w w' : World)
    (reply : Reply) : Prop :=
  stores w' = stores w
  ∧ history w' = history w
  ∧ panicked w' = panicked w
  ∧ (∃ started,
       goroutines w' = goroutines w ++ started
       ∧ waitGroup w' = waitGroup w + length started)
  ∧ ∃ evs,
      trace w' = trace w ++ evs
      ∧ match reply with
        | Proxy perr status =>
            ∃ pre, evs = pre ++ [Proxied kubernetesID name perr status]
                   ∧ proxyCalls pre = []
        | JSON code body =>
            proxyCalls evs = []
            ∧ goroutines w' = goroutines w
            ∧ (code = StatusBadRequest ∨ code = StatusInternalServerError)
            ∧ ∃ message, body = BodyError message
        | Failed e =>
            proxyCalls evs = []
            ∧ goroutines w' = goroutines w
            ∧ ∃ kube cause pre,
                e = ErrJoin cause (ErrNew "could not get old Database Cluster")
                ∧ evs = pre ++ [Called (CGetDatabaseCluster kube name) (Some cause)]
        end.

(** * Further scenarios *)

(** The vault refuses every write. *)
Definition vaultIsFull : World → Call → option error :=
  fun _ c =>
    match c with
    | CCreateSecret _ _ => Some (ErrNew "disk full")
    | _ => None
    end.

(** The metadata store never fails to delete a row. *)
Definition alwaysDeletes : World → string → option error := fun _ _ => None.

(** The vault refuses to delete the secret of id ["old-secret"]. *)
Definition keepsOldSecret : World → Call → option error :=
  fun _ c =>
    match c with
    | CDeleteSecret id =>
        if bool_decide (id = "old-secret") then Some (ErrNew "connection refused")
        else None
    | _ => None
    end.

Definition keepingEnv : Env := scenarioEnv keepsOldSecret (stored None [] "") (None, 200).

(** Kubernetes reports that the config is still in use. *)
Definition stillInUse : World → Call → option error :=
  fun _ c =>
    match c with
    | CDeleteConfig _ _ _ => Some ErrConfigInUse
    | _ => None
    end.

Definition inUseEnv : Env := scenarioEnv stillInUse (stored None [] "") (None, 200).

(** The metadata store cannot commit. *)
Definition commitFails : World → Call → option error :=
  fun _ c =>
    match c with
    | CCommit => Some (ErrNew "commit failed")
    | _ => None
    end.

Definition commitFailsEnv : Env := scenarioEnv commitFails (stored None [] "") (None, 200).

(** The errors the delete phase of an update has to log: every failed
    fetch and every failed [DeleteConfig], unless the error is or wraps
    [ErrConfigInUse], each wrapped twice: by [deleteK8SBackupStorage] and,
    with the name of the storage, by [deleteBackupStoragesOnUpdate]. *)
Definition updateCleanupFailures (evs : list Event) : list error :=
  omap (fun ev =>
          match ev with
          | Called (CGetBackupStorage name) (Some e) =>
              if errors_Is e ErrConfigInUse then None
              else Some (ErrJoin (ErrJoin e (ErrNew "could not find backup storage"))
                           (ErrNew ("could not delete CRs for " +:+ name)))
          | Called (CDeleteConfig _ cfg _) (Some e) =>
              if errors_Is e ErrConfigInUse then None
              else Some (ErrJoin (ErrJoin e (ErrNew "could not delete config in Kubernetes"))
                           (ErrNew ("could not delete CRs for " +:+ configName cfg)))
          | _ => None
          end) evs.

(** * Credentials of a database cluster *)

(** The engine types [GetDatabaseClusterCredentials] tells apart: the three
    constants of its [switch], and every other value. *)
Inductive EngineType : Type :=
| DatabaseEnginePXC
| DatabaseEnginePSMDB
| DatabaseEnginePostgresql
| OtherEngine (name : string).

(** [everestv1alpha1.DatabaseCluster.Spec.Engine], as far as the handler
    reads it. *)
Record Engine := {
  EngineType_ : EngineType;
  UserSecretsName : string;
}.

(** [ctx.JSON(code, &DatabaseClusterCredential{Username, Password})]. *)
Inductive CredentialsReply : Type :=
| CredentialsError (code : nat) (message : string)
| Credentials (code : nat) (username password : string).

(** [string(secret.Data[key])]: the empty string for a key the secret does
    not have. *)
Definition secretData (data : gmap string string) (key : string) : string :=
  default "" (data !! key).

Section Credentials.

Context (env : Env).

(** The engine of a cluster object, and the Kubernetes secret
    [kubeClient.GetSecret] returns for a name and a namespace: its data, or
    an error. *)
Context (engineOf : K8s.DatabaseCluster → Engine).
Context (kubeSecret : World → Kubernetes → string → string → result (gmap string string)).

Definition kube_GetSecret (kubeClient : Kubernetes) (name namespace : string)
    : M (result (gmap string string)) :=
  fun w => (kubeSecret w kubeClient name namespace, w).

(** [GetDatabaseClusterCredentials]. The namespace handed to [GetSecret] is
    [k.Namespace], the namespace the client was built for. *)
Definition GetDatabaseClusterCredentials (ctx : Context) (kubernetesID name : string)
    : M CredentialsReply :=
  k <- initKubeClient env kubernetesID ;;
  match k with
  | (Err err, code) => ret (CredentialsError code (Error_string err))
  | (Ok kubeClient, _) =>
      databaseCluster <- kube_GetDatabaseCluster env kubeClient name ;;
      match databaseCluster with
      | Err err =>
          log_Error err ;;
          ret (CredentialsError StatusInternalServerError (Error_string err))
      | Ok databaseCluster =>
          secret <- kube_GetSecret kubeClient
                      (UserSecretsName (engineOf databaseCluster))
                      (kubeNamespace kubeClient) ;;
          match secret with
          | Err err =>
              log_Error err ;;
              ret (CredentialsError StatusInternalServerError (Error_string err))
          | Ok data =>
              match EngineType_ (engineOf databaseCluster) with
              | DatabaseEnginePXC =>
                  ret (Credentials StatusOK "root" (secretData data "root"))
              | DatabaseEnginePSMDB =>
                  ret (Credentials StatusOK
                         (secretData data "MONGODB_USER_ADMIN_USER")
                         (secretData data "MONGODB_USER_ADMIN_PASSWORD"))
              | DatabaseEnginePostgresql =>
                  ret (Credentials StatusOK "postgres" (secretData data "password"))
              | OtherEngine _ =>
                  ret (CredentialsError StatusBadRequest "Unsupported database engine")
              end
          end
      end
  end.

End Credentials.

(** A PXC cluster whose user secret holds no [root] entry. *)
Definition pxcEngine : K8s.DatabaseCluster → Engine :=
  fun _ => {| EngineType_ := DatabaseEnginePXC; UserSecretsName := "db-secrets" |}.

Definition emptySecret : World → Kubernetes → string → string → result (gmap string string) :=
  fun _ _ _ _ => Ok ∅.

(** * Scenarios with a failing metadata store *)

(** The metadata store fails to return the records of [names]. *)
Definition losesRecords (names : list string) : World → Call → option error :=
  fun _ c =>
    match c with
    | CGetBackupStorage name | CGetMonitoringInstance name =>
        if bool_decide (name ∈ names) then Some (ErrNew "connection refused") else None
    | _ => None
    end.

(** Deleting the cluster [db], stored with [A], [B] and [M], while the
    records of [B] and [M] cannot be read. *)
Definition deleteLosingEnv : Env :=
  scenarioEnv (losesRecords ["B"; "M"]) (stored (Some "A") ["B"] "M") (None, 200).

(** The world once the goroutines started by that delete have run. *)
Definition afterDeleteCleanup : World :=
  let w := (DeleteDatabaseCluster deleteLosingEnv emptyRequest "k1" "db"
              registeredWorld).2 in
  (run_tasks deleteLosingEnv (goroutines w) w).2.

(** Updating the cluster [db] from [A], [B], [M] to [B], [C], [N], while
    the records of [A] and [M] cannot be read. *)
Definition updateLosingEnv : Env :=
  scenarioEnv (losesRecords ["A"; "M"]) (stored (Some "A") ["B"] "M") (None, 200).

(** The world once the goroutines started by that update have run. *)
Definition afterUpdateCleanup : World :=
  let w := (UpdateDatabaseCluster updateLosingEnv updateToBC "k1" "db"
              allRegistered).2 in
  (run_tasks updateLosingEnv (goroutines w) w).2.

(** Why a run of [UpdateDatabaseCluster] stopped before the proxy: the
    body could not be decoded, a validation refused the request, or a call
    to a collaborator failed. *)
Definition updateRefused (env : Env) (ctx : Context) (kubernetesID name : string)
    (w : World) (evs : list Event) : Prop :=
  (∃ err, bodyDatabaseCluster ctx = Err err)
  ∨ (∃ dbc err,
       bodyDatabaseCluster ctx = Ok dbc
       ∧ validateDatabaseClusterCR env w kubernetesID dbc = Some err)
  ∨ (∃ c err, Called c (Some err) ∈ evs)
  ∨ (∃ dbc kube oldDB err,
       bodyDatabaseCluster ctx = Ok dbc
       ∧ GotDatabaseCluster kube name oldDB ∈ evs
       ∧ validateDatabaseClusterOnUpdate env dbc oldDB = Some err).

(** The log line a cleanup writes for the result of [DeleteConfig]:
    nothing for success and for [ErrConfigInUse], the error joined with
    [message] otherwise. *)
Definition deleteConfigLog (message : string) (r : option error) : list Event :=
  match r with
  | Some e =>
      if errors_Is e ErrConfigInUse then []
      else [LogError (ErrJoin e (ErrNew message))]
  | None => []
  end.

(** * Properties *)

(** ** The reference resolver *)

Lemma elem_of_fold_insert {A} (f : A → string) (l : list A) (acc : gset string) x :
  x ∈ fold_left (fun names a => {[ f a ]} ∪ names) l acc ↔ x ∈ acc ∨ x ∈ map f l.
Proof.
  revert acc. induction l as [|a l IH]; intros acc; simpl.
  - rewrite elem_of_nil. tauto.
  - rewrite IH, elem_of_cons. set_solver.
Qed.

Lemma elem_of_fold_insert_nonempty {A} (f : A → string) (l : list A)
    (acc : gset string) x :
  x ∈ fold_left
        (fun names a => if bool_decide (f a ≠ "") then {[ f a ]} ∪ names else names)
        l acc
  ↔ x ∈ acc ∨ (x ≠ "" ∧ x ∈ map f l).
Proof.
  revert acc. induction l as [|a l IH]; intros acc; simpl.
  - rewrite elem_of_nil. tauto.
  - rewrite IH, elem_of_cons. case_bool_decide; set_solver.
Qed.

Lemma elem_of_backupStorageNamesFrom dbc x :
  x ∈ backupStorageNamesFrom dbc ↔ dataSourceName dbc = Some x ∨ x ∈ scheduleNames dbc.
Proof.
  unfold backupStorageNamesFrom, dataSourceName, scheduleNames.
  destruct (API.Spec_ dbc) as [spec|]; [|set_solver].
  destruct (API.Backup_ spec) as [backup|];
    [destruct (API.Schedules backup) as [schedules|]|];
    rewrite ?elem_of_fold_insert;
    destruct (API.DataSource_ spec) as [ds|];
    try destruct (API.BackupSource_ ds) as [src|];
    set_solver.
Qed.

Lemma elem_of_withBackupStorageNamesFromDBCluster existing dbc x :
  x ∈ withBackupStorageNamesFromDBCluster existing dbc
  ↔ x ∈ existing
    ∨ (x ≠ "" ∧ (storedDataSourceName dbc = Some x ∨ x ∈ storedScheduleNames dbc)).
Proof.
  unfold withBackupStorageNamesFromDBCluster, storedDataSourceName, storedScheduleNames.
  rewrite elem_of_fold_insert_nonempty.
  destruct (K8s.DataSource_ (K8s.Spec_ dbc)) as [ds|];
    try destruct (K8s.BackupSource_ ds) as [src|];
    try case_bool_decide; set_solver.
Qed.

Lemma elem_of_uniqueKeys source target x :
  x ∈ uniqueKeys source target ↔ x ∈ target ∧ x ∉ source.
Proof. unfold uniqueKeys. rewrite elem_of_filter. tauto. Qed.

Lemma uniqueKeys_difference source target :
  uniqueKeys source target = target ∖ source.
Proof. apply set_eq. intros x. rewrite elem_of_uniqueKeys. set_solver. Qed.

Lemma rangeKeys_NoDup env w (s : gset string) : NoDup (rangeKeys env w s).
Proof. rewrite (rangeKeys_perm env w s). apply NoDup_elements. Qed.

Lemma elem_of_rangeKeys env w (s : gset string) x : x ∈ rangeKeys env w s ↔ x ∈ s.
Proof. rewrite (rangeKeys_perm env w s). apply elem_of_elements. Qed.

Lemma count_occ_NoDup_1 (l : list string) x :
  NoDup l → x ∈ l → count_occ string_dec l x = 1.
Proof.
  intros Hnd Hin. apply NoDup_ListNoDup in Hnd.
  apply list_elem_of_In in Hin.
  pose proof (proj1 (NoDup_count_occ string_dec l) Hnd x) as Hle.
  pose proof (proj1 (count_occ_In string_dec l x) Hin). lia.
Qed.

(** C9. The resolver of an incoming spec returns a set. With no data
    source and no backup schedule the set is empty (the resolver is total:
    a set is all it can return). When the data source and every schedule
    name the same storage, the set is that single name, and a [range] over
    it visits the name exactly once. *)
Theorem C9_backupStorageNamesFrom_is_a_set env w dbc :
  (dataSourceName dbc = None → scheduleNames dbc = [] →
     backupStorageNamesFrom dbc = ∅)
  ∧ (∀ name,
       dataSourceName dbc = Some name →
       (∀ n, n ∈ scheduleNames dbc → n = name) →
       backupStorageNamesFrom dbc = {[ name ]}
       ∧ count_occ string_dec (rangeKeys env w (backupStorageNamesFrom dbc)) name = 1).
Proof.
  split.
  - intros Hds Hsch. apply set_eq. intros x.
    rewrite elem_of_backupStorageNamesFrom, Hds, Hsch, elem_of_nil.
    set_solver.
  - intros name Hds Hsch.
    assert (Heq : backupStorageNamesFrom dbc = {[ name ]}).
    { apply set_eq. intros x.
      rewrite elem_of_backupStorageNamesFrom, Hds, elem_of_singleton.
      split; [intros [[= ->]| Hx]; auto | intros ->; auto]. }
    split; [exact Heq|].
    apply count_occ_NoDup_1; [apply rangeKeys_NoDup|].
    rewrite elem_of_rangeKeys, Heq. set_solver.
Qed.

(** C10. The resolver of the stored spec never adds the empty string, the
    resolver of the incoming spec adds it when the data source names the
    empty storage; on an update such a spec makes the empty string one of
    the names to create, which the create phase then visits. *)
Theorem C10_resolvers_disagree_on_empty_names env w dbc oldDB :
  ("" ∉ withBackupStorageNamesFromDBCluster ∅ oldDB)
  ∧ (dataSourceName dbc = Some "" →
       "" ∈ backupStorageNamesFrom dbc
       ∧ "" ∈ uniqueKeys (withBackupStorageNamesFromDBCluster ∅ oldDB)
                          (backupStorageNamesFrom dbc)
       ∧ "" ∈ rangeKeys env w
               (uniqueKeys (withBackupStorageNamesFromDBCluster ∅ oldDB)
                           (backupStorageNamesFrom dbc))).
Proof.
  assert (Hold : "" ∉ withBackupStorageNamesFromDBCluster ∅ oldDB).
  { rewrite elem_of_withBackupStorageNamesFromDBCluster. set_solver. }
  split; [exact Hold|].
  intros Hds.
  assert (Hnew : "" ∈ backupStorageNamesFrom dbc).
  { rewrite elem_of_backupStorageNamesFrom. auto. }
  split; [exact Hnew|].
  rewrite elem_of_rangeKeys, elem_of_uniqueKeys. auto.
Qed.

(** ** Reading the stores *)

Lemma frame_refl w : frame w w [].
Proof. unfold frame. rewrite app_nil_r. done. Qed.

Lemma frame_trans w1 w2 w3 e1 e2 :
  frame w1 w2 e1 → frame w2 w3 e2 → frame w1 w3 (e1 ++ e2).
Proof.
  unfold frame. intros (-> & -> & -> & -> & -> & ->) (-> & -> & -> & -> & -> & ->).
  by rewrite app_assoc.
Qed.

Ltac solve_frame := unfold frame; simpl; rewrite <- ?app_assoc; done.

(** Names the calls of a run: the record of calls is the one before,
    followed by them. *)
Ltac split_trace :=
  first [ exists []; split; [by rewrite app_nil_r|]
        | eexists; split; [rewrite <- ?app_assoc; reflexivity|] ].

(** Case analysis on a membership in an explicit list. *)
Ltac in_list Hin :=
  simpl in Hin;
  repeat (apply elem_of_cons in Hin as [Hin|Hin]; [simplify_eq|]);
  try (by apply elem_of_nil in Hin).

(** Finds an element in an explicit list. *)
Ltac solve_in :=
  simpl; repeat first [apply list_elem_of_here | apply list_elem_of_further].

(** [Done] touches the wait group only, and panics exactly when the
    counter is at zero. *)
Lemma waitGroup_Done_spec w u w' :
  waitGroup_Done w = (u, w') →
  trace w' = trace w
  ∧ stores w' = stores w
  ∧ history w' = history w
  ∧ goroutines w' = goroutines w
  ∧ waitGroup w' = waitGroup w - 1
  ∧ panicked w' = panicked w || bool_decide (waitGroup w = 0).
Proof.
  unfold waitGroup_Done. destruct (waitGroup w) eqn:Hn; intros H; simplify_eq/=.
  - split_and!; try done. by rewrite orb_true_r.
  - split_and!; try done; [lia|by rewrite orb_false_r].
Qed.

(** Chains the frame of the steps just executed with the frame [Hfr] of
    the rest of the loop. *)
Ltac chain_frame Hfr :=
  eapply frame_trans; [|exact Hfr]; solve_frame.

Lemma find_bsName name rows bs :
  find (fun bs => bool_decide (bsName bs = name)) rows = Some bs → bsName bs = name.
Proof. intros H. apply find_some in H as [_ H]. by apply bool_decide_eq_true in H. Qed.

Lemma find_miName name rows i :
  find (fun i => bool_decide (miName i = name)) rows = Some i → miName i = name.
Proof. intros H. apply find_some in H as [_ H]. by apply bool_decide_eq_true in H. Qed.

Lemma storage_GetBackupStorage_Ok env name w bs w' :
  storage_GetBackupStorage env name w = (Ok bs, w') →
  bsName bs = name
  ∧ w' = emit (Called (CGetBackupStorage name) None) w
  ∧ fault env w (CGetBackupStorage name) = None
  ∧ find (fun bs => bool_decide (bsName bs = name)) (storages (stores w)) = Some bs.
Proof.
  unfold storage_GetBackupStorage. intros H.
  destruct (fault env w _); [simplify_eq/=|].
  destruct (find _ _) eqn:Hf; simplify_eq/=.
  split; [by eapply find_bsName|done].
Qed.

Lemma storage_GetBackupStorage_Err env name w e w' :
  storage_GetBackupStorage env name w = (Err e, w') →
  w' = emit (Called (CGetBackupStorage name) (Some e)) w.
Proof.
  unfold storage_GetBackupStorage. intros H.
  destruct (fault env w _); [by simplify_eq/=|].
  destruct (find _ _) eqn:Hf; by simplify_eq/=.
Qed.

Lemma storage_GetMonitoringInstance_Ok env name w i w' :
  storage_GetMonitoringInstance env name w = (Ok i, w') →
  miName i = name ∧ w' = emit (Called (CGetMonitoringInstance name) None) w.
Proof.
  unfold storage_GetMonitoringInstance. intros H.
  destruct (fault env w _); [simplify_eq/=|].
  destruct (find _ _) eqn:Hf; simplify_eq/=.
  split; [by eapply find_miName|done].
Qed.

Lemma storage_GetMonitoringInstance_Err env name w e w' :
  storage_GetMonitoringInstance env name w = (Err e, w') →
  w' = emit (Called (CGetMonitoringInstance name) (Some e)) w.
Proof.
  unfold storage_GetMonitoringInstance. intros H.
  destruct (fault env w _); [by simplify_eq/=|].
  destruct (find _ _) eqn:Hf; by simplify_eq/=.
Qed.

(** ** Best-effort cleanup of backup-storage configs *)

Lemma deleteK8SBackupStorages_loop_spec env kube keys w u w' :
  deleteK8SBackupStorages_loop env kube keys w = (u, w') →
  ∃ evs, frame w w' evs
    ∧ requestedBackupStorages evs = keys
    ∧ cleanupPass kube "could not delete backup storage config in Kubernetes" evs.
Proof.
  revert w. induction keys as [|name keys IH]; intros w H; simpl in H.
  - inversion H; subst. exists []. split; [apply frame_refl|]. by repeat split.
  - unfold bind at 1 in H.
    destruct (storage_GetBackupStorage env name w) as [[bs|e] w1] eqn:Hget.
    + apply storage_GetBackupStorage_Ok in Hget as (Hn & -> & _).
      unfold bind, kube_DeleteConfig, kube_call, log_Error in H. simpl in H.
      destruct (fault env _ _) as [err|] eqn:Hf; simpl in H;
        [destruct (errors_Is err ErrConfigInUse) eqn:His; simpl in H|];
        apply IH in H as (evs & Hfr & H1 & H2 & H3 & H4 & H5 & H6 & H7 & H8 & H9).
      * eexists ([_; _] ++ evs). split; [chain_frame Hfr|].
        unfold cleanupPass. simpl. rewrite His, H1, H2, H4, H5, H6, H7, H8, H9, Hn.
        repeat split; try done. by constructor.
      * eexists ([_; _; _] ++ evs). split; [chain_frame Hfr|].
        unfold cleanupPass. simpl. rewrite His, H1, H2, H4, H5, H6, H7, H8, H9, Hn.
        repeat split; try done. by constructor.
      * eexists ([_; _] ++ evs). split; [chain_frame Hfr|].
        unfold cleanupPass. simpl. rewrite H1, H2, H4, H5, H6, H7, H8, H9, Hn.
        repeat split; try done. by constructor.
    + apply storage_GetBackupStorage_Err in Hget as ->.
      unfold bind, log_Error in H. simpl in H.
      apply IH in H as (evs & Hfr & H1 & H2 & H3 & H4 & H5 & H6 & H7 & H8 & H9).
      eexists ([_; _] ++ evs). split; [chain_frame Hfr|].
      unfold cleanupPass. simpl. rewrite H1, H2, H4, H5, H6, H7, H8, H9.
      by repeat split.
Qed.

Lemma find_kID id rows k :
  find (fun k => bool_decide (kID k = id)) rows = Some k → kID k = id.
Proof. intros H. apply find_some in H as [_ H]. by apply bool_decide_eq_true in H. Qed.

(** Turns the boolean tests met while executing a handler into
    propositions, and the lookups into facts about what was found. *)
Ltac reflect_tests :=
  repeat match goal with
         | H : bool_decide _ = true |- _ => apply bool_decide_eq_true in H
         | H : bool_decide _ = false |- _ => apply bool_decide_eq_false in H
         | H : find (fun k => bool_decide (kID k = _)) _ = Some _ |- _ =>
             apply find_kID in H
         end.

Lemma deleteK8SBackupStorages_spec env kube names w u w' :
  deleteK8SBackupStorages env kube names w = (u, w') →
  ∃ evs, trace w' = trace w ++ evs
    ∧ stores w' = stores w
    ∧ waitGroup w' = waitGroup w - 1
    ∧ requestedBackupStorages evs ≡ₚ elements names
    ∧ cleanupPass kube "could not delete backup storage config in Kubernetes" evs.
Proof.
  unfold deleteK8SBackupStorages, bind, range. intros H.
  destruct (deleteK8SBackupStorages_loop _ _ _ _) as [u1 w1] eqn:Hloop.
  apply deleteK8SBackupStorages_loop_spec in Hloop as (evs & Hfr & Hreq & Hpass).
  destruct Hfr as (Ht & Hs & Hh & Hg & Hwg & Hpn).
  apply waitGroup_Done_spec in H as (Ht' & Hs' & _ & _ & Hwg' & _).
  exists evs. rewrite Ht', Hs', Hwg', Hreq, Hwg.
  split_and!; try done. apply rangeKeys_perm.
Qed.

(** ** Deleting a database cluster *)

(** Three facts about any record of calls: a record that was fetched or
    not was asked for; a name asked for once and not returned was not
    fetched; and when no fetch failed, what was asked for was fetched. *)
Lemma requested_of_called evs n r :
  Called (CGetBackupStorage n) r ∈ evs → n ∈ requestedBackupStorages evs.
Proof.
  induction evs as [|ev evs IH]; [by intros ?%elem_of_nil|].
  intros [<-|Hin]%elem_of_cons; simpl; [apply list_elem_of_here|].
  destruct ev as [[] ?| | | |]; simpl; rewrite ?elem_of_cons; auto.
Qed.

Lemma fetched_is_requested evs n :
  n ∈ fetchedBackupStorages evs → n ∈ requestedBackupStorages evs.
Proof.
  induction evs as [|ev evs IH]; [done|]. simpl.
  destruct ev as [[] [?|]| | | |]; simpl; rewrite ?elem_of_cons; naive_solver.
Qed.

Lemma failed_fetch_not_fetched evs n e :
  NoDup (requestedBackupStorages evs) →
  Called (CGetBackupStorage n) (Some e) ∈ evs →
  n ∉ fetchedBackupStorages evs.
Proof.
  induction evs as [|ev evs IH]; [by intros _ ?%elem_of_nil|].
  intros Hnd [<-|Hin]%elem_of_cons.
  - simpl in *. apply NoDup_cons in Hnd as [Hn _].
    intros Hf. by apply fetched_is_requested in Hf.
  - destruct ev as [[m| | | | | | | | | | | | | |] [err|]| | | |]; simpl in *; auto.
    + apply NoDup_cons in Hnd as [_ Hnd]. auto.
    + apply NoDup_cons in Hnd as [Hm Hnd].
      rewrite elem_of_cons. intros [->|Hf]; [|by apply IH in Hf].
      by apply requested_of_called in Hin.
Qed.

Lemma fetched_all evs :
  (∀ n e, Called (CGetBackupStorage n) (Some e) ∉ evs) →
  fetchedBackupStorages evs = requestedBackupStorages evs.
Proof.
  induction evs as [|ev evs IH]; [done|]. intros Hok.
  assert (Htail : ∀ n e, Called (CGetBackupStorage n) (Some e) ∉ evs).
  { intros n e Hin. apply (Hok n e). by apply list_elem_of_further. }
  specialize (IH Htail).
  destruct ev as [[m| | | | | | | | | | | | | |] [err|]| | | |]; simpl; try done.
  - exfalso. apply (Hok m err). apply list_elem_of_here.
  - by rewrite IH.
Qed.

(** The config a cleanup loop hands to [DeleteConfig] is the record the
    metadata store holds. *)
Lemma deleteK8SBackupStorages_loop_records env kube keys w u w' :
  deleteK8SBackupStorages_loop env kube keys w = (u, w') →
  ∃ evs, frame w w' evs
    ∧ ∀ k cfg inUse r,
        Called (CDeleteConfig k cfg inUse) r ∈ evs →
        ∃ bs, cfg = CfgBackupStorage bs ∧ storedIn (stores w) bs.
Proof.
  revert w. induction keys as [|name keys IH]; intros w H; simpl in H.
  - inversion H; subst. exists []. split; [apply frame_refl|].
    by intros ???? ?%elem_of_nil.
  - unfold bind at 1 in H.
    destruct (storage_GetBackupStorage env name w) as [[bs|e] w1] eqn:Hget.
    + apply storage_GetBackupStorage_Ok in Hget as (Hn & -> & _ & Hfind).
      assert (Hst : storedIn (stores w) bs)
        by (unfold storedIn, lookupBackupStorage; by rewrite Hn).
      unfold bind, kube_DeleteConfig, kube_call, log_Error in H. simpl in H.
      destruct (fault env _ _) as [err|] eqn:Hf; simpl in H;
        [destruct (errors_Is err ErrConfigInUse) eqn:His; simpl in H|];
        apply IH in H as (evs & Hfr & Hrec); simpl in Hrec.
      * eexists ([_; _] ++ evs). split; [chain_frame Hfr|].
        intros k cfg inUse r Hin. simpl in Hin.
        repeat (apply elem_of_cons in Hin as [Hin|Hin]; [simplify_eq; eauto|]).
        eauto.
      * eexists ([_; _; _] ++ evs). split; [chain_frame Hfr|].
        intros k cfg inUse r Hin. simpl in Hin.
        repeat (apply elem_of_cons in Hin as [Hin|Hin]; [simplify_eq; eauto|]).
        eauto.
      * eexists ([_; _] ++ evs). split; [chain_frame Hfr|].
        intros k cfg inUse r Hin. simpl in Hin.
        repeat (apply elem_of_cons in Hin as [Hin|Hin]; [simplify_eq; eauto|]).
        eauto.
    + apply storage_GetBackupStorage_Err in Hget as ->.
      unfold bind, log_Error in H. simpl in H.
      apply IH in H as (evs & Hfr & Hrec); simpl in Hrec.
      eexists ([_; _] ++ evs). split; [chain_frame Hfr|].
      intros k cfg inUse r Hin. simpl in Hin.
      repeat (apply elem_of_cons in Hin as [Hin|Hin]; [simplify_eq; eauto|]).
      eauto.
Qed.

(** What the goroutine of [deleteK8SBackupStorages] does, whenever it
    runs. *)
Lemma deleteK8SBackupStorages_run env kube names w :
  ∃ evs,
    trace (deleteK8SBackupStorages env kube names w).2 = trace w ++ evs
    ∧ requestedBackupStorages evs ≡ₚ elements names
    ∧ cleanupPass kube "could not delete backup storage config in Kubernetes" evs
    ∧ (∀ k cfg inUse r,
         Called (CDeleteConfig k cfg inUse) r ∈ evs →
         ∃ bs, cfg = CfgBackupStorage bs ∧ storedIn (stores w) bs)
    ∧ (∀ n e,
         Called (CGetBackupStorage n) (Some e) ∈ evs →
         n ∉ deletedBackupStorages evs)
    ∧ ((∀ n e, Called (CGetBackupStorage n) (Some e) ∉ evs) →
       deletedBackupStorages evs ≡ₚ elements names).
Proof.
  destruct (deleteK8SBackupStorages env kube names w) as [u w'] eqn:Hrun.
  pose proof Hrun as Hrun'.
  apply deleteK8SBackupStorages_spec in Hrun as (evs & Ht & _ & _ & Hreq & Hpass).
  revert Hrun'. unfold deleteK8SBackupStorages, bind, range. intros Hrun'.
  destruct (deleteK8SBackupStorages_loop _ _ _ _) as [u1 w1] eqn:Hloop.
  apply deleteK8SBackupStorages_loop_records in Hloop as (evs' & (Ht' & _) & Hrec).
  apply waitGroup_Done_spec in Hrun' as (Ht'' & _).
  assert (evs' = evs) as ->
    by (apply (app_inv_head (trace w)); by rewrite <- Ht', <- Ht'', Ht).
  exists evs. simpl. split_and!; try done.
  - intros n e Hin. destruct Hpass as (-> & _).
    apply (failed_fetch_not_fetched _ _ e); [|done].
    rewrite Hreq. apply NoDup_elements.
  - intros Hok. destruct Hpass as (-> & _). by rewrite fetched_all.
Qed.

(** What the goroutine of [deleteK8SMonitoringConfig] does, whenever it
    runs. *)
Lemma deleteK8SMonitoringConfig_run env kube n w :
  ∃ evs,
    trace (deleteK8SMonitoringConfig env kube n w).2 = trace w ++ evs
    ∧ ((∃ e, evs = [Called (CGetMonitoringInstance n) (Some e);
                    LogError (ErrJoin e (ErrNew "could get monitoring instance"))])
       ∨ (∃ i r,
            lookupMonitoringInstance n (stores w) = Some i
            ∧ evs = [Called (CGetMonitoringInstance n) None;
                     Called (CDeleteConfig kube (CfgMonitoring i)
                               IsMonitoringConfigInUse) r]
                    ++ deleteConfigLog
                         "could not delete monitoring config in Kubernetes" r)).
Proof.
  destruct (deleteK8SMonitoringConfig env kube n w) as [u w'] eqn:Hrun.
  revert Hrun.
  unfold deleteK8SMonitoringConfig, storage_GetMonitoringInstance, kube_DeleteConfig,
    kube_call, log_Error, waitGroup_Done, bind, ret, lookupMonitoringInstance,
    deleteConfigLog.
  intros H. simpl in H.
  repeat (case_match; simpl in *; simplify_eq).
  all: eexists; (split; [rewrite <- ?app_assoc; reflexivity|]).
  all: first [ left; eexists; reflexivity | right ].
  all: match goal with
       | Hf : fault _ _ (CDeleteConfig _ _ _) = ?r |- _ =>
           eexists _, r; split; [reflexivity|]
       end.
  all: simpl; repeat case_match; simpl in *; done.
Qed.

(** C4 fails on the code. The cluster [db] references the storages [A]
    and [B] and the monitoring instance [M], and its proxied delete
    succeeds; while the cleanup runs, the metadata store fails to return the
    records of [B] and [M]. [DeleteConfig] is then called for [A] alone:
    the configs of [B] and [M] are never submitted, the two failed fetches
    are written to the log and nothing else happens. *)
Lemma C4_an_unfetched_name_is_not_cleaned_up :
  (DeleteDatabaseCluster deleteLosingEnv emptyRequest "k1" "db" registeredWorld).1
  = Proxy None 200
  ∧ length (goroutines
              (DeleteDatabaseCluster deleteLosingEnv emptyRequest "k1" "db"
                 registeredWorld).2) = 2
  ∧ deleteConfigCalls (trace afterDeleteCleanup)
    = [(kube1, CfgBackupStorage (storageRecord "A" "a-access" "a-secret"),
        IsBackupStorageConfigInUse)]
  ∧ loggedErrors (trace afterDeleteCleanup)
    = [ErrJoin (ErrNew "connection refused") (ErrNew "could not get backup storage");
       ErrJoin (ErrNew "connection refused") (ErrNew "could get monitoring instance")].
Proof. vm_compute. repeat split; reflexivity. Qed.

(** C4, amended. [DeleteDatabaseCluster] itself never calls [DeleteConfig].
    A run that hands back the response of the proxy has looked up the
    registered cluster, built its client, fetched the stored cluster and
    proxied the delete, in this order and nothing else; it starts
    goroutines only when the proxy returned no error and a status below
    300: the cleanup of the backup-storage names of the stored cluster and,
    when its monitoring name is not empty, the cleanup of that name. Every
    other run answers with an error after a call failed, proxies nothing
    and starts nothing. Whenever it runs, the first goroutine asks the
    store for each name once and calls [DeleteConfig], on the same client
    and with the stored record, for exactly the names whose record is
    returned: a name whose record is not returned is logged and skipped.
    The second does the same for the monitoring name. [ErrConfigInUse] is
    not logged, every other failure is; nothing is returned to anyone. *)
Theorem C4_delete_cluster_cleanup env ctx kubernetesID name w reply w' :
  DeleteDatabaseCluster env ctx kubernetesID name w = (reply, w') →
  (∃ evs,
     trace w' = trace w ++ evs
     ∧ deleteConfigCalls evs = []
     ∧ match reply with
       | Proxy perr status =>
           ∃ k db,
             let kube := {| kubeID := kubernetesID; kubeNamespace := kNamespace k |} in
             lookupKubernetesCluster kubernetesID (stores w) = Some k
             ∧ evs = [Called (CGetKubernetesCluster kubernetesID) None;
                      Called (CNewFromSecretsStorage kubernetesID (kNamespace k)) None;
                      GotDatabaseCluster kube name db;
                      Proxied kubernetesID name perr status]
             ∧ goroutines w'
               = goroutines w
                 ++ (if bool_decide (perr = None ∧ status < StatusMultipleChoices)
                     then go_deleteK8SBackupStorages kube
                            (BackupStorageNamesFromDBCluster env db)
                          :: (if bool_decide (oldMonitoringName db ≠ "")
                              then [go_deleteK8SMonitoringConfig kube
                                      (oldMonitoringName db)]
                              else [])
                     else [])
       | JSON code body =>
           goroutines w' = goroutines w
           ∧ proxyCalls evs = []
           ∧ ∃ c e, Called c (Some e) ∈ evs
       | Failed _ => False
       end)
  ∧ (∀ kube names w1,
       ∃ evs,
         trace (run_task env (go_deleteK8SBackupStorages kube names) w1).2
         = trace w1 ++ evs
         ∧ requestedBackupStorages evs ≡ₚ elements names
         ∧ cleanupPass kube "could not delete backup storage config in Kubernetes" evs
         ∧ (∀ k cfg inUse r,
              Called (CDeleteConfig k cfg inUse) r ∈ evs →
              ∃ bs, cfg = CfgBackupStorage bs ∧ storedIn (stores w1) bs)
         ∧ (∀ n e,
              Called (CGetBackupStorage n) (Some e) ∈ evs →
              n ∉ deletedBackupStorages evs)
         ∧ ((∀ n e, Called (CGetBackupStorage n) (Some e) ∉ evs) →
            deletedBackupStorages evs ≡ₚ elements names))
  ∧ (∀ kube n w1,
       ∃ evs,
         trace (run_task env (go_deleteK8SMonitoringConfig kube n) w1).2
         = trace w1 ++ evs
         ∧ ((∃ e, evs = [Called (CGetMonitoringInstance n) (Some e);
                         LogError (ErrJoin e (ErrNew "could get monitoring instance"))])
            ∨ (∃ i r,
                 lookupMonitoringInstance n (stores w1) = Some i
                 ∧ evs = [Called (CGetMonitoringInstance n) None;
                          Called (CDeleteConfig kube (CfgMonitoring i)
                                    IsMonitoringConfigInUse) r]
                         ++ deleteConfigLog
                              "could not delete monitoring config in Kubernetes" r))).
Proof.
  intros H. split; [|split].
  - revert H.
    unfold DeleteDatabaseCluster, initKubeClient, kubernetes_NewFromSecretsStorage,
      kube_GetDatabaseCluster, proxyKubernetes, storage_GetKubernetesCluster,
      kube_call, log_Error, waitGroup_Add, go, bind, ret, oldMonitoringName,
      lookupKubernetesCluster.
    intros H. simpl in H.
    repeat (case_match; simpl in *; simplify_eq).
    all: split_trace.
    all: split; [reflexivity|].
    all: try solve [ split_and!; try done; eexists _, _; solve_in ].
    all: match goal with
         | Hk : find _ (kubernetesClusters _) = Some ?k |- _ =>
             pose proof (find_kID _ _ _ Hk) as Hid; subst kubernetesID;
             eexists k, _
         end.
    all: cbv zeta; split_and!; try done.
    all: reflect_tests.
    all: try (exfalso; lia).
    all: simpl; rewrite <- ?app_assoc;
      repeat match goal with Hm : K8s.Monitoring_ _ = _ |- _ => rewrite Hm end;
      rewrite ?bool_decide_eq_true_2, ?bool_decide_eq_false_2
        by first [ done | split; [done|lia] | intros [? ?]; lia | auto ];
      rewrite ?app_nil_r; reflexivity.
  - intros kube names w1. simpl. apply deleteK8SBackupStorages_run.
  - intros kube n w1. simpl. apply deleteK8SMonitoringConfig_run.
Qed.

Lemma C4_delete_cluster_cleanup_witness :
  DeleteDatabaseCluster deleteEnv emptyRequest "k1" "db" registeredWorld
  = (Proxy None 200,
     (DeleteDatabaseCluster deleteEnv emptyRequest "k1" "db" registeredWorld).2)
  ∧ ∃ evs,
      trace (DeleteDatabaseCluster deleteEnv emptyRequest "k1" "db" registeredWorld).2
      = trace registeredWorld ++ evs
      ∧ deleteConfigCalls evs = []
      ∧ ∃ k db,
          lookupKubernetesCluster "k1" (stores registeredWorld) = Some k
          ∧ evs = [Called (CGetKubernetesCluster "k1") None;
                   Called (CNewFromSecretsStorage "k1" (kNamespace k)) None;
                   GotDatabaseCluster
                     {| kubeID := "k1"; kubeNamespace := kNamespace k |} "db" db;
                   Proxied "k1" "db" None 200].
Proof.
  assert (Hrun : DeleteDatabaseCluster deleteEnv emptyRequest "k1" "db" registeredWorld
                 = (Proxy None 200,
                    (DeleteDatabaseCluster deleteEnv emptyRequest "k1" "db"
                       registeredWorld).2)) by (vm_compute; reflexivity).
  split; [exact Hrun|].
  destruct (C4_delete_cluster_cleanup _ _ _ _ _ _ _ Hrun)
    as [(evs & Ht & Hd & k & db & Hk & Hevs & _) _].
  exists evs. split; [exact Ht|]. split; [exact Hd|].
  exists k, db. split; [exact Hk|exact Hevs].
Defined.

Lemma C9_backupStorageNamesFrom_is_a_set_witness :
  (dataSourceName (incoming None [] "") = None
   ∧ scheduleNames (incoming None [] "") = []
   ∧ backupStorageNamesFrom (incoming None [] "") = ∅)
  ∧ (dataSourceName (incoming (Some "s3") ["s3"; "s3"] "") = Some "s3"
     ∧ backupStorageNamesFrom (incoming (Some "s3") ["s3"; "s3"] "") = {[ "s3" ]}
     ∧ count_occ string_dec
         (rangeKeys deleteEnv registeredWorld
            (backupStorageNamesFrom (incoming (Some "s3") ["s3"; "s3"] ""))) "s3" = 1).
Proof.
  split.
  - split; [reflexivity|]. split; [reflexivity|].
    apply (C9_backupStorageNamesFrom_is_a_set deleteEnv registeredWorld
             (incoming None [] "")); reflexivity.
  - split; [reflexivity|].
    apply (C9_backupStorageNamesFrom_is_a_set deleteEnv registeredWorld
             (incoming (Some "s3") ["s3"; "s3"] "")); [reflexivity|].
    intros n Hn. vm_compute in Hn.
    repeat (apply elem_of_cons in Hn as [Hn|Hn]; [exact Hn|]).
    by apply elem_of_nil in Hn.
Defined.

Lemma C10_resolvers_disagree_on_empty_names_witness :
  dataSourceName (incoming (Some "") [] "") = Some ""
  ∧ "" ∈ uniqueKeys (withBackupStorageNamesFromDBCluster ∅ (stored (Some "") [] ""))
                     (backupStorageNamesFrom (incoming (Some "") [] "")).
Proof.
  split; [reflexivity|].
  apply (C10_resolvers_disagree_on_empty_names deleteEnv registeredWorld
           (incoming (Some "") [] "") (stored (Some "") [] "")).
  reflexivity.
Defined.

(** ** Creating a backup storage *)

(** C6. When the store returns a record for the requested name,
    [CreateBackupStorage] answers 409 after two steps, the lookup and a log
    line: the stores, the vault among them, are as before. In every run, a
    secret is created only after the lookup has reported that the name is
    free; and [CreateBackupStorage] never deletes a secret. *)
Theorem C6_duplicate_name_is_a_conflict env ctx params w reply w' :
  bodyCreateBackupStorage ctx = Ok params →
  CreateBackupStorage env ctx w = (reply, w') →
  ∃ evs,
    trace w' = trace w ++ evs
    ∧ (∀ existing,
         fault env w (CGetBackupStorage (cpName params)) = None →
         find (fun bs => bool_decide (bsName bs = cpName params)) (storages (stores w))
         = Some existing →
         reply = JSON StatusConflict
                   (BodyError ("storage " +:+ cpName params +:+ " already exists"))
         ∧ stores w' = stores w
         ∧ history w' = history w
         ∧ evs = [Called (CGetBackupStorage (cpName params)) None;
                  LogError (ErrNew ("storage " +:+ cpName params +:+ " already exists"))])
    ∧ (∀ id value r,
         Called (CCreateSecret id value) r ∈ evs →
         ∃ e rest,
           evs = Called (CGetBackupStorage (cpName params)) (Some e) :: rest
           ∧ errors_Is e ErrRecordNotFound = true)
    ∧ (∀ id r, Called (CDeleteSecret id) r ∉ evs).
Proof.
  intros Hbody. unfold CreateBackupStorage. rewrite Hbody.
  unfold createSecrets, createBackupStorage, cleanUpNewSecretsOnUpdateError,
    storage_CreateBackupStorage, storage_GetBackupStorage, secrets_CreateSecret,
    uuid_New, log_Error, bind, ret.
  intros H. simpl in H.
  repeat (case_match; simpl in *; simplify_eq).
  all: eexists; (split; [rewrite <- ?app_assoc; reflexivity|]).
  all: split; [intros existing ? ?; simplify_eq; try done|].
  all: split; [intros id value r Hin; simpl in Hin|intros id r Hin; simpl in Hin].
  all: repeat (apply elem_of_cons in Hin as [Hin|Hin]; [simplify_eq|]);
       try (by apply elem_of_nil in Hin).
  all: try (eexists _, _; split; [reflexivity|]).
  all: try reflexivity.
  all: match goal with H : negb _ = false |- _ => by apply negb_false_iff in H end.
Qed.

Lemma C6_duplicate_name_is_a_conflict_witness :
  bodyCreateBackupStorage createS3 = Ok s3Params
  ∧ CreateBackupStorage reliableEnv createS3 s3Registered
    = (JSON StatusConflict (BodyError "storage s3 already exists"),
       (CreateBackupStorage reliableEnv createS3 s3Registered).2)
  ∧ stores (CreateBackupStorage reliableEnv createS3 s3Registered).2
    = stores s3Registered.
Proof.
  assert (Hrun : CreateBackupStorage reliableEnv createS3 s3Registered
                 = (JSON StatusConflict (BodyError "storage s3 already exists"),
                    (CreateBackupStorage reliableEnv createS3 s3Registered).2))
    by (vm_compute; reflexivity).
  split; [reflexivity|]. split; [exact Hrun|].
  destruct (C6_duplicate_name_is_a_conflict reliableEnv createS3 s3Params
              s3Registered _ _ eq_refl Hrun) as (evs & _ & Hdup & _).
  apply (Hdup (storageRecord "s3" "old-access" "old-secret")); reflexivity.
Defined.

(** C5 fails on the code. The cleanup is deferred with the values its
    arguments have at the [defer] statement, two nil ids, so it deletes
    nothing: when the secrets are written and the insert into the metadata
    store then fails, [CreateBackupStorage] answers 500, no [DeleteSecret]
    is ever called and both secrets stay in the vault. *)
Theorem C5_failed_create_leaves_both_secrets :
  (CreateBackupStorage insertFailsEnv createS3 noStorages).1
  = JSON StatusInternalServerError (BodyError "Could not create a new backup storage")
  ∧ trace (CreateBackupStorage insertFailsEnv createS3 noStorages).2
    = [Called (CGetBackupStorage "s3") (Some ErrRecordNotFound);
       Called (CCreateSecret "0" "AK") None;
       Called (CCreateSecret "1" "SK") None;
       Called (CCreateBackupStorage
                 {| mcName := "s3"; mcDescription := ""; mcType := "s3";
                    mcBucketName := "bucket"; mcURL := ""; mcRegion := "us-east-1";
                    mcAccessKeyID := "0"; mcSecretKeyID := "1" |})
              (Some (ErrNew "connection refused"));
       LogError (ErrNew "connection refused")]
  ∧ secrets (stores (CreateBackupStorage insertFailsEnv createS3 noStorages).2)
    = {[ "0" := "AK"; "1" := "SK" ]}
  ∧ storages (stores (CreateBackupStorage insertFailsEnv createS3 noStorages).2) = [].
Proof. vm_compute. repeat split; reflexivity. Qed.

(** ** Creating a database cluster *)

(** C1 fails on the code. With [A] materialized and the fetch of the
    record of [B] failing, [CreateDatabaseCluster] answers 500 and proxies
    nothing, but it returns from the loop without rolling back: no
    [DeleteConfig] is called and the config of [A] stays. When instead
    [EnsureConfigExists] fails for [B], the same loop does roll back and
    calls [DeleteConfig] for [A]. *)
Theorem C1_fetch_failure_skips_the_rollback :
  ((CreateDatabaseCluster losingEnv createAB "k1" registeredWorld).1
   = JSON StatusInternalServerError (BodyError "Could not create BackupStorage")
   ∧ trace (CreateDatabaseCluster losingEnv createAB "k1" registeredWorld).2
     = [Called (CGetKubernetesCluster "k1") None;
        Called (CNewFromSecretsStorage "k1" "everest") None;
        Called (CGetBackupStorage "A") None;
        Called (CEnsureConfigExists kube1
                  (CfgBackupStorage (storageRecord "A" "a-access" "a-secret"))) None;
        Called (CGetBackupStorage "B") (Some (ErrNew "connection refused"));
        LogError (ErrJoin (ErrNew "connection refused")
                    (ErrNew "could not get backup storage"))])
  ∧ ((CreateDatabaseCluster refusingEnv createAB "k1" registeredWorld).1
     = JSON StatusInternalServerError (BodyError "Could not create BackupStorage")
     ∧ deleteConfigCalls
         (trace (CreateDatabaseCluster refusingEnv createAB "k1" registeredWorld).2)
       = [(kube1, CfgBackupStorage (storageRecord "A" "a-access" "a-secret"),
           IsBackupStorageConfigInUse)]
     ∧ proxyCalls
         (trace (CreateDatabaseCluster refusingEnv createAB "k1" registeredWorld).2)
       = []).
Proof. vm_compute. repeat split; reflexivity. Qed.

(** ** Updating a database cluster *)

Lemma rollbackCreatedBackupStorages_spec env kube toDelete w u w' :
  rollbackCreatedBackupStorages env kube toDelete w = (u, w') →
  ∃ evs, frame w w' evs
    ∧ requestedBackupStorages evs = toDelete
    ∧ cleanupPass kube "could not delete backup storage config" evs.
Proof.
  revert w. induction toDelete as [|name keys IH]; intros w H; simpl in H.
  - inversion H; subst. exists []. split; [apply frame_refl|]. by repeat split.
  - unfold bind at 1 in H.
    destruct (storage_GetBackupStorage env name w) as [[bs|e] w1] eqn:Hget.
    + apply storage_GetBackupStorage_Ok in Hget as (Hn & -> & _).
      unfold bind, kube_DeleteConfig, kube_call, log_Error in H. simpl in H.
      destruct (fault env _ _) as [err|] eqn:Hf; simpl in H;
        [destruct (errors_Is err ErrConfigInUse) eqn:His; simpl in H|];
        apply IH in H as (evs & Hfr & H1 & H2 & H3 & H4 & H5 & H6 & H7 & H8 & H9).
      * eexists ([_; _] ++ evs). split; [chain_frame Hfr|].
        unfold cleanupPass. simpl. rewrite His, H1, H2, H4, H5, H6, H7, H8, H9, Hn.
        repeat split; try done. by constructor.
      * eexists ([_; _; _] ++ evs). split; [chain_frame Hfr|].
        unfold cleanupPass. simpl. rewrite His, H1, H2, H4, H5, H6, H7, H8, H9, Hn.
        repeat split; try done. by constructor.
      * eexists ([_; _] ++ evs). split; [chain_frame Hfr|].
        unfold cleanupPass. simpl. rewrite H1, H2, H4, H5, H6, H7, H8, H9, Hn.
        repeat split; try done. by constructor.
    + apply storage_GetBackupStorage_Err in Hget as ->.
      unfold bind, log_Error in H. simpl in H.
      apply IH in H as (evs & Hfr & H1 & H2 & H3 & H4 & H5 & H6 & H7 & H8 & H9).
      eexists ([_; _] ++ evs). split; [chain_frame Hfr|].
      unfold cleanupPass. simpl. rewrite H1, H2, H4, H5, H6, H7, H8, H9.
      by repeat split.
Qed.

Lemma createBackupStorages_loop_spec env kube keys processed w r w' :
  createBackupStorages_loop env kube keys processed w = (r, w') →
  ∃ evs, frame w w' evs ∧ createPass keys r evs.
Proof.
  revert w processed. induction keys as [|name keys IH]; intros w processed H; simpl in H.
  - inversion H; subst. exists []. split; [apply frame_refl|]. by repeat split.
  - unfold bind at 1 in H.
    destruct (storage_GetBackupStorage env name w) as [[bs|e] w1] eqn:Hget.
    + apply storage_GetBackupStorage_Ok in Hget as (Hn & -> & _).
      unfold bind at 1, kube_EnsureConfigExists, kube_call in H. simpl in H.
      destruct (fault env _ _) as [err|] eqn:Hf; simpl in H.
      * unfold bind, ret in H.
        destruct (rollbackCreatedBackupStorages _ _ _ _) as [u w2] eqn:Hrb.
        apply rollbackCreatedBackupStorages_spec in Hrb
          as (evs & Hfr & H1 & H2 & H3 & H4 & H5 & H6 & H7 & H8 & H9).
        simplify_eq. eexists ([_; _] ++ evs). split; [chain_frame Hfr|].
        unfold createPass. simpl. rewrite H4, H5, H7, H8.
        by repeat split.
      * apply IH in H as (evs & Hfr & H1 & H2 & H3 & H4 & H5).
        eexists ([_; _] ++ evs). split; [chain_frame Hfr|].
        unfold createPass. simpl. rewrite H1, H2, H3, H4, Hn.
        split_and!; try done. intros Hr. destruct (H5 Hr) as (-> & -> & -> & ->). done.
    + apply storage_GetBackupStorage_Err in Hget as ->.
      unfold ret in H. simplify_eq.
      eexists [_]. split; [solve_frame|]. by repeat split.
Qed.

Lemma createBackupStoragesOnUpdate_spec env kube oldNames newNames w r w' :
  createBackupStoragesOnUpdate env kube oldNames newNames w = (r, w') →
  ∃ evs, frame w w' evs
    ∧ proxyCalls evs = []
    ∧ requestedMonitoring evs = []
    ∧ ensuredMonitoring evs = []
    ∧ deletedMonitoring evs = []
    ∧ (r = None →
       requestedBackupStorages evs ≡ₚ elements (newNames ∖ oldNames)
       ∧ ensuredBackupStorages evs = requestedBackupStorages evs
       ∧ deleteConfigCalls evs = []
       ∧ loggedErrors evs = []).
Proof.
  unfold createBackupStoragesOnUpdate, bind, range. intros H.
  apply createBackupStorages_loop_spec in H as (evs & Hfr & H1 & H2 & H3 & H4 & H5).
  exists evs. split_and!; try done.
  intros Hr. destruct (H5 Hr) as (-> & -> & ? & ?).
  split_and!; try done.
  rewrite <- uniqueKeys_difference. apply rangeKeys_perm.
Qed.

Lemma andb_bool_decide (P Q : Prop) `{Decision P, Decision Q} :
  bool_decide P && bool_decide Q = bool_decide (P ∧ Q).
Proof. repeat case_bool_decide; naive_solver. Qed.

Lemma createMonitoringInstanceOnUpdate_spec env kube oldDB newName w r w' :
  createMonitoringInstanceOnUpdate env kube oldDB newName w = (r, w') →
  ∃ evs, frame w w' evs
    ∧ proxyCalls evs = []
    ∧ requestedBackupStorages evs = []
    ∧ ensuredBackupStorages evs = []
    ∧ deleteConfigCalls evs = []
    ∧ loggedErrors evs = []
    ∧ requestedMonitoring evs = monitoringToCreate oldDB newName
    ∧ ensuredMonitoring evs = fetchedMonitoring evs
    ∧ (r = None → ensuredMonitoring evs = monitoringToCreate oldDB newName).
Proof.
  unfold createMonitoringInstanceOnUpdate, monitoringToCreate.
  rewrite andb_bool_decide. case_bool_decide as Hc.
  - unfold bind, ret, kube_EnsureConfigExists, kube_call. intros H.
    destruct (storage_GetMonitoringInstance env newName w) as [[i|e] w1] eqn:Hget.
    + apply storage_GetMonitoringInstance_Ok in Hget as (Hn & ->).
      simpl in H. destruct (fault env _ _) as [err|] eqn:Hf; simplify_eq/=.
      all: eexists [_; _]; (split; [solve_frame|]); by repeat split.
    + apply storage_GetMonitoringInstance_Err in Hget as ->.
      simplify_eq/=. eexists [_]; (split; [solve_frame|]); by repeat split.
  - unfold ret. intros H. simplify_eq. exists []. split; [apply frame_refl|].
    by repeat split.
Qed.

Lemma createResources_spec env oldDB kube newMonitoringName newBackupNames w r w' :
  createResources env oldDB kube newMonitoringName newBackupNames w = (r, w') →
  ∃ evs, frame w w' evs
    ∧ proxyCalls evs = []
    ∧ (r = None → createPhase oldDB newMonitoringName newBackupNames evs).
Proof.
  unfold createResources, bind at 1. intros H.
  destruct (createBackupStoragesOnUpdate _ _ _ _ _) as [r1 w1] eqn:Hbs.
  apply createBackupStoragesOnUpdate_spec in Hbs
    as (e1 & Hfr1 & Hp1 & Hrm1 & Hem1 & Hdm1 & Hok1).
  destruct r1 as [err|].
  - unfold bind, log_Error, ret in H. simplify_eq/=.
    eexists (e1 ++ [_]). split; [eapply frame_trans; [exact Hfr1|solve_frame]|].
    unfold proxyCalls in *. rewrite omap_app, Hp1. done.
  - unfold bind at 1 in H.
    destruct (createMonitoringInstanceOnUpdate _ _ _ _ _) as [r2 w2] eqn:Hmon.
    apply createMonitoringInstanceOnUpdate_spec in Hmon
      as (e2 & Hfr2 & Hp2 & Hrb2 & Heb2 & Hd2 & Hl2 & Hrm2 & Hem2 & Hok2).
    destruct (Hok1 eq_refl) as (Hrb1 & Heb1 & Hd1 & Hl1).
    destruct r2 as [err|]; unfold bind, log_Error, ret in H; simplify_eq/=.
    + eexists (e1 ++ e2 ++ [_]).
      split; [eapply frame_trans; [exact Hfr1|eapply frame_trans; [exact Hfr2|solve_frame]]|].
      unfold proxyCalls in *. rewrite !omap_app, Hp1, Hp2. done.
    + exists (e1 ++ e2).
      split; [eapply frame_trans; [exact Hfr1|exact Hfr2]|].
      split; [unfold proxyCalls in *; by rewrite !omap_app, Hp1, Hp2|].
      intros _. unfold createPhase.
      unfold requestedBackupStorages, ensuredBackupStorages, requestedMonitoring,
        ensuredMonitoring, deleteConfigCalls in *.
      rewrite !omap_app, Hrb2, Heb2, Heb1, Hrm1, Hem1, Hrm2, (Hok2 eq_refl), Hd1, Hd2,
        !app_nil_r.
      done.
Qed.



Lemma materialized_projections kube records :
  requestedBackupStorages (materialized kube records) = map bsName records
  ∧ fetchedBackupStorages (materialized kube records) = map bsName records
  ∧ ensuredBackupStorages (materialized kube records) = map bsName records
  ∧ deleteConfigCalls (materialized kube records) = []
  ∧ proxyCalls (materialized kube records) = []
  ∧ loggedErrors (materialized kube records) = []
  ∧ requestedMonitoring (materialized kube records) = []
  ∧ ensuredMonitoring (materialized kube records) = [].
Proof.
  induction records as [|bs records (H1 & H2 & H3 & H4 & H5 & H6 & H7 & H8)];
    [done|].
  simpl. rewrite H1, H2, H3, H4, H5, H6, H7, H8. done.
Qed.

(** A run of the create loop that returns [nil] is the materialization of
    the records stored under its keys, in the order of the keys. *)
Lemma createBackupStorages_loop_ok env kube keys processed w w' :
  createBackupStorages_loop env kube keys processed w = (None, w') →
  ∃ records,
    map bsName records = keys
    ∧ Forall (storedIn (stores w)) records
    ∧ frame w w' (materialized kube records).
Proof.
  revert w processed. induction keys as [|name keys IH]; intros w processed H; simpl in H.
  - inversion H; subst. exists []. split_and!; [done|constructor|apply frame_refl].
  - unfold bind at 1 in H.
    destruct (storage_GetBackupStorage env name w) as [[bs|e] w1] eqn:Hget;
      [|by unfold ret in H].
    apply storage_GetBackupStorage_Ok in Hget as (Hn & -> & _ & Hfind).
    unfold bind at 1, kube_EnsureConfigExists, kube_call in H. simpl in H.
    destruct (fault env _ _) as [err|] eqn:Hf; simpl in H.
    { unfold bind, ret in H. by destruct (rollbackCreatedBackupStorages _ _ _ _). }
    apply IH in H as (records & Hnames & Hstored & Hfr).
    exists (bs :: records). split_and!.
    + simpl. by rewrite Hn, Hnames.
    + constructor; [unfold storedIn, lookupBackupStorage; by rewrite Hn|].
      exact Hstored.
    + simpl. rewrite Hn.
      change (?a :: ?b :: ?l) with ([a; b] ++ l). chain_frame Hfr.
Qed.

(** A run of the create loop that returns an error materialized the keys
    before the failing one, and then either could not fetch the record of
    that key, and returned at once, or could not materialize it, and ran
    the rollback over the names processed before. *)
Lemma createBackupStorages_loop_failed env kube keys processed w e w' :
  createBackupStorages_loop env kube keys processed w = (Some e, w') →
  ∃ done name rest,
    keys = map bsName done ++ name :: rest
    ∧ Forall (storedIn (stores w)) done
    ∧ stores w' = stores w
    ∧ ((∃ cause,
          e = ErrJoin cause (ErrNew "could not get backup storage")
          ∧ trace w'
            = trace w ++ materialized kube done
                ++ [Called (CGetBackupStorage name) (Some cause)])
       ∨ (∃ bs cause rollback,
            e = ErrJoin cause (ErrNew ("could not create CRs for " +:+ name))
            ∧ bsName bs = name
            ∧ storedIn (stores w) bs
            ∧ trace w'
              = trace w ++ materialized kube done
                  ++ [Called (CGetBackupStorage name) None;
                      Called (CEnsureConfigExists kube (CfgBackupStorage bs)) (Some cause)]
                  ++ rollback
            ∧ requestedBackupStorages rollback = processed ++ map bsName done
            ∧ cleanupPass kube "could not delete backup storage config" rollback)).
Proof.
  revert w processed. induction keys as [|name keys IH]; intros w processed H; simpl in H.
  - by unfold ret in H.
  - unfold bind at 1 in H.
    destruct (storage_GetBackupStorage env name w) as [[bs|cause] w1] eqn:Hget.
    + apply storage_GetBackupStorage_Ok in Hget as (Hn & -> & _ & Hfind).
      unfold bind at 1, kube_EnsureConfigExists, kube_call in H. simpl in H.
      destruct (fault env _ _) as [err|] eqn:Hf; simpl in H.
      * unfold bind, ret in H.
        destruct (rollbackCreatedBackupStorages _ _ _ _) as [u w2] eqn:Hrb.
        apply rollbackCreatedBackupStorages_spec in Hrb
          as (evs & (Ht & Hs & _) & Hreq & Hpass).
        simplify_eq. exists [], (bsName bs), keys. split_and!; try done.
        right. exists bs, err, evs. simpl in *.
        split_and!; try done.
        -- rewrite Ht. by rewrite <- !app_assoc.
        -- by rewrite app_nil_r.
      * apply IH in H as (done & failing & rest & Hkeys & Hstored & Hs & Hcase).
        simpl in Hs. exists (bs :: done), failing, rest. split_and!.
        -- simpl. by rewrite Hn, Hkeys.
        -- constructor; [unfold storedIn, lookupBackupStorage; by rewrite Hn|].
           exact Hstored.
        -- exact Hs.
        -- destruct Hcase as [(cause & -> & Ht)|(bs' & cause & rb & -> & Hn' & Hst & Ht & Hreq & Hpass)].
           ++ left. exists cause. split; [done|].
              rewrite Ht. simpl. rewrite Hn, <- !app_assoc. done.
           ++ right. exists bs', cause, rb. split_and!; try done.
              ** rewrite Ht. simpl. rewrite Hn, <- !app_assoc. done.
              ** rewrite Hreq. simpl. rewrite Hn, <- app_assoc. done.
    + apply storage_GetBackupStorage_Err in Hget as ->.
      unfold ret in H. simplify_eq.
      exists [], name, keys. split_and!; try done.
      left. by exists cause.
Qed.

(** Every record the create loop asks for is one of its keys or, in the
    rollback, one of the names processed before; and when the loop fails,
    one of its calls has failed. *)
Lemma createBackupStorages_loop_touches env kube keys processed w r w' :
  createBackupStorages_loop env kube keys processed w = (r, w') →
  ∃ evs, frame w w' evs
    ∧ proxyCalls evs = []
    ∧ requestedMonitoring evs = []
    ∧ deletedMonitoring evs = []
    ∧ (∀ n, n ∈ requestedBackupStorages evs → n ∈ keys ∨ n ∈ processed)
    ∧ (∀ e, r = Some e → ∃ c err, Called c (Some err) ∈ evs).
Proof.
  intros H. pose proof H as H'.
  apply createBackupStorages_loop_spec in H as (evs & Hfr & Hp & Hrm & Hem & Hdm & Hok).
  exists evs. split_and!; try done.
  - destruct r as [e|].
    + apply createBackupStorages_loop_failed in H'
        as (done & nm & rest & -> & _ & _ & Hcase).
      destruct Hfr as (Ht & _).
      destruct Hcase as [(cause & -> & Ht')
                        |(bs & cause & rb & -> & Hn & _ & Ht' & Hreq & Hpass)];
        rewrite Ht in Ht'; apply app_inv_head in Ht'; subst evs.
      * intros n. unfold requestedBackupStorages. rewrite omap_app.
        fold (requestedBackupStorages (materialized kube done)).
        destruct (materialized_projections kube done) as (-> & _).
        simpl. rewrite !elem_of_app, !elem_of_cons, ?elem_of_nil. tauto.
      * intros n. unfold requestedBackupStorages. rewrite !omap_app.
        fold (requestedBackupStorages (materialized kube done)).
        fold (requestedBackupStorages rb).
        destruct (materialized_projections kube done) as (-> & _).
        rewrite Hreq. simpl.
        rewrite !elem_of_app, !elem_of_cons, !elem_of_app, ?elem_of_nil. tauto.
    + apply createBackupStorages_loop_ok in H' as (records & <- & _ & (Ht' & _)).
      destruct Hfr as (Ht & _).
      rewrite Ht in Ht'; apply app_inv_head in Ht'; subst evs.
      destruct (materialized_projections kube records) as (-> & _). auto.
  - intros e ->.
    apply createBackupStorages_loop_failed in H'
      as (done & nm & rest & _ & _ & _ & Hcase).
    destruct Hfr as (Ht & _).
    destruct Hcase as [(cause & -> & Ht')
                      |(bs & cause & rb & -> & Hn & _ & Ht' & Hreq & Hpass)];
      rewrite Ht in Ht'; apply app_inv_head in Ht'; subst evs.
    + eexists _, cause. rewrite elem_of_app. right. apply list_elem_of_here.
    + eexists _, cause. rewrite !elem_of_app. right. left.
      apply list_elem_of_further, list_elem_of_here.
Qed.

(** A run of [createMonitoringInstanceOnUpdate]: when it returns [nil] it
    has materialized the stored instance of the new name, if that name is
    not empty and differs from the old one, and has done nothing
    otherwise; when it fails, one of its calls has failed. *)
Lemma createMonitoringInstanceOnUpdate_run env kube oldDB newName w r w' :
  createMonitoringInstanceOnUpdate env kube oldDB newName w = (r, w') →
  ∃ evs, frame w w' evs
    ∧ match r with
      | Some _ => ∃ c err, Called c (Some err) ∈ evs
      | None =>
          ∃ instance,
            evs = materializedMonitoring kube instance
            ∧ (newName ≠ "" ∧ newName ≠ oldMonitoringName oldDB →
               ∃ i, instance = Some i
                    ∧ lookupMonitoringInstance newName (stores w) = Some i)
            ∧ (¬ (newName ≠ "" ∧ newName ≠ oldMonitoringName oldDB) →
               instance = None)
      end.
Proof.
  unfold createMonitoringInstanceOnUpdate, lookupMonitoringInstance.
  rewrite andb_bool_decide. case_bool_decide as Hc.
  - unfold storage_GetMonitoringInstance, kube_EnsureConfigExists, kube_call, bind, ret.
    intros H. simpl in H.
    repeat (case_match; simpl in *; simplify_eq).
    all: eexists; (split; [solve_frame|]).
    all: try solve [ eexists _, _; solve_in ].
    match goal with
    | Hi : find _ _ = Some ?i |- _ =>
        exists (Some i); simpl; rewrite (find_miName _ _ _ Hi); split_and!; [done| |done]
    end.
    intros _. by eexists.
  - unfold ret. intros H. simplify_eq. exists []. split; [apply frame_refl|].
    exists None. split_and!; done.
Qed.

(** A run of [createResources]. *)
Lemma createResources_run env oldDB kube newMonitoringName newBackupNames w r w' :
  createResources env oldDB kube newMonitoringName newBackupNames w = (r, w') →
  ∃ evs, frame w w' evs
    ∧ proxyCalls evs = []
    ∧ deletedMonitoring evs = []
    ∧ (∀ n, n ∈ requestedBackupStorages evs →
            n ∈ newBackupNames ∖ withBackupStorageNamesFromDBCluster ∅ oldDB)
    ∧ (∀ n, n ∈ requestedMonitoring evs →
            n = newMonitoringName ∧ n ≠ "" ∧ n ≠ oldMonitoringName oldDB)
    ∧ match r with
      | Some _ => ∃ c err, Called c (Some err) ∈ evs
      | None =>
          ∃ records instance,
            evs = materialized kube records ++ materializedMonitoring kube instance
            ∧ map bsName records
              ≡ₚ elements (newBackupNames ∖ withBackupStorageNamesFromDBCluster ∅ oldDB)
            ∧ Forall (storedIn (stores w)) records
            ∧ (newMonitoringName ≠ "" ∧ newMonitoringName ≠ oldMonitoringName oldDB →
               ∃ i, instance = Some i
                    ∧ lookupMonitoringInstance newMonitoringName (stores w) = Some i)
            ∧ (¬ (newMonitoringName ≠ "" ∧ newMonitoringName ≠ oldMonitoringName oldDB) →
               instance = None)
      end.
Proof.
  unfold createResources, bind at 1. intros H.
  destruct (createBackupStoragesOnUpdate _ _ _ _ _) as [r1 w1] eqn:Hbs.
  assert (Hkeys : ∀ n, n ∈ rangeKeys env w
                         (uniqueKeys (withBackupStorageNamesFromDBCluster ∅ oldDB)
                            newBackupNames)
                       → n ∈ newBackupNames ∖ withBackupStorageNamesFromDBCluster ∅ oldDB).
  { intros n. rewrite elem_of_rangeKeys, uniqueKeys_difference. done. }
  pose proof Hbs as Hbs'.
  unfold createBackupStoragesOnUpdate, bind, range in Hbs, Hbs'.
  apply createBackupStorages_loop_touches in Hbs
    as (e1 & Hfr1 & Hp1 & Hrm1 & Hdm1 & Hin1 & Hfail1).
  assert (Hreq1 : ∀ n, n ∈ requestedBackupStorages e1 →
                       n ∈ newBackupNames ∖ withBackupStorageNamesFromDBCluster ∅ oldDB).
  { intros n Hn. destruct (Hin1 n Hn) as [?|Hnil]; [auto|by apply elem_of_nil in Hnil]. }
  destruct r1 as [err|].
  - unfold bind, log_Error, ret in H. simplify_eq/=.
    destruct (Hfail1 _ eq_refl) as (c & err' & Hc).
    eexists (e1 ++ [_]). split; [eapply frame_trans; [exact Hfr1|solve_frame]|].
    unfold proxyCalls, deletedMonitoring, requestedBackupStorages, requestedMonitoring in *.
    rewrite !omap_app, Hp1, Hdm1, Hrm1. simpl. rewrite !app_nil_r.
    split_and!; try done.
    + by intros n ?%elem_of_nil.
    + exists c, err'. rewrite elem_of_app. by left.
  - apply createBackupStorages_loop_ok in Hbs'
      as (records & Hnames & Hstored & (Ht1' & _)).
    assert (e1 = materialized kube records) as ->.
    { destruct Hfr1 as (Ht1 & _). rewrite Ht1 in Ht1'. by apply app_inv_head in Ht1'. }
    unfold bind at 1 in H.
    destruct (createMonitoringInstanceOnUpdate _ _ _ _ _) as [r2 w2] eqn:Hmon.
    pose proof Hmon as Hmon'.
    apply createMonitoringInstanceOnUpdate_spec in Hmon
      as (e2 & Hfr2 & Hp2 & Hrb2 & Heb2 & Hd2 & Hl2 & Hrm2 & Hem2 & Hok2).
    apply createMonitoringInstanceOnUpdate_run in Hmon' as (e2' & (Ht2' & _) & Hrun2).
    assert (e2' = e2) as ->.
    { destruct Hfr2 as (Ht2 & _). rewrite Ht2 in Ht2'. by apply app_inv_head in Ht2'. }
    assert (Hmonitoring : ∀ n, n ∈ requestedMonitoring e2 →
              n = newMonitoringName ∧ n ≠ "" ∧ n ≠ oldMonitoringName oldDB).
    { intros n. rewrite Hrm2. unfold monitoringToCreate.
      case_bool_decide as Hc; [|by intros ?%elem_of_nil].
      intros ->%list_elem_of_singleton. naive_solver. }
    assert (Hstores : stores w1 = stores w) by apply Hfr1.
    assert (Hdm2 : deletedMonitoring e2 = []).
    { clear -Hd2. induction e2 as [|ev e2 IH]; [done|].
      destruct ev as [[] ?| | | |]; simpl in *; try done; auto. }
    destruct r2 as [err|]; unfold bind, log_Error, ret in H; simplify_eq/=.
    + destruct Hrun2 as (c & err' & Hc).
      eexists (materialized kube records ++ e2 ++ [_]).
      split; [eapply frame_trans; [exact Hfr1|eapply frame_trans; [exact Hfr2|solve_frame]]|].
      unfold proxyCalls, deletedMonitoring, requestedBackupStorages,
        requestedMonitoring in *.
      rewrite !omap_app, Hp1, Hp2, Hdm1, Hdm2, Hrm1, Hrb2. simpl. rewrite !app_nil_r.
      split_and!; try done.
      exists c, err'. rewrite !elem_of_app. auto.
    + destruct Hrun2 as (instance & -> & Hyes & Hno).
      eexists (materialized kube records ++ materializedMonitoring kube instance).
      split; [eapply frame_trans; [exact Hfr1|exact Hfr2]|].
      unfold proxyCalls, deletedMonitoring, requestedBackupStorages,
        requestedMonitoring in *.
      rewrite !omap_app, Hp1, Hp2, Hdm1, Hdm2, Hrm1, Hrb2. simpl. rewrite !app_nil_r.
      split_and!; try done.
      exists records, instance. split_and!; try done.
      * rewrite Hnames, <- uniqueKeys_difference. apply rangeKeys_perm.
      * by rewrite <- Hstores.
Qed.

(** Every run of [UpdateDatabaseCluster], by its reply. *)
Lemma UpdateDatabaseCluster_run env ctx kubernetesID name w reply w' :
  UpdateDatabaseCluster env ctx kubernetesID name w = (reply, w') →
  ∃ evs,
    trace w' = trace w ++ evs
    ∧ deletedMonitoring evs = []
    ∧ match reply with
      | Proxy perr status =>
          ∃ dbc k oldDB records instance,
            let kube := {| kubeID := kubernetesID; kubeNamespace := kNamespace k |} in
            let N := backupStorageNamesFrom dbc in
            let O := withBackupStorageNamesFromDBCluster ∅ oldDB in
            let newName := monitoringNameFrom dbc in
            bodyDatabaseCluster ctx = Ok dbc
            ∧ lookupKubernetesCluster kubernetesID (stores w) = Some k
            ∧ evs = [Called (CGetKubernetesCluster kubernetesID) None;
                     Called (CNewFromSecretsStorage kubernetesID (kNamespace k)) None;
                     GotDatabaseCluster kube name oldDB]
                    ++ materialized kube records
                    ++ materializedMonitoring kube instance
                    ++ [Proxied kubernetesID name perr status]
            ∧ map bsName records ≡ₚ elements (N ∖ O)
            ∧ Forall (storedIn (stores w)) records
            ∧ (newName ≠ "" ∧ newName ≠ oldMonitoringName oldDB →
               ∃ i, instance = Some i
                    ∧ lookupMonitoringInstance newName (stores w) = Some i)
            ∧ (¬ (newName ≠ "" ∧ newName ≠ oldMonitoringName oldDB) →
               instance = None)
            ∧ goroutines w'
              = goroutines w
                ++ (if bool_decide (perr = None ∧ status < StatusMultipleChoices)
                    then [go_deleteBackupStoragesOnUpdate kube oldDB N;
                          go_deleteMonitoringInstanceOnUpdate kube oldDB newName]
                    else [])
      | _ =>
          proxyCalls evs = []
          ∧ goroutines w' = goroutines w
          ∧ updateRefused env ctx kubernetesID name w evs
          ∧ (∀ n, n ∈ requestedBackupStorages evs →
               ∃ dbc kube oldDB,
                 bodyDatabaseCluster ctx = Ok dbc
                 ∧ GotDatabaseCluster kube name oldDB ∈ evs
                 ∧ n ∈ backupStorageNamesFrom dbc
                       ∖ withBackupStorageNamesFromDBCluster ∅ oldDB)
          ∧ (∀ n, n ∈ requestedMonitoring evs →
               ∃ dbc kube oldDB,
                 bodyDatabaseCluster ctx = Ok dbc
                 ∧ GotDatabaseCluster kube name oldDB ∈ evs
                 ∧ n = monitoringNameFrom dbc
                 ∧ n ≠ "" ∧ n ≠ oldMonitoringName oldDB)
      end.
Proof.
  unfold UpdateDatabaseCluster, initKubeClient, kubernetes_NewFromSecretsStorage,
    kube_GetDatabaseCluster, proxyKubernetes, storage_GetKubernetesCluster,
    kube_call, log_Error, waitGroup_Add, go, bind, ret, lookupKubernetesCluster,
    updateRefused.
  intros H. simpl in H.
  repeat (case_match; simpl in *; simplify_eq).
  all: try match goal with
       | Hc : createResources _ _ _ _ _ _ = _ |- _ =>
           apply createResources_run in Hc
             as (ec & (Ht & Hs & Hh & Hg & Hwg & Hpn) & Hp & Hdm & Hrb & Hrm & Hres);
           simpl in *
       end.
  all: rewrite ?Ht, ?Hg.
  all: split_trace.
  all: unfold deletedMonitoring, proxyCalls, requestedBackupStorages,
         requestedMonitoring in *; rewrite ?omap_app, ?Hdm, ?Hp; simpl.
  all: (split; [reflexivity|]).
  (* the runs that stop before the create phase *)
  all: try solve [ split_and!; try done; try (by intros n ?%elem_of_nil);
                   first [ solve [ left; by eexists ]
                         | solve [ right; left; by eexists _, _ ]
                         | solve [ right; right; left; eexists _, _; solve_in ]
                         | solve [ right; right; right; eexists _, _, _, _;
                                   split_and!; [reflexivity|solve_in|eassumption] ] ] ].
  (* the create phase failed *)
  all: try solve [ destruct Hres as (c & err & Hc);
                   split_and!; try done;
                   [ right; right; left; exists c, err;
                     rewrite !elem_of_cons; auto
                   | intros n Hn; eexists _, _, _;
                     split_and!; [reflexivity|solve_in|by apply Hrb]
                   | intros n Hn; destruct (Hrm n Hn) as (-> & ? & ?);
                     eexists _, _, _; split_and!; [reflexivity|solve_in|done..] ] ].
  (* the runs that reach the proxy *)
  all: destruct Hres as (records & instance & -> & Hnames & Hstored & Hyes & Hno).
  all: match goal with
       | Hk : find _ (kubernetesClusters _) = Some ?k |- _ =>
           pose proof (find_kID _ _ _ Hk) as Hid; subst kubernetesID;
           eexists _, k, _, records, instance
       end.
  all: cbv zeta; split_and!; try done.
  all: try (simpl; rewrite <- ?app_assoc; reflexivity).
  all: reflect_tests.
  all: try (exfalso; lia).
  all: first [ rewrite bool_decide_eq_true_2 by (split; [reflexivity|lia])
             | rewrite bool_decide_eq_false_2 by (intros [? ?]; first [done|lia])
             | idtac ].
  all: simpl; rewrite <- ?app_assoc, ?app_nil_r; reflexivity.
Qed.



(** What the goroutine of [deleteMonitoringInstanceOnUpdate] does,
    whenever it runs. *)
Lemma deleteMonitoringInstanceOnUpdate_run env kube oldDB newName w :
  ∃ evs,
    trace (deleteMonitoringInstanceOnUpdate env kube oldDB newName w).2 = trace w ++ evs
    ∧ (¬ (oldMonitoringName oldDB ≠ "" ∧ newName ≠ oldMonitoringName oldDB) →
       evs = [])
    ∧ (oldMonitoringName oldDB ≠ "" ∧ newName ≠ oldMonitoringName oldDB →
       (∃ e, evs = [Called (CGetMonitoringInstance (oldMonitoringName oldDB)) (Some e);
                    LogError (ErrJoin e (ErrNew "could not get monitoring instance"))])
       ∨ (∃ i r,
            lookupMonitoringInstance (oldMonitoringName oldDB) (stores w) = Some i
            ∧ evs = [Called (CGetMonitoringInstance (oldMonitoringName oldDB)) None;
                     Called (CDeleteConfig kube (CfgMonitoring i)
                               IsMonitoringConfigInUse) r]
                    ++ deleteConfigLog
                         "could not delete monitoring config from Kubernetes" r)).
Proof.
  destruct (deleteMonitoringInstanceOnUpdate env kube oldDB newName w)
    as [u w'] eqn:Hrun.
  revert Hrun.
  unfold deleteMonitoringInstanceOnUpdate.
  rewrite andb_bool_decide. case_bool_decide as Hc.
  - unfold storage_GetMonitoringInstance, kube_DeleteConfig, kube_call, log_Error,
      waitGroup_Done, bind, ret, lookupMonitoringInstance, deleteConfigLog.
    intros H. simpl in H.
    repeat (case_match; simpl in *; simplify_eq).
    all: eexists; (split; [rewrite <- ?app_assoc; reflexivity|]).
    all: split; [done|intros _].
    all: first [ left; eexists; reflexivity | right ].
    all: match goal with
         | Hf : fault _ _ (CDeleteConfig _ _ _) = ?r |- _ =>
             eexists _, r; split; [reflexivity|]
         end.
    all: simpl; repeat case_match; simpl in *; done.
  - unfold waitGroup_Done, bind, ret. intros H. simpl in H.
    destruct (waitGroup w); simplify_eq/=.
    all: exists []; rewrite app_nil_r; split_and!; done.
Qed.




(** C8 fails on the code. In the same update the monitoring name changes
    from [M] to [N]; [N] is materialized and the update succeeds. While
    the cleanup runs, the metadata store fails to return the instance
    [M]: the goroutine logs the failure and [M] is never submitted to
    [DeleteConfig]. *)
Lemma C8_an_unfetched_instance_is_not_submitted :
  (UpdateDatabaseCluster updateLosingEnv updateToBC "k1" "db" allRegistered).1
  = Proxy None 200
  ∧ oldMonitoringName (stored (Some "A") ["B"] "M") = "M"
  ∧ monitoringNameFrom (incoming (Some "B") ["C"] "N") = "N"
  ∧ ensuredMonitoring (trace afterUpdateCleanup) = ["N"]
  ∧ requestedMonitoring (trace afterUpdateCleanup) = ["N"; "M"]
  ∧ deletedMonitoring (trace afterUpdateCleanup) = []
  ∧ LogError (ErrJoin (ErrNew "connection refused")
                (ErrNew "could not get monitoring instance"))
    ∈ trace afterUpdateCleanup.
Proof.
  split; [vm_compute; reflexivity|].
  split; [vm_compute; reflexivity|].
  split; [vm_compute; reflexivity|].
  split; [vm_compute; reflexivity|].
  split; [vm_compute; reflexivity|].
  split; [vm_compute; reflexivity|].
  vm_compute. solve_in.
Qed.

(** C8, amended. A run of [UpdateDatabaseCluster] that hands back the
    response of the proxy has, before the proxied request, fetched and
    materialized the stored monitoring instance of the new name if that
    name is not empty and differs from the old one, and has touched no
    monitoring config otherwise. The cleanup of the old name is started
    only when the proxy returned no error and a status below 300. Whenever
    it runs, it does nothing unless the old name is not empty and differs
    from the new one; then it asks the store for the old instance and
    calls [DeleteConfig] with it if the store returns it, and logs the
    failure and submits nothing if not. Every other run stopped because
    the request was refused or a call failed; it proxied nothing, started
    nothing, deleted no monitoring config, and asked for no other instance
    than the one to materialize. *)
Theorem C8_update_monitoring env ctx kubernetesID name w reply w' :
  UpdateDatabaseCluster env ctx kubernetesID name w = (reply, w') →
  ∃ evs,
    trace w' = trace w ++ evs
    ∧ deletedMonitoring evs = []
    ∧ match reply with
      | Proxy perr status =>
          ∃ dbc k oldDB storages instance,
            let kube := {| kubeID := kubernetesID; kubeNamespace := kNamespace k |} in
            let newName := monitoringNameFrom dbc in
            let oldName := oldMonitoringName oldDB in
            bodyDatabaseCluster ctx = Ok dbc
            ∧ lookupKubernetesCluster kubernetesID (stores w) = Some k
            (* before the proxy *)
            ∧ evs = [Called (CGetKubernetesCluster kubernetesID) None;
                     Called (CNewFromSecretsStorage kubernetesID (kNamespace k)) None;
                     GotDatabaseCluster kube name oldDB]
                    ++ storages
                    ++ materializedMonitoring kube instance
                    ++ [Proxied kubernetesID name perr status]
            ∧ requestedMonitoring storages = []
            ∧ ensuredMonitoring storages = []
            ∧ (newName ≠ "" ∧ newName ≠ oldName →
               ∃ i, instance = Some i
                    ∧ lookupMonitoringInstance newName (stores w) = Some i)
            ∧ (¬ (newName ≠ "" ∧ newName ≠ oldName) → instance = None)
            (* the cleanup is started after a successful proxy only *)
            ∧ goroutines w'
              = goroutines w
                ++ (if bool_decide (perr = None ∧ status < StatusMultipleChoices)
                    then [go_deleteBackupStoragesOnUpdate kube oldDB
                            (backupStorageNamesFrom dbc);
                          go_deleteMonitoringInstanceOnUpdate kube oldDB newName]
                    else [])
            (* the cleanup, whenever it runs *)
            ∧ ∀ w1, ∃ evs1,
                trace (run_task env
                         (go_deleteMonitoringInstanceOnUpdate kube oldDB newName) w1).2
                = trace w1 ++ evs1
                ∧ (¬ (oldName ≠ "" ∧ newName ≠ oldName) → evs1 = [])
                ∧ (oldName ≠ "" ∧ newName ≠ oldName →
                   (∃ e, evs1 = [Called (CGetMonitoringInstance oldName) (Some e);
                                 LogError (ErrJoin e
                                   (ErrNew "could not get monitoring instance"))])
                   ∨ (∃ i r,
                        lookupMonitoringInstance oldName (stores w1) = Some i
                        ∧ evs1 = [Called (CGetMonitoringInstance oldName) None;
                                  Called (CDeleteConfig kube (CfgMonitoring i)
                                            IsMonitoringConfigInUse) r]
                                 ++ deleteConfigLog
                                      "could not delete monitoring config from Kubernetes"
                                      r))
      | _ =>
          proxyCalls evs = []
          ∧ goroutines w' = goroutines w
          ∧ updateRefused env ctx kubernetesID name w evs
          ∧ ∀ n, n ∈ requestedMonitoring evs →
              ∃ dbc kube oldDB,
                bodyDatabaseCluster ctx = Ok dbc
                ∧ GotDatabaseCluster kube name oldDB ∈ evs
                ∧ n = monitoringNameFrom dbc
                ∧ n ≠ "" ∧ n ≠ oldMonitoringName oldDB
      end.
Proof.
  intros H. apply UpdateDatabaseCluster_run in H as (evs & Ht & Hdm & Hreply).
  exists evs. split; [exact Ht|]. split; [exact Hdm|].
  destruct reply as [code body|perr status|e];
    [by destruct Hreply as (? & ? & ? & _ & ?)| |by destruct Hreply as (? & ? & ? & _ & ?)].
  destruct Hreply as (dbc & k & oldDB & records & instance
                      & Hbody & Hk & Hevs & _ & _ & Hyes & Hno & Hgo).
  cbv zeta in *.
  exists dbc, k, oldDB,
    (materialized {| kubeID := kubernetesID; kubeNamespace := kNamespace k |} records),
    instance.
  cbv zeta.
  destruct (materialized_projections
              {| kubeID := kubernetesID; kubeNamespace := kNamespace k |} records)
    as (_ & _ & _ & _ & _ & _ & Hrm & Hem).
  split_and!; try done.
  intros w1. simpl.
  destruct (deleteMonitoringInstanceOnUpdate_run env
              {| kubeID := kubernetesID; kubeNamespace := kNamespace k |}
              oldDB (monitoringNameFrom dbc) w1) as (evs1 & Ht1 & Hnone & Hsome).
  by exists evs1.
Qed.

Lemma C8_update_monitoring_witness :
  UpdateDatabaseCluster updateEnv updateToBC "k1" "db" allRegistered
  = (Proxy None 200,
     (UpdateDatabaseCluster updateEnv updateToBC "k1" "db" allRegistered).2)
  ∧ ∃ evs,
      trace (UpdateDatabaseCluster updateEnv updateToBC "k1" "db" allRegistered).2
      = trace allRegistered ++ evs
      ∧ deletedMonitoring evs = [].
Proof.
  assert (Hrun : UpdateDatabaseCluster updateEnv updateToBC "k1" "db" allRegistered
                 = (Proxy None 200,
                    (UpdateDatabaseCluster updateEnv updateToBC "k1" "db"
                       allRegistered).2)) by (vm_compute; reflexivity).
  split; [exact Hrun|].
  destruct (C8_update_monitoring _ _ _ _ _ _ _ Hrun) as (evs & Ht & Hdm & _).
  exists evs. split; [exact Ht|exact Hdm].
Defined.

(** ** Updating a backup storage *)

(** Executes [UpdateBackupStorage] along every path: [H] becomes, path by
    path, the facts about the environment that select it. *)
Ltac run_UpdateBackupStorage H :=
  unfold UpdateBackupStorage, checkStorageAccessByUpdate, createSecrets,
    performBackupStorageUpdate, storage_Transaction, updateBackupStorage,
    deleteOldSecretsAfterUpdate, cleanUpNewSecretsOnUpdateError, initKubeClient,
    kubernetes_NewFromSecretsStorage, storage_GetKubernetesCluster,
    storage_ListKubernetesClusters, storage_UpdateBackupStorage,
    storage_GetBackupStorage, secrets_GetSecret, secrets_CreateSecret,
    secrets_DeleteSecret, kube_UpdateConfig, kube_call, uuid_New, log_Error,
    log_Errorf, bind, ret in H;
  simpl in H;
  repeat (case_match; simpl in *; simplify_eq).

(** Names the generated ids and records that they are fresh. *)
Ltac name_ids env :=
  repeat match goal with
         | |- context [uuid_NewString env ?w0] =>
             let Hfresh := fresh "Hfresh" in
             let id := fresh "id" in
             pose proof (uuid_fresh env w0) as Hfresh; simpl in Hfresh;
             set (id := uuid_NewString env w0) in *; clearbody id
         | H : context [uuid_NewString env ?w0] |- _ =>
             let Hfresh := fresh "Hfresh" in
             let id := fresh "id" in
             pose proof (uuid_fresh env w0) as Hfresh; simpl in Hfresh;
             set (id := uuid_NewString env w0) in *; clearbody id
         end.

(** An id absent from the vault differs from every id present in it. *)
Ltac fresh_facts :=
  repeat match goal with
         | H : <[_:=_]> _ !! _ = None |- _ => apply lookup_insert_None in H as [H ?]
         end;
  repeat match goal with
         | Hn : ?m !! ?i = None, Hs : ?m !! ?j = Some _ |- _ =>
             lazymatch goal with
             | _ : i ≠ j |- _ => fail
             | _ => assert (i ≠ j) by (intros ->; congruence)
             end
         end.

Ltac solve_gone :=
  repeat first [ rewrite lookup_insert_ne by congruence
               | rewrite lookup_delete_ne by congruence
               | rewrite lookup_delete_eq ];
  apply is_Some_None.

Ltac solve_lookup :=
  repeat first [ rewrite lookup_insert_eq
               | rewrite lookup_insert_ne by congruence
               | rewrite lookup_delete_ne by congruence
               | rewrite lookup_delete_eq ];
  eauto.

Lemma find_updated name (f : BackupStorage → BackupStorage) rows :
  (∀ bs, bsName (f bs) = bsName bs) →
  find (fun bs => bool_decide (bsName bs = name))
       (map (fun bs => if bool_decide (bsName bs = name) then f bs else bs) rows)
  = f <$> find (fun bs => bool_decide (bsName bs = name)) rows.
Proof.
  intros Hf. induction rows as [|bs rows IH]; [done|]. simpl.
  destruct (bool_decide (bsName bs = name)) eqn:Hb.
  - rewrite Hf, Hb. done.
  - rewrite Hb. done.
Qed.

(** C7 fails on the code: with two clusters registered and the config of
    [s3] materialized on the second one, a successful credential update
    calls [UpdateConfig] once, on the first cluster; the config on the
    second cluster is not updated. *)
Lemma C7_only_the_first_cluster_is_updated :
  (UpdateBackupStorage reliableEnv rotateS3 "s3" deployedOnK2).1
  = JSON StatusOK (BodyBackupStorage
                     (toAPIBackupStorage (storageRecord "s3" "0" "1")))
  ∧ kubernetesClusters (stores deployedOnK2) = [k1; k2]
  ∧ Called (CEnsureConfigExists kube2
              (CfgBackupStorage (storageRecord "s3" "old-access" "old-secret"))) None
    ∈ trace deployedOnK2
  ∧ updateConfigCalls
      (trace (UpdateBackupStorage reliableEnv rotateS3 "s3" deployedOnK2).2)
    = [(kube1, CfgBackupStorage (storageRecord "s3" "0" "1"))].
Proof.
  split; [vm_compute; reflexivity|].
  split; [vm_compute; reflexivity|].
  split; [vm_compute; solve_in|].
  vm_compute; reflexivity.
Qed.

(** C7, amended. In every run of [UpdateBackupStorage] the steps follow
    the order create, switch, commit, update config, delete, and no config
    is updated unless the transaction has committed. Once it has
    committed, the record stored under the name is the old record updated
    with the fields of the request and the ids of the secrets created in
    this run, and it stays so whatever follows. The handler then reads the
    record again, lists the registered clusters and builds a client for
    the first of them; if one of these steps fails, or no cluster is
    registered, it answers 500, no config is updated and no secret is
    deleted. Otherwise [UpdateConfig] is called exactly once, with the
    committed record, on the client of the first registered cluster and
    on no other: when the call fails the answer is 500 and no secret is
    deleted, when it succeeds the answer is 200 with that record. A secret
    is deleted only after [UpdateConfig] has succeeded. *)
Theorem C7_update_config_on_the_first_cluster env ctx name w reply w' :
  UpdateBackupStorage env ctx name w = (reply, w') →
  ∃ evs,
    trace w' = trace w ++ evs
    ∧ Sorted le (omap updateStep evs)
    ∧ (Called CCommit None ∉ evs → updateConfigCalls evs = [])
    ∧ (∀ id r,
         Called (CDeleteSecret id) r ∈ evs →
         ∃ kube cfg, Called (CUpdateConfig kube cfg) None ∈ evs)
    ∧ (Called CCommit None ∈ evs →
       ∃ params old p,
         bodyUpdateBackupStorage ctx = Ok params
         ∧ lookupBackupStorage name (stores w) = Some old
         (* the record that was committed *)
         ∧ Called (CUpdateBackupStorage p) None ∈ evs
         ∧ muName p = name
         ∧ muDescription p = upDescription params
         ∧ muBucketName p = upBucketName params
         ∧ muURL p = upUrl params
         ∧ muRegion p = upRegion params
         ∧ match muAccessKeyID p with
           | Some id =>
               ∃ value, upAccessKey params = Some value
                        ∧ Called (CCreateSecret id value) None ∈ evs
           | None => upAccessKey params = None
           end
         ∧ match muSecretKeyID p with
           | Some id =>
               ∃ value, upSecretKey params = Some value
                        ∧ Called (CCreateSecret id value) None ∈ evs
           | None => upSecretKey params = None
           end
         ∧ lookupBackupStorage name (stores w') = Some (updatedBackupStorage p old)
         (* what follows the commit *)
         ∧ ((updateConfigCalls evs = []
             ∧ (∀ id r, Called (CDeleteSecret id) r ∉ evs)
             ∧ (∃ message,
                  reply = JSON StatusInternalServerError (BodyError message))
             ∧ ((∃ c e, Called c (Some e) ∈ evs)
                ∨ kubernetesClusters (stores w) = []))
            ∨ ∃ k0 rest r,
                kubernetesClusters (stores w) = k0 :: rest
                ∧ updateConfigCalls evs
                  = [({| kubeID := kID k0; kubeNamespace := kNamespace k0 |},
                      CfgBackupStorage (updatedBackupStorage p old))]
                ∧ Called (CUpdateConfig
                            {| kubeID := kID k0; kubeNamespace := kNamespace k0 |}
                            (CfgBackupStorage (updatedBackupStorage p old))) r
                  ∈ evs
                ∧ match r with
                  | None =>
                      reply = JSON StatusOK
                                (BodyBackupStorage
                                   (toAPIBackupStorage (updatedBackupStorage p old)))
                  | Some _ =>
                      reply = JSON StatusInternalServerError
                                (BodyError
                                   "Could not update config on the kubernetes cluster")
                      ∧ ∀ id r', Called (CDeleteSecret id) r' ∉ evs
                  end)).
Proof.
  unfold lookupBackupStorage.
  intros H. run_UpdateBackupStorage H.
  all: name_ids env.
  all: split_trace.
  all: split; [simpl; repeat constructor|].
  all: split;
    [ intros Hnc;
      first [ reflexivity | exfalso; apply Hnc; solve [solve_in] ]
    | ].
  all: split;
    [ intros id' r' Hin; in_list Hin; eexists _, _; solve [solve_in]
    | ].
  all: intros Hin; in_list Hin.
  (* the record read back after the commit, and the first cluster *)
  all: try match goal with
       | Hold : find _ (storages (stores _)) = Some _,
         Hnew : find _ (map _ _) = _ |- _ =>
           rewrite find_updated in Hnew by done;
           rewrite Hold in Hnew; simpl in Hnew; simplify_eq
       end.
  all: try match goal with
       | Hl : kubernetesClusters (stores _) = _ :: _,
         Hf : find _ (kubernetesClusters _) = Some _ |- _ =>
           rewrite Hl in Hf; simpl in Hf;
           rewrite bool_decide_eq_true_2 in Hf by done; simplify_eq
       end.
  all: eexists _, _, _.
  all: split; [reflexivity|].
  all: split; [reflexivity|].
  all: split; [solve [solve_in]|].
  all: do 5 (split; [reflexivity|]).
  all: split; [simpl; first [ assumption | eexists; split; [eassumption|solve [solve_in]] ]|].
  all: split; [simpl; first [ assumption | eexists; split; [eassumption|solve [solve_in]] ]|].
  all: split;
    [ first [ reflexivity
            | simpl; rewrite find_updated by done;
              match goal with
              | Hold : find _ (storages (stores _)) = Some _ |- _ => rewrite Hold
              end; reflexivity ]
    | ].
  (* what follows the commit *)
  all: first
         [ solve [ left; split_and!;
                   [ reflexivity
                   | intros id' r' Hin'; in_list Hin'
                   | by eexists
                   | first [ solve [ left; eexists _, _; solve [solve_in] ]
                           | solve [ right; assumption ] ] ] ]
         | right ].
  all: eexists _, _, _.
  all: split; [eassumption|].
  all: split; [reflexivity|].
  all: split; [solve [solve_in]|].
  all: simpl;
    first [ reflexivity
          | split; [reflexivity|intros id' r' Hin'; in_list Hin'] ].
Qed.

Lemma C7_update_config_on_the_first_cluster_witness :
  UpdateBackupStorage reliableEnv rotateS3 "s3" deployedOnK2
  = (JSON StatusOK (BodyBackupStorage
                      (toAPIBackupStorage (storageRecord "s3" "0" "1"))),
     (UpdateBackupStorage reliableEnv rotateS3 "s3" deployedOnK2).2)
  ∧ ∃ evs,
      trace (UpdateBackupStorage reliableEnv rotateS3 "s3" deployedOnK2).2
      = trace deployedOnK2 ++ evs
      ∧ Sorted le (omap updateStep evs)
      ∧ ∀ id r,
          Called (CDeleteSecret id) r ∈ evs →
          ∃ kube cfg, Called (CUpdateConfig kube cfg) None ∈ evs.
Proof.
  assert (Hrun : UpdateBackupStorage reliableEnv rotateS3 "s3" deployedOnK2
                 = (JSON StatusOK (BodyBackupStorage
                                     (toAPIBackupStorage (storageRecord "s3" "0" "1"))),
                    (UpdateBackupStorage reliableEnv rotateS3 "s3" deployedOnK2).2))
    by (vm_compute; reflexivity).
  split; [exact Hrun|].
  destruct (C7_update_config_on_the_first_cluster _ _ _ _ _ _ Hrun)
    as (evs & Ht & Hsorted & _ & Hdel & _).
  exists evs. split; [exact Ht|]. split; [exact Hsorted|exact Hdel].
Defined.

(** C3 fails on the code: when the vault refuses to delete, the update
    still answers 200, the record references the new ids, and both old
    secret ids remain resolvable; the failures are only logged. *)
Lemma C3_old_secrets_survive_a_failed_delete :
  (UpdateBackupStorage deleteFailsEnv rotateS3 "s3" twoClusters).1
  = JSON StatusOK (BodyBackupStorage
                     (toAPIBackupStorage (storageRecord "s3" "0" "1")))
  ∧ lookupBackupStorage "s3" (stores twoClusters)
    = Some (storageRecord "s3" "old-access" "old-secret")
  ∧ lookupBackupStorage "s3"
      (stores (UpdateBackupStorage deleteFailsEnv rotateS3 "s3" twoClusters).2)
    = Some (storageRecord "s3" "0" "1")
  ∧ resolvable (stores (UpdateBackupStorage deleteFailsEnv rotateS3 "s3" twoClusters).2)
      "old-access"
  ∧ resolvable (stores (UpdateBackupStorage deleteFailsEnv rotateS3 "s3" twoClusters).2)
      "old-secret".
Proof.
  split; [vm_compute; reflexivity|].
  split; [vm_compute; reflexivity|].
  split; [vm_compute; reflexivity|].
  split; vm_compute; eauto.
Qed.

(** C3, amended. For a record whose two secret ids resolve and differ, in
    every run of [UpdateBackupStorage]: after each write to the stores the
    record references resolvable secret ids; the steps follow the order
    create, switch, commit, update config, delete; an old secret is deleted
    only after a successful commit and a successful [UpdateConfig]; the ids
    the record is switched to were absent from the vault before and were
    created by a successful [CreateSecret] of this run. When the run
    answers 200, the record references resolvable ids, each replaced id
    differs from the old one, and each replaced old id is no longer
    resolvable unless its deletion failed, in which case the failure is
    logged. *)
Theorem C3_record_never_references_a_missing_secret env ctx name w reply w' :
  recordResolvable name (stores w) →
  (∀ bs, lookupBackupStorage name (stores w) = Some bs →
         bsAccessKeyID bs ≠ bsSecretKeyID bs) →
  UpdateBackupStorage env ctx name w = (reply, w') →
  ∃ evs hs,
    trace w' = trace w ++ evs
    ∧ history w' = history w ++ hs
    ∧ last (stores w :: hs) = Some (stores w')
    ∧ Forall (recordResolvable name) hs
    ∧ Sorted le (omap updateStep evs)
    ∧ (∀ id r,
         Called (CDeleteSecret id) r ∈ evs →
         Called CCommit None ∈ evs
         ∧ ∃ kube cfg, Called (CUpdateConfig kube cfg) None ∈ evs)
    ∧ (∀ p r id,
         Called (CUpdateBackupStorage p) r ∈ evs →
         muAccessKeyID p = Some id ∨ muSecretKeyID p = Some id →
         secrets (stores w) !! id = None
         ∧ ∃ value, Called (CCreateSecret id value) None ∈ evs)
    ∧ (∀ body,
         reply = JSON StatusOK body →
         ∃ params old new,
           bodyUpdateBackupStorage ctx = Ok params
           ∧ lookupBackupStorage name (stores w) = Some old
           ∧ lookupBackupStorage name (stores w') = Some new
           ∧ resolvable (stores w') (bsAccessKeyID new)
           ∧ resolvable (stores w') (bsSecretKeyID new)
           ∧ (upAccessKey params ≠ None →
              bsAccessKeyID new ≠ bsAccessKeyID old
              ∧ (¬ resolvable (stores w') (bsAccessKeyID old)
                 ∨ LogErrorf (unusedSecretMessage (bsAccessKeyID old)) ∈ evs))
           ∧ (upSecretKey params ≠ None →
              bsSecretKeyID new ≠ bsSecretKeyID old
              ∧ (¬ resolvable (stores w') (bsSecretKeyID old)
                 ∨ LogErrorf (unusedSecretMessage (bsSecretKeyID old)) ∈ evs))).
Proof.
  unfold recordResolvable, lookupBackupStorage, resolvable.
  intros Hinv Hdist H. run_UpdateBackupStorage H.
  all: name_ids env.
  all: first
         [ exists [], []; split; [by rewrite app_nil_r|]; split; [by rewrite app_nil_r|]
         | eexists _, []; split; [rewrite <- ?app_assoc; reflexivity|];
           split; [by rewrite app_nil_r|]
         | eexists _, _; split; [rewrite <- ?app_assoc; reflexivity|];
           split; [rewrite <- ?app_assoc; reflexivity|] ].
  all: split; [reflexivity|].
  all: try specialize (Hdist _ eq_refl); try specialize (Hinv _ eq_refl).
  all: fresh_facts.
  all: split;
    [ simpl; repeat (apply Forall_cons; split); try (by apply Forall_nil);
      match goal with
      | Hold : find _ (storages (stores _)) = Some _ |- _ =>
          intros bs Hbs; simpl in Hbs |- *;
          rewrite ?find_updated in Hbs by done;
          rewrite Hold in Hbs; simpl in Hbs; simplify_eq; simpl
      end;
      split; solve_lookup
    | ].
  all: split; [simpl; repeat constructor|].
  all: split; [intros id' r Hin; in_list Hin; (split; [solve_in|eexists _, _; solve_in])|].
  all: split;
    [ intros p r id' Hin Hid; in_list Hin; simpl in Hid;
      destruct Hid; simplify_eq; (split; [assumption|eexists; solve_in])
    | ].
  all: intros body Hb; unfold StatusOK, StatusInternalServerError, StatusBadRequest,
         StatusNotFound in Hb; simplify_eq.
  all: match goal with
       | Hold : find _ (storages (stores _)) = Some _,
         Hnew : find _ (map _ _) = Some _ |- _ =>
           rewrite find_updated in Hnew by done;
           rewrite Hold in Hnew; simpl in Hnew; simplify_eq
       end.
  all: eexists _, _, _; split; [reflexivity|]; split; [reflexivity|];
       split; [reflexivity|].
  all: simpl; split; [solve_lookup|]; split; [solve_lookup|].
  all: split; intros Hup; try congruence;
       (split; [congruence|first [left; solve_gone | right; solve_in]]).
Qed.

Lemma C3_record_never_references_a_missing_secret_witness :
  recordResolvable "s3" (stores twoClusters)
  ∧ (∀ bs, lookupBackupStorage "s3" (stores twoClusters) = Some bs →
           bsAccessKeyID bs ≠ bsSecretKeyID bs)
  ∧ UpdateBackupStorage deleteFailsEnv rotateS3 "s3" twoClusters
    = ((UpdateBackupStorage deleteFailsEnv rotateS3 "s3" twoClusters).1,
       (UpdateBackupStorage deleteFailsEnv rotateS3 "s3" twoClusters).2)
  ∧ ∃ hs,
      history (UpdateBackupStorage deleteFailsEnv rotateS3 "s3" twoClusters).2
      = history twoClusters ++ hs
      ∧ Forall (recordResolvable "s3") hs.
Proof.
  assert (Hinv : recordResolvable "s3" (stores twoClusters)).
  { intros bs Hbs. vm_compute in Hbs. injection Hbs as <-.
    split; vm_compute; eauto. }
  assert (Hdist : ∀ bs, lookupBackupStorage "s3" (stores twoClusters) = Some bs →
                        bsAccessKeyID bs ≠ bsSecretKeyID bs).
  { intros bs Hbs. vm_compute in Hbs. injection Hbs as <-. discriminate. }
  assert (Hrun : UpdateBackupStorage deleteFailsEnv rotateS3 "s3" twoClusters
                 = ((UpdateBackupStorage deleteFailsEnv rotateS3 "s3" twoClusters).1,
                    (UpdateBackupStorage deleteFailsEnv rotateS3 "s3" twoClusters).2))
    by (vm_compute; reflexivity).
  split; [exact Hinv|]. split; [exact Hdist|]. split; [exact Hrun|].
  destruct (C3_record_never_references_a_missing_secret _ _ _ _ _ _ Hinv Hdist Hrun)
    as (evs & hs & _ & Hh & _ & Hall & _).
  exists hs. split; [exact Hh|exact Hall].
Defined.

(** * Further properties *)

(** ** The resolvers, together *)

(** X1. [withBackupStorageNamesFromDBCluster] only adds to the set it is
    given: the result is that set together with the names resolved from the
    stored cluster alone, and the empty string is in the result only if it
    was in the set given. *)
Theorem withBackupStorageNamesFromDBCluster_accumulates existing dbc :
  withBackupStorageNamesFromDBCluster existing dbc
  = existing ∪ withBackupStorageNamesFromDBCluster ∅ dbc
  ∧ existing ⊆ withBackupStorageNamesFromDBCluster existing dbc
  ∧ ("" ∈ withBackupStorageNamesFromDBCluster existing dbc ↔ "" ∈ existing).
Proof.
  split_and!.
  - apply set_eq. intros x.
    rewrite elem_of_union, !elem_of_withBackupStorageNamesFromDBCluster.
    set_solver.
  - intros x Hx. rewrite elem_of_withBackupStorageNamesFromDBCluster. auto.
  - rewrite elem_of_withBackupStorageNamesFromDBCluster. naive_solver.
Qed.


(** X3. When the incoming spec references the same data source and the
    same schedules as the stored cluster, an update has nothing to delete,
    and nothing to create except possibly the empty name, which only the
    resolver of the incoming spec keeps. *)
Theorem resubmitted_spec_has_nothing_to_reconcile dbc oldDB :
  storedDataSourceName oldDB = dataSourceName dbc →
  storedScheduleNames oldDB = scheduleNames dbc →
  uniqueKeys (backupStorageNamesFrom dbc) (withBackupStorageNamesFromDBCluster ∅ oldDB) = ∅
  ∧ uniqueKeys (withBackupStorageNamesFromDBCluster ∅ oldDB) (backupStorageNamesFrom dbc)
    ⊆ {[ "" ]}
  ∧ ("" ∉ backupStorageNamesFrom dbc →
     uniqueKeys (withBackupStorageNamesFromDBCluster ∅ oldDB) (backupStorageNamesFrom dbc)
     = ∅).
Proof.
  intros Hds Hsch.
  assert (Hold : ∀ x, x ∈ withBackupStorageNamesFromDBCluster ∅ oldDB
                      ↔ x ≠ "" ∧ x ∈ backupStorageNamesFrom dbc).
  { intros x. rewrite elem_of_withBackupStorageNamesFromDBCluster,
      elem_of_backupStorageNamesFrom, Hds, Hsch. set_solver. }
  split_and!.
  - apply set_eq. intros x. rewrite elem_of_uniqueKeys, Hold. set_solver.
  - intros x. rewrite elem_of_uniqueKeys, Hold, elem_of_singleton.
    intros [Hx Hn]. destruct (decide (x = "")); [done|]. naive_solver.
  - intros Hne. apply set_eq. intros x. rewrite elem_of_uniqueKeys, Hold.
    split; [|set_solver]. intros [Hx Hn].
    destruct (decide (x = "")); [subst; done|]. naive_solver.
Qed.

Lemma resubmitted_spec_has_nothing_to_reconcile_witness :
  storedDataSourceName (stored (Some "A") ["B"] "M")
  = dataSourceName (incoming (Some "A") ["B"] "M")
  ∧ storedScheduleNames (stored (Some "A") ["B"] "M")
    = scheduleNames (incoming (Some "A") ["B"] "M")
  ∧ uniqueKeys (backupStorageNamesFrom (incoming (Some "A") ["B"] "M"))
      (withBackupStorageNamesFromDBCluster ∅ (stored (Some "A") ["B"] "M")) = ∅.
Proof.
  split; [reflexivity|]. split; [reflexivity|].
  exact (proj1 (resubmitted_spec_has_nothing_to_reconcile
                  (incoming (Some "A") ["B"] "M") (stored (Some "A") ["B"] "M")
                  eq_refl eq_refl)).
Defined.

(** ** The Kubernetes client of a request *)

(** X4. [initKubeClient] changes nothing but the record of calls. It
    returns a client, with code 0, only for a registered cluster of the
    requested id, and the client carries the id and the namespace of that
    cluster; when the cluster cannot be read it returns code 400 and when
    the client cannot be built code 500, each time with a fixed message
    and the cause written to the log. *)
Theorem initKubeClient_returns_a_client_of_a_registered_cluster
    env kubernetesID w r code w' :
  initKubeClient env kubernetesID w = ((r, code), w') →
  stores w' = stores w
  ∧ history w' = history w
  ∧ goroutines w' = goroutines w
  ∧ waitGroup w' = waitGroup w
  ∧ match r with
    | Ok kubeClient =>
        code = 0
        ∧ kubeID kubeClient = kubernetesID
        ∧ ∃ k, k ∈ kubernetesClusters (stores w)
               ∧ kID k = kubernetesID
               ∧ kubeNamespace kubeClient = kNamespace k
               ∧ trace w'
                 = trace w
                   ++ [Called (CGetKubernetesCluster kubernetesID) None;
                       Called (CNewFromSecretsStorage kubernetesID (kNamespace k)) None]
    | Err e =>
        (code = StatusBadRequest
         ∧ e = ErrNew "could not find Kubernetes cluster"
         ∧ ∃ cause,
             trace w'
             = trace w ++ [Called (CGetKubernetesCluster kubernetesID) (Some cause);
                           LogError cause])
        ∨ (code = StatusInternalServerError
           ∧ e = ErrNew "could not create Kubernetes client from kubeconfig"
           ∧ ∃ k cause,
               k ∈ kubernetesClusters (stores w)
               ∧ kID k = kubernetesID
               ∧ trace w'
                 = trace w
                   ++ [Called (CGetKubernetesCluster kubernetesID) None;
                       Called (CNewFromSecretsStorage kubernetesID (kNamespace k))
                         (Some cause);
                       LogError cause])
    end.
Proof.
  unfold initKubeClient, kubernetes_NewFromSecretsStorage, storage_GetKubernetesCluster,
    kube_call, log_Error, bind, ret.
  intros H. simpl in H.
  repeat (case_match; simpl in *; simplify_eq).
  all: split_and!; try reflexivity.
  all: try match goal with
         | Hf : find _ _ = Some ?k |- _ =>
             pose proof (find_kID _ _ _ Hf) as Hid;
             apply find_some in Hf as [Hin%list_elem_of_In _]
         end.
  all: first
         [ left; split_and!; try reflexivity; eexists; rewrite <- ?app_assoc; reflexivity
         | right; split_and!; try reflexivity; eexists _, _; subst;
           split_and!; [eassumption|reflexivity|rewrite <- ?app_assoc; reflexivity]
         | idtac ].
  all: try (simpl; assumption).
  all: eexists; split_and!; [eassumption|assumption|reflexivity|].
  all: subst; rewrite <- ?app_assoc; reflexivity.
Qed.

Lemma initKubeClient_returns_a_client_of_a_registered_cluster_witness :
  initKubeClient reliableEnv "k1" registeredWorld
  = ((Ok kube1, 0), (initKubeClient reliableEnv "k1" registeredWorld).2)
  ∧ stores (initKubeClient reliableEnv "k1" registeredWorld).2 = stores registeredWorld.
Proof.
  assert (Hrun : initKubeClient reliableEnv "k1" registeredWorld
                 = ((Ok kube1, 0), (initKubeClient reliableEnv "k1" registeredWorld).2))
    by (vm_compute; reflexivity).
  split; [exact Hrun|].
  apply (initKubeClient_returns_a_client_of_a_registered_cluster _ _ _ _ _ _ Hrun).
Defined.

(** ** Creating a database cluster *)

(** X5. [createK8SBackupStorages], run on the keys in the order its
    [range] visits them, stops at the first key it cannot process. The
    records of the keys before were fetched and materialized. When the
    record of the failing key cannot be fetched the function returns at
    once and deletes nothing; when [EnsureConfigExists] fails for it the
    rollback asks the store again for each name materialized before, in
    the order they were processed, and calls [DeleteConfig] for exactly
    those it gets. The stores are not written. *)
Theorem createK8SBackupStorages_stops_at_the_first_failure env kube names w e w' :
  createK8SBackupStorages env kube names w = (Some e, w') →
  ∃ done name rest,
    rangeKeys env w names = map bsName done ++ name :: rest
    ∧ Forall (storedIn (stores w)) done
    ∧ stores w' = stores w
    ∧ ((∃ cause,
          e = ErrJoin cause (ErrNew "could not get backup storage")
          ∧ trace w'
            = trace w ++ materialized kube done
                ++ [Called (CGetBackupStorage name) (Some cause)])
       ∨ (∃ bs cause rollback,
            e = ErrJoin cause (ErrNew ("could not create CRs for " +:+ name))
            ∧ bsName bs = name
            ∧ storedIn (stores w) bs
            ∧ trace w'
              = trace w ++ materialized kube done
                  ++ [Called (CGetBackupStorage name) None;
                      Called (CEnsureConfigExists kube (CfgBackupStorage bs)) (Some cause)]
                  ++ rollback
            ∧ requestedBackupStorages rollback = map bsName done
            ∧ cleanupPass kube "could not delete backup storage config" rollback)).
Proof.
  unfold createK8SBackupStorages. case_bool_decide as Hsize; [by unfold ret|].
  unfold bind, range. intros Hrun.
  apply createBackupStorages_loop_failed in Hrun
    as (done & name & rest & ? & ? & ? & Hcase).
  exists done, name, rest. split_and!; try done.
Qed.

Lemma createK8SBackupStorages_stops_at_the_first_failure_witness :
  createK8SBackupStorages refusingEnv kube1 {[ "A"; "B" ]} registeredWorld
  = (Some (ErrJoin (ErrNew "forbidden") (ErrNew "could not create CRs for B")),
     (createK8SBackupStorages refusingEnv kube1 {[ "A"; "B" ]} registeredWorld).2)
  ∧ stores (createK8SBackupStorages refusingEnv kube1 {[ "A"; "B" ]} registeredWorld).2
    = stores registeredWorld.
Proof.
  assert (Hrun :
    createK8SBackupStorages refusingEnv kube1 {[ "A"; "B" ]} registeredWorld
    = (Some (ErrJoin (ErrNew "forbidden") (ErrNew "could not create CRs for B")),
       (createK8SBackupStorages refusingEnv kube1 {[ "A"; "B" ]} registeredWorld).2))
    by (vm_compute; reflexivity).
  split; [exact Hrun|].
  destruct (createK8SBackupStorages_stops_at_the_first_failure _ _ _ _ _ _ Hrun)
    as (done & name & rest & _ & _ & Hs & _).
  exact Hs.
Defined.

Lemma createK8SBackupStorages_ok env kube names w w' :
  createK8SBackupStorages env kube names w = (None, w') →
  ∃ records,
    map bsName records ≡ₚ elements names
    ∧ Forall (storedIn (stores w)) records
    ∧ frame w w' (materialized kube records).
Proof.
  unfold createK8SBackupStorages. case_bool_decide as Hsize.
  - unfold ret. intros Hrun. simplify_eq. exists [].
    apply size_empty_inv in Hsize. apply leibniz_equiv in Hsize. subst names.
    rewrite elements_empty. split_and!; [done|constructor|apply frame_refl].
  - unfold bind, range. intros Hrun.
    apply createBackupStorages_loop_ok in Hrun as (records & Hnames & ? & ?).
    exists records. split_and!; try done. rewrite Hnames. apply rangeKeys_perm.
Qed.

Lemma createK8SBackupStorages_frame env kube names w r w' :
  createK8SBackupStorages env kube names w = (r, w') →
  ∃ evs, frame w w' evs ∧ proxyCalls evs = [].
Proof.
  unfold createK8SBackupStorages. case_bool_decide as Hsize.
  - unfold ret. intros Hrun. simplify_eq. exists []. split; [apply frame_refl|done].
  - unfold bind, range. intros Hrun.
    apply createBackupStorages_loop_spec in Hrun as (evs & Hfr & Hp & _).
    by exists evs.
Qed.

(** X6. [CreateDatabaseCluster] never writes to the stores and starts no
    goroutine. A run that hands back the response of the proxy consists
    of: the lookup of the registered cluster and the construction of its
    client; the fetch and the materialization of the stored record of
    every backup-storage name the spec references, each once; the fetch
    and the materialization of the monitoring instance, when the spec names
    one; and then, last, the proxied request. Every other run answers 400
    or 500 with an error message and proxies nothing. *)
Theorem CreateDatabaseCluster_materializes_then_proxies env ctx kubernetesID w reply w' :
  CreateDatabaseCluster env ctx kubernetesID w = (reply, w') →
  stores w' = stores w
  ∧ history w' = history w
  ∧ goroutines w' = goroutines w
  ∧ waitGroup w' = waitGroup w
  ∧ ∃ evs,
      trace w' = trace w ++ evs
      ∧ match reply with
        | Proxy perr status =>
            ∃ dbc k records instance,
              let kube := {| kubeID := kubernetesID; kubeNamespace := kNamespace k |} in
              bodyDatabaseCluster ctx = Ok dbc
              ∧ lookupKubernetesCluster kubernetesID (stores w) = Some k
              ∧ map bsName records ≡ₚ elements (backupStorageNamesFrom dbc)
              ∧ Forall (storedIn (stores w)) records
              ∧ instance
                = (if bool_decide (monitoringNameFrom dbc ≠ "")
                   then lookupMonitoringInstance (monitoringNameFrom dbc) (stores w)
                   else None)
              ∧ (monitoringNameFrom dbc ≠ "" → is_Some instance)
              ∧ evs
                = [Called (CGetKubernetesCluster kubernetesID) None;
                   Called (CNewFromSecretsStorage kubernetesID (kNamespace k)) None]
                  ++ materialized kube records
                  ++ materializedMonitoring kube instance
                  ++ [Proxied kubernetesID "" perr status]
        | JSON code body =>
            proxyCalls evs = []
            ∧ (code = StatusBadRequest ∨ code = StatusInternalServerError)
            ∧ ∃ message, body = BodyError message
        | Failed _ => False
        end.
Proof.
  unfold CreateDatabaseCluster, initKubeClient, kubernetes_NewFromSecretsStorage,
    storage_GetKubernetesCluster, storage_GetMonitoringInstance, kube_EnsureConfigExists,
    proxyKubernetes, kube_call, log_Error, bind, ret.
  intros H. simpl in H.
  repeat (case_match; simpl in *; simplify_eq).
  all: try match goal with
       | Hc : createK8SBackupStorages _ _ _ _ = (None, _) |- _ =>
           apply createK8SBackupStorages_ok in Hc
             as (records & Hnames & Hstored & (Ht & Hs & Hh & Hg & Hwg & Hpn)); simpl in *
       | Hc : createK8SBackupStorages _ _ _ _ = (Some _, _) |- _ =>
           apply createK8SBackupStorages_frame in Hc
             as (ec & (Ht & Hs & Hh & Hg & Hwg & Hpn) & Hp); simpl in *
       end.
  all: split_and!; try (simpl; congruence).
  all: simpl in *; rewrite ?Ht.
  all: try match goal with
       | |- context [materialized ?k ?r] =>
           destruct (materialized_projections k r) as (_ & _ & _ & _ & Hpm & _)
       end.
  (* the runs that answer with an error *)
  all: try (split_trace; split_and!; [|auto|by eexists];
            unfold proxyCalls in *; simpl; rewrite ?omap_app, ?Hp, ?Hpm; done).
  (* the runs that reach the proxy *)
  all: split_trace.
  all: match goal with
       | Hk : find _ (kubernetesClusters _) = Some ?k |- _ =>
           pose proof (find_kID _ _ _ Hk) as Hid; subst kubernetesID;
           exists a, k, records
       end.
  all: try match goal with
       | Hi : find _ (monitoringInstances _) = Some ?i |- _ =>
           pose proof (find_miName _ _ _ Hi) as Hmi; rewrite Hs in Hi; exists (Some i)
       end.
  all: try exists None.
  all: cbv zeta; split_and!; try done.
  all: try (intros Hne;
            match goal with
            | Hb : bool_decide _ = false |- _ => by apply bool_decide_eq_false in Hb
            end).
  all: try (match goal with Hb : bool_decide _ = _ |- _ => rewrite Hb end;
            unfold lookupMonitoringInstance; congruence).
  all: simpl; rewrite ?Hmi; reflexivity.
Qed.

Lemma CreateDatabaseCluster_materializes_then_proxies_witness :
  CreateDatabaseCluster reliableEnv createAB "k1" registeredWorld
  = (Proxy None 200,
     (CreateDatabaseCluster reliableEnv createAB "k1" registeredWorld).2)
  ∧ stores (CreateDatabaseCluster reliableEnv createAB "k1" registeredWorld).2
    = stores registeredWorld.
Proof.
  assert (Hrun : CreateDatabaseCluster reliableEnv createAB "k1" registeredWorld
                 = (Proxy None 200,
                    (CreateDatabaseCluster reliableEnv createAB "k1" registeredWorld).2))
    by (vm_compute; reflexivity).
  split; [exact Hrun|].
  apply (CreateDatabaseCluster_materializes_then_proxies _ _ _ _ _ _ Hrun).
Defined.

(** ** The create phase of an update *)

Lemma createMonitoringInstanceOnUpdate_failed env kube oldDB newName w e w' :
  createMonitoringInstanceOnUpdate env kube oldDB newName w = (Some e, w') →
  monitoringToCreate oldDB newName = [newName].
Proof.
  unfold createMonitoringInstanceOnUpdate, monitoringToCreate.
  rewrite andb_bool_decide. case_bool_decide as Hc; [done|].
  unfold ret. intros H. simplify_eq.
Qed.

(** X7. When [createResources] fails it has written the cause to the log,
    as its last step, and returns one of two fixed messages. With the
    first message the backup-storage phase failed and the monitoring
    instance was not looked at. With the second the monitoring phase
    failed after the backup-storage phase had fetched and materialized
    every new name that is not an old name: these configs are left in
    place, no [DeleteConfig] is called. *)
Theorem createResources_stops_at_the_failing_phase
    env oldDB kube newMonitoringName newBackupNames w e w' :
  createResources env oldDB kube newMonitoringName newBackupNames w = (Some e, w') →
  stores w' = stores w
  ∧ ∃ pre cause,
      trace w' = trace w ++ pre ++ [LogError cause]
      ∧ ((e = ErrNew "could not create new BackupStorages in Kubernetes"
          ∧ requestedMonitoring pre = []
          ∧ ensuredMonitoring pre = [])
         ∨ (e = ErrNew "could not create new monitoring configs in Kubernetes"
            ∧ requestedBackupStorages pre
              ≡ₚ elements (newBackupNames ∖ withBackupStorageNamesFromDBCluster ∅ oldDB)
            ∧ ensuredBackupStorages pre = requestedBackupStorages pre
            ∧ requestedMonitoring pre = [newMonitoringName]
            ∧ deleteConfigCalls pre = [])).
Proof.
  unfold createResources, bind at 1. intros H.
  destruct (createBackupStoragesOnUpdate _ _ _ _ _) as [r1 w1] eqn:Hbs.
  apply createBackupStoragesOnUpdate_spec in Hbs
    as (e1 & (Ht1 & Hs1 & _) & Hp1 & Hrm1 & Hem1 & Hdm1 & Hok1).
  destruct r1 as [err|].
  - unfold bind, log_Error, ret in H. simplify_eq/=.
    split; [done|]. exists e1, err. split; [by rewrite Ht1, <- app_assoc|].
    left. by split_and!.
  - unfold bind at 1 in H.
    destruct (createMonitoringInstanceOnUpdate _ _ _ _ _) as [r2 w2] eqn:Hmon.
    pose proof Hmon as Hfailed.
    apply createMonitoringInstanceOnUpdate_spec in Hmon
      as (e2 & (Ht2 & Hs2 & _) & Hp2 & Hrb2 & Heb2 & Hd2 & Hl2 & Hrm2 & Hem2 & Hok2).
    destruct (Hok1 eq_refl) as (Hrb1 & Heb1 & Hd1 & Hl1).
    destruct r2 as [err|]; unfold bind, log_Error, ret in H; simplify_eq/=.
    split; [congruence|]. exists (e1 ++ e2), err.
    split; [by rewrite Ht2, Ht1, <- !app_assoc|].
    right.
    assert (Hnew : requestedMonitoring e2 = [newMonitoringName]).
    { rewrite Hrm2. by eapply createMonitoringInstanceOnUpdate_failed. }
    unfold requestedBackupStorages, ensuredBackupStorages, requestedMonitoring,
      deleteConfigCalls in *.
    rewrite !omap_app, Hrb2, Heb2, Heb1, Hrm1, Hd1, Hd2, Hnew, !app_nil_r.
    by split_and!.
Qed.

Lemma createResources_stops_at_the_failing_phase_witness :
  createResources refusingEnv (stored (Some "A") [] "M") kube1 "M" {[ "A"; "B" ]}
    registeredWorld
  = (Some (ErrNew "could not create new BackupStorages in Kubernetes"),
     (createResources refusingEnv (stored (Some "A") [] "M") kube1 "M" {[ "A"; "B" ]}
        registeredWorld).2)
  ∧ stores (createResources refusingEnv (stored (Some "A") [] "M") kube1 "M"
              {[ "A"; "B" ]} registeredWorld).2
    = stores registeredWorld.
Proof.
  assert (Hrun :
    createResources refusingEnv (stored (Some "A") [] "M") kube1 "M" {[ "A"; "B" ]}
      registeredWorld
    = (Some (ErrNew "could not create new BackupStorages in Kubernetes"),
       (createResources refusingEnv (stored (Some "A") [] "M") kube1 "M" {[ "A"; "B" ]}
          registeredWorld).2)) by (vm_compute; reflexivity).
  split; [exact Hrun|].
  apply (createResources_stops_at_the_failing_phase _ _ _ _ _ _ _ _ Hrun).
Defined.

(** ** The goroutines and the wait group *)

Lemma deleteK8SBackupStorages_loop_cleanup env kube keys w u w' :
  deleteK8SBackupStorages_loop env kube keys w = (u, w') →
  ∃ evs, frame w w' evs ∧ Forall cleanupEvent evs.
Proof.
  revert w. induction keys as [|name keys IH]; intros w H; simpl in H.
  - inversion H; subst. exists []. split; [apply frame_refl|constructor].
  - unfold bind at 1 in H.
    destruct (storage_GetBackupStorage env name w) as [[bs|e] w1] eqn:Hget.
    + apply storage_GetBackupStorage_Ok in Hget as (Hn & -> & _).
      unfold bind, kube_DeleteConfig, kube_call, log_Error in H. simpl in H.
      destruct (fault env _ _) as [err|] eqn:Hf; simpl in H;
        [destruct (errors_Is err ErrConfigInUse) eqn:His; simpl in H|];
        apply IH in H as (evs & Hfr & Hall).
      * eexists ([_; _] ++ evs). split; [chain_frame Hfr|].
        apply Forall_app; split; [by repeat constructor|done].
      * eexists ([_; _; _] ++ evs). split; [chain_frame Hfr|].
        apply Forall_app; split; [by repeat constructor|done].
      * eexists ([_; _] ++ evs). split; [chain_frame Hfr|].
        apply Forall_app; split; [by repeat constructor|done].
    + apply storage_GetBackupStorage_Err in Hget as ->.
      unfold bind, log_Error in H. simpl in H.
      apply IH in H as (evs & Hfr & Hall).
      eexists ([_; _] ++ evs). split; [chain_frame Hfr|].
      apply Forall_app; split; [by repeat constructor|done].
Qed.

Lemma deleteBackupStoragesOnUpdate_loop_cleanup env kube keys w u w' :
  deleteBackupStoragesOnUpdate_loop env kube keys w = (u, w') →
  ∃ evs, frame w w' evs ∧ Forall cleanupEvent evs.
Proof.
  revert w. induction keys as [|name keys IH]; intros w H; simpl in H.
  - inversion H; subst. exists []. split; [apply frame_refl|constructor].
  - unfold bind at 1, deleteK8SBackupStorage, bind at 1 in H.
    destruct (storage_GetBackupStorage env name w) as [[bs|e] w1] eqn:Hget.
    + apply storage_GetBackupStorage_Ok in Hget as (Hn & -> & _).
      unfold bind, kube_DeleteConfig, kube_call, log_Error, ret in H. simpl in H.
      destruct (fault env _ _) as [err|] eqn:Hf; simpl in H;
        [destruct (errors_Is err ErrConfigInUse) eqn:His; simpl in H;
         rewrite ?His in H; simpl in H|];
        apply IH in H as (evs & Hfr & Hall).
      * eexists ([_; _] ++ evs). split; [chain_frame Hfr|].
        apply Forall_app; split; [by repeat constructor|done].
      * eexists ([_; _; _] ++ evs). split; [chain_frame Hfr|].
        apply Forall_app; split; [by repeat constructor|done].
      * eexists ([_; _] ++ evs). split; [chain_frame Hfr|].
        apply Forall_app; split; [by repeat constructor|done].
    + apply storage_GetBackupStorage_Err in Hget as ->.
      unfold bind, log_Error, ret in H. simpl in H.
      destruct (negb _) eqn:His; simpl in H;
        apply IH in H as (evs & Hfr & Hall).
      * eexists ([_; _] ++ evs). split; [chain_frame Hfr|].
        apply Forall_app; split; [by repeat constructor|done].
      * eexists ([_] ++ evs). split; [chain_frame Hfr|].
        apply Forall_app; split; [by repeat constructor|done].
Qed.

(** What a goroutine leaves behind. *)
Lemma run_task_cleanup env t w u w' :
  run_task env t w = (u, w') →
  stores w' = stores w
  ∧ history w' = history w
  ∧ goroutines w' = goroutines w
  ∧ waitGroup w' = waitGroup w - 1
  ∧ (∃ evs, trace w' = trace w ++ evs ∧ Forall cleanupEvent evs)
  ∧ panicked w' = panicked w || bool_decide (waitGroup w = 0).
Proof.
  assert (Hdone : ∀ w0 w1 evs,
            frame w0 w1 evs → Forall cleanupEvent evs →
            waitGroup_Done w1 = (u, w') →
            stores w' = stores w0
            ∧ history w' = history w0
            ∧ goroutines w' = goroutines w0
            ∧ waitGroup w' = waitGroup w0 - 1
            ∧ (∃ evs, trace w' = trace w0 ++ evs ∧ Forall cleanupEvent evs)
            ∧ panicked w' = panicked w0 || bool_decide (waitGroup w0 = 0)).
  { intros w0 w1 evs (Ht & Hs & Hh & Hg & Hwg & Hpn) Hall H.
    apply waitGroup_Done_spec in H as (Ht' & Hs' & Hh' & Hg' & Hwg' & Hpn').
    rewrite Ht', Hs', Hh', Hg', Hwg', Hpn', Ht, Hs, Hh, Hg, Hwg, Hpn.
    split_and!; try done. by exists evs. }
  destruct t as [kube names|kube name|kube oldDB newNames|kube oldDB newName]; simpl.
  - unfold deleteK8SBackupStorages, bind, range. intros H.
    destruct (deleteK8SBackupStorages_loop _ _ _ _) as [u1 w1] eqn:Hloop.
    apply deleteK8SBackupStorages_loop_cleanup in Hloop as (evs & Hfr & Hall).
    by eapply Hdone.
  - unfold deleteK8SMonitoringConfig, bind at 1. intros H.
    match type of H with
    | (let (_, _) := ?body in _) = _ => destruct body as [u1 w1] eqn:Hbody
    end.
    assert (∃ evs, frame w w1 evs ∧ Forall cleanupEvent evs) as (evs & Hfr & Hall);
      [|by eapply Hdone].
    revert Hbody.
    unfold storage_GetMonitoringInstance, kube_DeleteConfig, kube_call, log_Error,
      bind, ret.
    intros Hbody. simpl in Hbody.
    repeat (case_match; simpl in *; simplify_eq).
    all: eexists; (split; [solve_frame|]); by repeat constructor.
  - unfold deleteBackupStoragesOnUpdate, bind, range. intros H.
    destruct (deleteBackupStoragesOnUpdate_loop _ _ _ _) as [u1 w1] eqn:Hloop.
    apply deleteBackupStoragesOnUpdate_loop_cleanup in Hloop as (evs & Hfr & Hall).
    by eapply Hdone.
  - unfold deleteMonitoringInstanceOnUpdate, bind at 1. intros H.
    match type of H with
    | (let (_, _) := ?body in _) = _ => destruct body as [u1 w1] eqn:Hbody
    end.
    assert (∃ evs, frame w w1 evs ∧ Forall cleanupEvent evs) as (evs & Hfr & Hall);
      [|by eapply Hdone].
    revert Hbody.
    unfold storage_GetMonitoringInstance, kube_DeleteConfig, kube_call, log_Error,
      bind, ret.
    intros Hbody. simpl in Hbody.
    repeat (case_match; simpl in *; simplify_eq).
    all: first [ exists []; split; [apply frame_refl|constructor]
               | eexists; (split; [solve_frame|]); by repeat constructor ].
Qed.

(** X8. Whatever path it takes, a goroutine started by a handler makes no
    other call than reading a record from the metadata store and
    [DeleteConfig], and writes to the log: it never writes to the metadata
    store or to the vault, never materializes or updates a config, never
    proxies and starts no goroutine. Run while the wait group counts at
    least one goroutine in flight, as it is after the [Add] that precedes
    every [go], it lowers the counter by exactly one and does not panic. *)
Theorem cleanup_goroutines_only_read_and_delete env t w u w' :
  0 < waitGroup w →
  run_task env t w = (u, w') →
  stores w' = stores w
  ∧ history w' = history w
  ∧ goroutines w' = goroutines w
  ∧ S (waitGroup w') = waitGroup w
  ∧ panicked w' = panicked w
  ∧ ∃ evs, trace w' = trace w ++ evs ∧ Forall cleanupEvent evs.
Proof.
  intros Hpos H.
  apply run_task_cleanup in H as (Hs & Hh & Hg & Hwg & Hevs & Hpn).
  split_and!; try done; [lia|].
  rewrite Hpn, bool_decide_eq_false_2 by lia. apply orb_false_r.
Qed.

Lemma cleanup_goroutines_only_read_and_delete_witness :
  0 < waitGroup (DeleteDatabaseCluster deleteEnv emptyRequest "k1" "db" registeredWorld).2
  ∧ S (waitGroup
         (run_task deleteEnv (go_deleteK8SBackupStorages kube1 {[ "A"; "B" ]})
            (DeleteDatabaseCluster deleteEnv emptyRequest "k1" "db" registeredWorld).2).2)
    = waitGroup (DeleteDatabaseCluster deleteEnv emptyRequest "k1" "db" registeredWorld).2
  ∧ panicked
      (run_task deleteEnv (go_deleteK8SBackupStorages kube1 {[ "A"; "B" ]})
         (DeleteDatabaseCluster deleteEnv emptyRequest "k1" "db" registeredWorld).2).2
    = false.
Proof.
  assert (Hpos :
    0 < waitGroup (DeleteDatabaseCluster deleteEnv emptyRequest "k1" "db"
                     registeredWorld).2) by (vm_compute; lia).
  split; [exact Hpos|].
  destruct (cleanup_goroutines_only_read_and_delete deleteEnv
              (go_deleteK8SBackupStorages kube1 {[ "A"; "B" ]})
              (DeleteDatabaseCluster deleteEnv emptyRequest "k1" "db" registeredWorld).2
              _ _ Hpos (surjective_pairing _))
    as (_ & _ & _ & Hwg & Hpn & _).
  split; [exact Hwg|]. rewrite Hpn. vm_compute. reflexivity.
Defined.

Lemma run_tasks_drain env ts w :
  stores (run_tasks env ts w).2 = stores w
  ∧ goroutines (run_tasks env ts w).2 = goroutines w
  ∧ waitGroup (run_tasks env ts w).2 = waitGroup w - length ts
  ∧ (length ts ≤ waitGroup w → panicked (run_tasks env ts w).2 = panicked w).
Proof.
  revert w. induction ts as [|t ts IH]; intros w; simpl.
  - split_and!; try done. lia.
  - unfold bind. destruct (run_task env t w) as [u w1] eqn:Hrun.
    apply run_task_cleanup in Hrun as (Hs & _ & Hg & Hwg & _ & Hpn).
    destruct (IH w1) as (-> & -> & -> & Hpn1). rewrite Hs, Hg, Hwg.
    split_and!; try done; [lia|].
    intros Hlen. rewrite Hpn1, Hpn by lia.
    rewrite bool_decide_eq_false_2 by lia. apply orb_false_r.
Qed.

Lemma DeleteDatabaseCluster_outcome env ctx kubernetesID name w reply w' :
  DeleteDatabaseCluster env ctx kubernetesID name w = (reply, w') →
  mutationOutcome kubernetesID name w w' reply.
Proof.
  unfold DeleteDatabaseCluster, initKubeClient, kubernetes_NewFromSecretsStorage,
    kube_GetDatabaseCluster, proxyKubernetes, storage_GetKubernetesCluster,
    kube_call, log_Error, waitGroup_Add, go, bind, ret, mutationOutcome.
  intros H. simpl in H.
  repeat (case_match; simpl in *; simplify_eq).
  all: split_and!; try done.
  all: try (first [ exists []; split; [by rewrite app_nil_r|simpl; lia]
                  | eexists; split; [rewrite <- ?app_assoc; reflexivity|simpl; lia] ]).
  all: split_trace.
  all: try (eexists [_; _; _]; split; reflexivity).
  all: split_and!; auto; by eexists.
Qed.

Lemma UpdateDatabaseCluster_outcome env ctx kubernetesID name w reply w' :
  UpdateDatabaseCluster env ctx kubernetesID name w = (reply, w') →
  mutationOutcome kubernetesID name w w' reply.
Proof.
  unfold UpdateDatabaseCluster, initKubeClient, kubernetes_NewFromSecretsStorage,
    kube_GetDatabaseCluster, proxyKubernetes, storage_GetKubernetesCluster,
    kube_call, log_Error, waitGroup_Add, go, bind, ret, mutationOutcome.
  intros H. simpl in H.
  repeat (case_match; simpl in *; simplify_eq).
  all: try match goal with
       | Hc : createResources _ _ _ _ _ _ = _ |- _ =>
           apply createResources_spec in Hc as (ec & (Ht & Hs & Hh & Hg & Hwg & Hpn) & Hp & Hok);
           simpl in *
       end.
  all: rewrite ?Ht, ?Hg, ?Hwg, ?Hpn.
  all: split_and!; try done.
  all: try (first [ exists []; split; [by rewrite app_nil_r|simpl; lia]
                  | eexists; split; [rewrite <- ?app_assoc; reflexivity|simpl; lia] ]).
  all: split_trace.
  all: try (eexists ([_; _; _] ++ ec); split; [reflexivity|simpl; exact Hp]).
  all: try (split_and!; auto; first [by eexists | simpl; exact Hp]).
  split_and!; [done|done|]. by eexists _, _, [_; _].
Qed.

(** X9. [DeleteDatabaseCluster] and [UpdateDatabaseCluster] never write to
    the stores, and count in the wait group every goroutine they start:
    the counter grows by the number of goroutines started. Once these
    goroutines have run, in whatever order, the counter is back at its
    value before the request, the stores are still as they were, and no
    [Done] has found the counter at zero. *)
Theorem started_goroutines_drain_the_wait_group env ctx kubernetesID name w reply w' :
  DeleteDatabaseCluster env ctx kubernetesID name w = (reply, w')
  ∨ UpdateDatabaseCluster env ctx kubernetesID name w = (reply, w') →
  stores w' = stores w
  ∧ history w' = history w
  ∧ ∃ started,
      goroutines w' = goroutines w ++ started
      ∧ waitGroup w' = waitGroup w + length started
      ∧ ∀ order,
          order ≡ₚ started →
          waitGroup (run_tasks env order w').2 = waitGroup w
          ∧ stores (run_tasks env order w').2 = stores w
          ∧ panicked (run_tasks env order w').2 = panicked w.
Proof.
  intros H.
  assert (Hout : mutationOutcome kubernetesID name w w' reply).
  { destruct H as [H|H];
      [by apply DeleteDatabaseCluster_outcome in H
      |by apply UpdateDatabaseCluster_outcome in H]. }
  destruct Hout as (Hs & Hh & Hpn & (started & Hg & Hwg) & _).
  split_and!; try done. exists started. split_and!; try done.
  intros order Hperm.
  destruct (run_tasks_drain env order w') as (-> & _ & -> & Hkeep).
  rewrite Hkeep, Hwg, Hs, (Permutation_length Hperm) by
    (rewrite Hwg, (Permutation_length Hperm); lia).
  split_and!; [lia|done|done].
Qed.

Lemma started_goroutines_drain_the_wait_group_witness :
  DeleteDatabaseCluster deleteEnv emptyRequest "k1" "db" registeredWorld
  = (Proxy None 200,
     (DeleteDatabaseCluster deleteEnv emptyRequest "k1" "db" registeredWorld).2)
  ∧ stores (DeleteDatabaseCluster deleteEnv emptyRequest "k1" "db" registeredWorld).2
    = stores registeredWorld.
Proof.
  assert (Hrun : DeleteDatabaseCluster deleteEnv emptyRequest "k1" "db" registeredWorld
                 = (Proxy None 200,
                    (DeleteDatabaseCluster deleteEnv emptyRequest "k1" "db"
                       registeredWorld).2)) by (vm_compute; reflexivity).
  split; [exact Hrun|].
  apply (started_goroutines_drain_the_wait_group deleteEnv emptyRequest "k1" "db"
           registeredWorld _ _ (or_introl Hrun)).
Defined.

(** X10. What the reply of [DeleteDatabaseCluster] or [UpdateDatabaseCluster]
    says about the run. When the reply is the response of the proxy, the
    request was proxied once, for the requested cluster and name, as the
    last step of the handler. An error reply, 400 or 500 with a message,
    means that nothing was proxied and no goroutine was started. A bare Go
    error is returned in one case only, when the stored cluster cannot be
    fetched for an update; nothing was proxied or started then either. *)
Theorem an_error_reply_means_nothing_was_proxied env ctx kubernetesID name w reply w' :
  DeleteDatabaseCluster env ctx kubernetesID name w = (reply, w')
  ∨ UpdateDatabaseCluster env ctx kubernetesID name w = (reply, w') →
  ∃ evs,
    trace w' = trace w ++ evs
    ∧ match reply with
      | Proxy perr status =>
          ∃ pre, evs = pre ++ [Proxied kubernetesID name perr status]
                 ∧ proxyCalls pre = []
      | JSON code body =>
          proxyCalls evs = []
          ∧ goroutines w' = goroutines w
          ∧ (code = StatusBadRequest ∨ code = StatusInternalServerError)
          ∧ ∃ message, body = BodyError message
      | Failed e =>
          proxyCalls evs = []
          ∧ goroutines w' = goroutines w
          ∧ ∃ kube cause pre,
              e = ErrJoin cause (ErrNew "could not get old Database Cluster")
              ∧ evs = pre ++ [Called (CGetDatabaseCluster kube name) (Some cause)]
      end.
Proof.
  intros H.
  assert (Hout : mutationOutcome kubernetesID name w w' reply).
  { destruct H as [H|H];
      [by apply DeleteDatabaseCluster_outcome in H
      |by apply UpdateDatabaseCluster_outcome in H]. }
  by destruct Hout as (_ & _ & _ & _ & Hevs).
Qed.

Lemma an_error_reply_means_nothing_was_proxied_witness :
  UpdateDatabaseCluster updateEnv updateToBC "k1" "db" allRegistered
  = (Proxy None 200,
     (UpdateDatabaseCluster updateEnv updateToBC "k1" "db" allRegistered).2)
  ∧ ∃ evs,
      trace (UpdateDatabaseCluster updateEnv updateToBC "k1" "db" allRegistered).2
      = trace allRegistered ++ evs
      ∧ ∃ pre, evs = pre ++ [Proxied "k1" "db" None 200] ∧ proxyCalls pre = [].
Proof.
  assert (Hrun : UpdateDatabaseCluster updateEnv updateToBC "k1" "db" allRegistered
                 = (Proxy None 200,
                    (UpdateDatabaseCluster updateEnv updateToBC "k1" "db"
                       allRegistered).2)) by (vm_compute; reflexivity).
  split; [exact Hrun|].
  exact (an_error_reply_means_nothing_was_proxied updateEnv updateToBC "k1" "db"
           allRegistered _ _ (or_intror Hrun)).
Defined.

(** ** Secrets of a backup storage *)

(** X11. A run of [createSecrets] that returns no error has stored each
    key it was given under an id the vault did not hold before, and
    returns these ids: an id for a key given, none for a key not given,
    two different ids when both keys are given. Whether it fails or not,
    it leaves the metadata untouched and every secret the vault held
    before in place, with its value. *)
Theorem createSecrets_stores_the_keys_under_fresh_ids
    env accessKey secretKey w newAccessKeyID newSecretKeyID err w' :
  createSecrets env accessKey secretKey w = ((newAccessKeyID, newSecretKeyID, err), w') →
  storages (stores w') = storages (stores w)
  ∧ monitoringInstances (stores w') = monitoringInstances (stores w)
  ∧ kubernetesClusters (stores w') = kubernetesClusters (stores w)
  ∧ (∀ id value,
       secrets (stores w) !! id = Some value → secrets (stores w') !! id = Some value)
  ∧ (err = None →
     (newAccessKeyID = None ↔ accessKey = None)
     ∧ (newSecretKeyID = None ↔ secretKey = None)
     ∧ (∀ id, newAccessKeyID = Some id →
              secrets (stores w) !! id = None ∧ secrets (stores w') !! id = accessKey)
     ∧ (∀ id, newSecretKeyID = Some id →
              secrets (stores w) !! id = None ∧ secrets (stores w') !! id = secretKey)
     ∧ (∀ id, newAccessKeyID = Some id → newSecretKeyID ≠ Some id)
     ∧ (∀ id, is_Some (secrets (stores w') !! id) →
              is_Some (secrets (stores w) !! id)
              ∨ newAccessKeyID = Some id ∨ newSecretKeyID = Some id)).
Proof.
  unfold createSecrets, secrets_CreateSecret, uuid_New, log_Error, bind, ret.
  intros H. simpl in H.
  repeat (case_match; simpl in *; simplify_eq).
  all: name_ids env.
  all: fresh_facts.
  all: split_and!; try done.
  all: try (intros id' value Hv; simpl; fresh_facts; solve_lookup).
  all: intros _; split_and!; try done.
  all: try (intros id' Hid; simplify_eq; simpl; split; [assumption|solve_lookup]).
  all: try (intros id' Hid; congruence).
  all: intros id'; simpl; rewrite ?lookup_insert_is_Some; naive_solver.
Qed.

Lemma createSecrets_stores_the_keys_under_fresh_ids_witness :
  createSecrets reliableEnv (Some "AK") (Some "SK") noStorages
  = ((Some "0", Some "1", None),
     (createSecrets reliableEnv (Some "AK") (Some "SK") noStorages).2)
  ∧ storages (stores (createSecrets reliableEnv (Some "AK") (Some "SK") noStorages).2)
    = storages (stores noStorages).
Proof.
  assert (Hrun : createSecrets reliableEnv (Some "AK") (Some "SK") noStorages
                 = ((Some "0", Some "1", None),
                    (createSecrets reliableEnv (Some "AK") (Some "SK") noStorages).2))
    by (vm_compute; reflexivity).
  split; [exact Hrun|].
  apply (createSecrets_stores_the_keys_under_fresh_ids _ _ _ _ _ _ _ _ Hrun).
Defined.

(** X12. [createSecrets] stops at the first key it cannot store, writes the
    cause to the log and returns an error that names the key. When the
    access key cannot be stored the vault is left as it was and the secret
    key is not attempted; when the secret key cannot be stored, an access
    key stored just before stays in the vault. The id returned for the key
    that could not be stored is not an id of the vault. *)
Theorem createSecrets_stops_at_the_first_failure
    env accessKey secretKey w newAccessKeyID newSecretKeyID e w' :
  createSecrets env accessKey secretKey w
  = ((newAccessKeyID, newSecretKeyID, Some e), w') →
  (∃ id value cause,
     e = ErrNew "could not store access key in secrets storage"
     ∧ accessKey = Some value
     ∧ newAccessKeyID = Some id
     ∧ newSecretKeyID = None
     ∧ stores w' = stores w
     ∧ secrets (stores w') !! id = None
     ∧ trace w' = trace w ++ [Called (CCreateSecret id value) (Some cause); LogError cause])
  ∨ (∃ id value cause pre,
       e = ErrNew "could not store secret key in secrets storage"
       ∧ secretKey = Some value
       ∧ newSecretKeyID = Some id
       ∧ secrets (stores w') !! id = None
       ∧ trace w'
         = trace w ++ pre ++ [Called (CCreateSecret id value) (Some cause); LogError cause]
       ∧ match newAccessKeyID, accessKey with
         | Some id1, Some value1 =>
             secrets (stores w') !! id1 = Some value1
             ∧ pre = [Called (CCreateSecret id1 value1) None]
         | None, None => pre = [] ∧ stores w' = stores w
         | _, _ => False
         end).
Proof.
  unfold createSecrets, secrets_CreateSecret, uuid_New, log_Error, bind, ret.
  intros H. simpl in H.
  repeat (case_match; simpl in *; simplify_eq).
  all: name_ids env.
  all: fresh_facts.
  all: first
         [ solve [ left; eexists _, _, _; split_and!; try done;
                   simpl; by rewrite <- ?app_assoc ]
         | solve [ right; eexists _, _, _, [_]; split_and!; try done; simpl;
                   first [ solve_lookup; done
                         | by rewrite <- !app_assoc
                         | split_and!; try done; by rewrite lookup_insert_eq ] ]
         | solve [ right; eexists _, _, _, []; split_and!; try done;
                   simpl; by rewrite <- ?app_assoc ] ].
Qed.

Lemma createSecrets_stops_at_the_first_failure_witness :
  createSecrets (scenarioEnv vaultIsFull (stored None [] "") (None, 200))
    (Some "AK") (Some "SK") noStorages
  = ((Some "0", None,
      Some (ErrNew "could not store access key in secrets storage")),
     (createSecrets (scenarioEnv vaultIsFull (stored None [] "") (None, 200))
        (Some "AK") (Some "SK") noStorages).2)
  ∧ ∃ id, secrets (stores (createSecrets
                             (scenarioEnv vaultIsFull (stored None [] "") (None, 200))
                             (Some "AK") (Some "SK") noStorages).2) !! id = None.
Proof.
  assert (Hrun :
    createSecrets (scenarioEnv vaultIsFull (stored None [] "") (None, 200))
      (Some "AK") (Some "SK") noStorages
    = ((Some "0", None,
        Some (ErrNew "could not store access key in secrets storage")),
       (createSecrets (scenarioEnv vaultIsFull (stored None [] "") (None, 200))
          (Some "AK") (Some "SK") noStorages).2)) by (vm_compute; reflexivity).
  split; [exact Hrun|].
  destruct (createSecrets_stops_at_the_first_failure _ _ _ _ _ _ _ _ Hrun)
    as [(id & _ & _ & _ & _ & _ & _ & _ & Hgone & _)
       |(id & _ & _ & _ & _ & _ & _ & Hgone & _)];
    by exists id.
Defined.

(** ** Creating and reading a backup storage *)

Lemma find_bsName_app name rows bs :
  find (fun bs => bool_decide (bsName bs = name)) (rows ++ [bs])
  = match find (fun bs => bool_decide (bsName bs = name)) rows with
    | Some found => Some found
    | None => if bool_decide (bsName bs = name) then Some bs else None
    end.
Proof.
  induction rows as [|r rows IH]; simpl; [by destruct (bool_decide _)|].
  by destruct (bool_decide (bsName r = name)).
Qed.

(** X13. When [CreateBackupStorage] answers 200, no record was stored under
    the name before and one is now; the reply is the view of that record,
    which carries the fields of the request, an empty description or URL
    for one not given, and two different secret ids, absent from the vault
    before, under which the vault now holds the access key and the secret
    key of the request. The records of the other names are as before, and
    [GetBackupStorage], asked for the name while the store answers,
    returns 200 with the same body. *)
Theorem a_created_backup_storage_can_be_read_back env ctx params w body w' :
  bodyCreateBackupStorage ctx = Ok params →
  CreateBackupStorage env ctx w = (JSON StatusOK body, w') →
  ∃ bs,
    body = BodyBackupStorage (toAPIBackupStorage bs)
    ∧ lookupBackupStorage (cpName params) (stores w) = None
    ∧ lookupBackupStorage (cpName params) (stores w') = Some bs
    ∧ bsName bs = cpName params
    ∧ bsType bs = cpType params
    ∧ bsBucketName bs = cpBucketName params
    ∧ bsRegion bs = cpRegion params
    ∧ bsDescription bs = default "" (cpDescription params)
    ∧ bsURL bs = default "" (cpUrl params)
    ∧ secrets (stores w) !! bsAccessKeyID bs = None
    ∧ secrets (stores w) !! bsSecretKeyID bs = None
    ∧ secrets (stores w') !! bsAccessKeyID bs = Some (cpAccessKey params)
    ∧ secrets (stores w') !! bsSecretKeyID bs = Some (cpSecretKey params)
    ∧ bsAccessKeyID bs ≠ bsSecretKeyID bs
    ∧ (∀ name, name ≠ cpName params →
         lookupBackupStorage name (stores w') = lookupBackupStorage name (stores w))
    ∧ (∀ ctx',
         fault env w' (CGetBackupStorage (cpName params)) = None →
         (GetBackupStorage env ctx' (cpName params) w').1 = JSON StatusOK body).
Proof.
  intros Hbody. unfold CreateBackupStorage. rewrite Hbody.
  unfold createSecrets, createBackupStorage, cleanUpNewSecretsOnUpdateError,
    storage_CreateBackupStorage, storage_GetBackupStorage, secrets_CreateSecret,
    uuid_New, log_Error, bind, ret, lookupBackupStorage.
  intros H. simpl in H.
  repeat (case_match; simpl in *; simplify_eq).
  all: unfold StatusOK, StatusInternalServerError, StatusBadRequest, StatusConflict in *.
  all: simplify_eq.
  all: name_ids env.
  all: fresh_facts.
  all: eexists; split_and!; try reflexivity; try assumption.
  all: try match goal with
       | Hnone : find _ (storages (stores _)) = None |- _ =>
           solve [ rewrite find_bsName_app, Hnone; simpl;
                   by rewrite bool_decide_eq_true_2 ]
       end.
  all: try solve [ simpl; solve_lookup ].
  all: try solve [ intros name Hne; rewrite find_bsName_app;
                   destruct (find (fun bs => bool_decide (bsName bs = name)) _);
                   [done|]; simpl;
                   by rewrite bool_decide_eq_false_2 by congruence ].
  all: intros ctx' Hf;
       unfold GetBackupStorage, storage_GetBackupStorage, bind, ret;
       rewrite Hf; simpl;
       match goal with
       | Hnone : find _ (storages (stores _)) = None |- _ =>
           rewrite find_bsName_app, Hnone
       end;
       simpl; by rewrite bool_decide_eq_true_2.
Qed.

Lemma a_created_backup_storage_can_be_read_back_witness :
  bodyCreateBackupStorage createS3 = Ok s3Params
  ∧ CreateBackupStorage reliableEnv createS3 noStorages
    = (JSON StatusOK (BodyBackupStorage
                        (toAPIBackupStorage (storageRecord "s3" "0" "1"))),
       (CreateBackupStorage reliableEnv createS3 noStorages).2)
  ∧ ∃ bs,
      lookupBackupStorage "s3" (stores (CreateBackupStorage reliableEnv createS3 noStorages).2)
      = Some bs.
Proof.
  assert (Hrun : CreateBackupStorage reliableEnv createS3 noStorages
                 = (JSON StatusOK (BodyBackupStorage
                                     (toAPIBackupStorage (storageRecord "s3" "0" "1"))),
                    (CreateBackupStorage reliableEnv createS3 noStorages).2))
    by (vm_compute; reflexivity).
  split; [reflexivity|]. split; [exact Hrun|].
  destruct (a_created_backup_storage_can_be_read_back reliableEnv createS3 s3Params
              noStorages _ _ eq_refl Hrun) as (bs & _ & _ & Hbs & _).
  by exists bs.
Defined.

(** X14. [CreateBackupStorage] answers 200, 400, 409 or 500. Unless it
    answers 200 the table of backup storages is as before; in every run
    the other tables are as before and every secret the vault held stays
    in place with its value. *)
Theorem CreateBackupStorage_adds_a_record_only_with_200 env ctx w reply w' :
  CreateBackupStorage env ctx w = (reply, w') →
  monitoringInstances (stores w') = monitoringInstances (stores w)
  ∧ kubernetesClusters (stores w') = kubernetesClusters (stores w)
  ∧ (∀ id value,
       secrets (stores w) !! id = Some value → secrets (stores w') !! id = Some value)
  ∧ ∃ code body,
      reply = JSON code body
      ∧ (code = StatusOK
         ∨ (storages (stores w') = storages (stores w)
            ∧ (code = StatusBadRequest ∨ code = StatusConflict
               ∨ code = StatusInternalServerError)
            ∧ ∃ message, body = BodyError message)).
Proof.
  unfold CreateBackupStorage, createSecrets, createBackupStorage,
    cleanUpNewSecretsOnUpdateError, storage_CreateBackupStorage,
    storage_GetBackupStorage, secrets_CreateSecret, uuid_New, log_Error, bind, ret.
  intros H. simpl in H.
  repeat (case_match; simpl in *; simplify_eq).
  all: name_ids env.
  all: split_and!; try done.
  all: try (intros id' value Hv; simpl; fresh_facts; solve_lookup).
  all: eexists _, _; split; [reflexivity|].
  all: first [ left; reflexivity
             | right; split_and!; [done|auto|by eexists] ].
Qed.

Lemma CreateBackupStorage_adds_a_record_only_with_200_witness :
  CreateBackupStorage reliableEnv createS3 s3Registered
  = (JSON StatusConflict (BodyError "storage s3 already exists"),
     (CreateBackupStorage reliableEnv createS3 s3Registered).2)
  ∧ kubernetesClusters (stores (CreateBackupStorage reliableEnv createS3 s3Registered).2)
    = kubernetesClusters (stores s3Registered).
Proof.
  assert (Hrun : CreateBackupStorage reliableEnv createS3 s3Registered
                 = (JSON StatusConflict (BodyError "storage s3 already exists"),
                    (CreateBackupStorage reliableEnv createS3 s3Registered).2))
    by (vm_compute; reflexivity).
  split; [exact Hrun|].
  apply (CreateBackupStorage_adds_a_record_only_with_200 _ _ _ _ _ Hrun).
Defined.

(** ** The read endpoints *)

Lemma fold_left_append_map {A B} (f : A → B) (l : list A) (acc : list B) :
  fold_left (fun result a => result ++ [f a]) l acc = acc ++ map f l.
Proof.
  revert acc. induction l as [|a l IH]; intros acc; simpl.
  - by rewrite app_nil_r.
  - by rewrite IH, <- app_assoc.
Qed.

(** X15. [ListDatabaseClusters], [GetDatabaseCluster], [GetBackupStorage]
    and [ListBackupStorages] only read: they never write to the stores,
    start no goroutine and leave the wait group alone. The two
    database-cluster endpoints make one call, the proxied request for the
    requested cluster and name, the empty name for the list, and hand
    back its response; they do not look up the Kubernetes cluster
    themselves. *)
Theorem read_endpoints_only_read env failsToList ctx kubernetesID name w :
  let unchanged (w' : World) :=
    stores w' = stores w ∧ history w' = history w
    ∧ goroutines w' = goroutines w ∧ waitGroup w' = waitGroup w in
  (unchanged (ListDatabaseClusters env ctx kubernetesID w).2
   ∧ ∃ perr status,
       ListDatabaseClusters env ctx kubernetesID w
       = (Proxy perr status, emit (Proxied kubernetesID "" perr status) w))
  ∧ (unchanged (GetDatabaseCluster env ctx kubernetesID name w).2
     ∧ ∃ perr status,
         GetDatabaseCluster env ctx kubernetesID name w
         = (Proxy perr status, emit (Proxied kubernetesID name perr status) w))
  ∧ unchanged (GetBackupStorage env ctx name w).2
  ∧ unchanged (ListBackupStorages failsToList ctx w).2.
Proof.
  cbv zeta. split_and!.
  all: unfold ListDatabaseClusters, GetDatabaseCluster, GetBackupStorage,
         ListBackupStorages, storage_ListBackupStorages, storage_GetBackupStorage,
         proxyKubernetes, log_Error, bind, ret; simpl.
  all: repeat (case_match; simpl in *; simplify_eq); try done.
  all: by eexists _, _.
Qed.

(** X16. [GetBackupStorage] answers from the metadata store. While the
    store answers, the reply is 200 with the view of the record stored
    under the name, or 404 when there is none; a 200 is never given
    without such a record. When the store fails, the reply is 404 if the
    error is a record-not-found and otherwise 500, with the error
    logged. *)
Theorem GetBackupStorage_answers_from_the_store env ctx name w reply w' :
  GetBackupStorage env ctx name w = (reply, w') →
  (fault env w (CGetBackupStorage name) = None →
   reply = match lookupBackupStorage name (stores w) with
           | Some bs => JSON StatusOK (BodyBackupStorage (toAPIBackupStorage bs))
           | None => JSON StatusNotFound (BodyError "Could not find backup storage")
           end)
  ∧ (∀ body,
       reply = JSON StatusOK body →
       ∃ bs, lookupBackupStorage name (stores w) = Some bs
             ∧ bsName bs = name
             ∧ body = BodyBackupStorage (toAPIBackupStorage bs)
             ∧ trace w' = trace w ++ [Called (CGetBackupStorage name) None])
  ∧ (∀ e,
       fault env w (CGetBackupStorage name) = Some e →
       if errors_Is e ErrRecordNotFound
       then reply = JSON StatusNotFound (BodyError "Could not find backup storage")
            ∧ trace w' = trace w ++ [Called (CGetBackupStorage name) (Some e)]
       else reply = JSON StatusInternalServerError
                      (BodyError "Could not get backup storage")
            ∧ trace w' = trace w ++ [Called (CGetBackupStorage name) (Some e); LogError e]).
Proof.
  unfold GetBackupStorage, storage_GetBackupStorage, log_Error, bind, ret,
    lookupBackupStorage.
  intros H. simpl in H.
  repeat (case_match; simpl in *; simplify_eq).
  all: split_and!; try done.
  all: intros x Hx; unfold StatusOK, StatusNotFound, StatusInternalServerError in Hx;
       simplify_eq.
  all: try (eexists; split_and!; try reflexivity; by eapply find_bsName).
  all: match goal with Hn : errors_Is _ _ = _ |- _ => rewrite Hn end.
  all: split; [reflexivity|by rewrite <- ?app_assoc].
Qed.

Lemma GetBackupStorage_answers_from_the_store_witness :
  GetBackupStorage reliableEnv emptyRequest "s3" s3Registered
  = (JSON StatusOK (BodyBackupStorage
                      (toAPIBackupStorage (storageRecord "s3" "old-access" "old-secret"))),
     (GetBackupStorage reliableEnv emptyRequest "s3" s3Registered).2)
  ∧ ∃ bs, lookupBackupStorage "s3" (stores s3Registered) = Some bs ∧ bsName bs = "s3".
Proof.
  assert (Hrun :
    GetBackupStorage reliableEnv emptyRequest "s3" s3Registered
    = (JSON StatusOK (BodyBackupStorage
                        (toAPIBackupStorage (storageRecord "s3" "old-access" "old-secret"))),
       (GetBackupStorage reliableEnv emptyRequest "s3" s3Registered).2))
    by (vm_compute; reflexivity).
  split; [exact Hrun|].
  destruct (GetBackupStorage_answers_from_the_store _ _ _ _ _ _ Hrun)
    as (_ & Hok & _).
  destruct (Hok _ eq_refl) as (bs & Hbs & Hn & _).
  by exists bs.
Defined.

(** X17. While the store answers, [ListBackupStorages] returns 200 with
    the views of all stored backup storages, one for each record and in
    the order of the table, so an empty list for an empty table; it
    records nothing. When the store fails it answers 500 and logs the
    error. *)
Theorem ListBackupStorages_lists_every_record failsToList ctx w :
  match failsToList w with
  | None =>
      ListBackupStorages failsToList ctx w
      = (JSONList StatusOK (map toAPIBackupStorage (storages (stores w))), w)
  | Some e =>
      ListBackupStorages failsToList ctx w
      = (Replied (JSON StatusInternalServerError
                    (BodyError "Could not list backup storages")),
         emit (LogError e) w)
  end.
Proof.
  unfold ListBackupStorages, storage_ListBackupStorages, log_Error, bind, ret.
  destruct (failsToList w); [done|].
  by rewrite fold_left_append_map.
Qed.

(** ** Credentials of a database cluster *)

(** X18. [GetDatabaseClusterCredentials] only reads, and every answer
    tells how far it got. It answers 400 when the registered cluster
    cannot be found and 500 when its client cannot be built, with the
    messages of [initKubeClient]; 500 with the message of the cause when
    the cluster object or, after it, the secret its engine names cannot be
    read, whatever the engine. Only once that secret is read, in the
    namespace of the registered cluster, does the engine type decide: for
    any other type than the three supported the answer is 400
    ["Unsupported database engine"]; for the three supported it is 200
    with the credentials. The user name of a PXC cluster is [root] and
    that of a PostgreSQL cluster is [postgres], whatever the secret holds;
    an entry the secret does not have is handed back as the empty string,
    not as an error. *)
Theorem credentials_are_read_from_the_user_secret
    env engineOf kubeSecret ctx kubernetesID name w reply w' :
  GetDatabaseClusterCredentials env engineOf kubeSecret ctx kubernetesID name w
  = (reply, w') →
  stores w' = stores w
  ∧ history w' = history w
  ∧ goroutines w' = goroutines w
  ∧ waitGroup w' = waitGroup w
  ∧ ∃ evs,
      trace w' = trace w ++ evs
      ∧ proxyCalls evs = []
      ∧ ((* the client of the registered cluster could not be had *)
         (∃ cause,
            evs = [Called (CGetKubernetesCluster kubernetesID) (Some cause);
                   LogError cause]
            ∧ reply = CredentialsError StatusBadRequest
                        "could not find Kubernetes cluster")
         ∨ (∃ k cause,
              lookupKubernetesCluster kubernetesID (stores w) = Some k
              ∧ evs = [Called (CGetKubernetesCluster kubernetesID) None;
                       Called (CNewFromSecretsStorage kubernetesID (kNamespace k))
                         (Some cause);
                       LogError cause]
              ∧ reply = CredentialsError StatusInternalServerError
                          "could not create Kubernetes client from kubeconfig")
         ∨ ∃ k,
             let kube := {| kubeID := kubernetesID; kubeNamespace := kNamespace k |} in
             lookupKubernetesCluster kubernetesID (stores w) = Some k
             ∧ ((* the cluster object could not be read *)
                (∃ cause,
                   evs = [Called (CGetKubernetesCluster kubernetesID) None;
                          Called (CNewFromSecretsStorage kubernetesID (kNamespace k))
                            None;
                          Called (CGetDatabaseCluster kube name) (Some cause);
                          LogError cause]
                   ∧ reply = CredentialsError StatusInternalServerError
                               (Error_string cause))
                ∨ ∃ db w0,
                    trace w0
                    = trace w
                      ++ [Called (CGetKubernetesCluster kubernetesID) None;
                          Called (CNewFromSecretsStorage kubernetesID (kNamespace k))
                            None;
                          GotDatabaseCluster kube name db]
                    ∧ stores w0 = stores w
                    ∧ match kubeSecret w0 kube (UserSecretsName (engineOf db))
                              (kNamespace k) with
                      | Err cause =>
                          (* the secret could not be read *)
                          w' = emit (LogError cause) w0
                          ∧ reply = CredentialsError StatusInternalServerError
                                      (Error_string cause)
                      | Ok data =>
                          w' = w0
                          ∧ reply
                            = match EngineType_ (engineOf db) with
                              | DatabaseEnginePXC =>
                                  Credentials StatusOK "root"
                                    (default "" (data !! "root"))
                              | DatabaseEnginePSMDB =>
                                  Credentials StatusOK
                                    (default "" (data !! "MONGODB_USER_ADMIN_USER"))
                                    (default "" (data !! "MONGODB_USER_ADMIN_PASSWORD"))
                              | DatabaseEnginePostgresql =>
                                  Credentials StatusOK "postgres"
                                    (default "" (data !! "password"))
                              | OtherEngine _ =>
                                  CredentialsError StatusBadRequest
                                    "Unsupported database engine"
                              end
                      end)).
Proof.
  unfold GetDatabaseClusterCredentials, kube_GetSecret, initKubeClient,
    kubernetes_NewFromSecretsStorage, kube_GetDatabaseCluster,
    storage_GetKubernetesCluster, kube_call, log_Error, bind, ret, secretData,
    lookupKubernetesCluster.
  intros H. simpl in H.
  repeat (case_match; simpl in *; simplify_eq).
  all: split_and!; try done.
  all: split_trace.
  all: split; [reflexivity|].
  all: try match goal with
       | Hk : find _ (kubernetesClusters _) = Some ?k |- _ =>
           pose proof (find_kID _ _ _ Hk) as Hid; subst kubernetesID
       end.
  all: first
         [ solve [ left; eexists; split; reflexivity ]
         | solve [ right; left; eexists _, _; split_and!; reflexivity ]
         | right; right; eexists; cbv zeta; split; [reflexivity|] ].
  all: first
         [ solve [ left; eexists; split; reflexivity ]
         | right;
           match goal with
           | Hs : _ ?w0 _ _ _ = Ok _ |- _ => eexists _, w0
           | Hs : _ ?w0 _ _ _ = Err _ |- _ => eexists _, w0
           end;
           split; [simpl; rewrite <- ?app_assoc; reflexivity|];
           split; [reflexivity|]; simpl;
           repeat match goal with
                  | Hs : _ = Ok _ |- _ => rewrite Hs
                  | Hs : _ = Err _ |- _ => rewrite Hs
                  | He : EngineType_ _ = _ |- _ => rewrite He
                  end;
           split; reflexivity ].
Qed.

Lemma credentials_are_read_from_the_user_secret_witness :
  GetDatabaseClusterCredentials deleteEnv pxcEngine emptySecret emptyRequest "k1" "db"
    registeredWorld
  = (Credentials 200 "root" "",
     (GetDatabaseClusterCredentials deleteEnv pxcEngine emptySecret emptyRequest "k1" "db"
        registeredWorld).2)
  ∧ stores (GetDatabaseClusterCredentials deleteEnv pxcEngine emptySecret emptyRequest
              "k1" "db" registeredWorld).2
    = stores registeredWorld.
Proof.
  assert (Hrun :
    GetDatabaseClusterCredentials deleteEnv pxcEngine emptySecret emptyRequest "k1" "db"
      registeredWorld
    = (Credentials 200 "root" "",
       (GetDatabaseClusterCredentials deleteEnv pxcEngine emptySecret emptyRequest "k1"
          "db" registeredWorld).2)) by (vm_compute; reflexivity).
  split; [exact Hrun|].
  apply (credentials_are_read_from_the_user_secret _ _ _ _ _ _ _ _ _ Hrun).
Defined.

(** ** Deleting a backup storage *)

Lemma find_bsName_filter name (rows : list BackupStorage) :
  find (fun bs => bool_decide (bsName bs = name))
       (filter (fun bs => bsName bs ≠ name) rows) = None.
Proof.
  induction rows as [|r rows IH]; [done|].
  rewrite filter_cons. case_decide as Hr; [|done].
  simpl. by rewrite bool_decide_eq_false_2.
Qed.

Lemma find_bsName_filter_ne name other (rows : list BackupStorage) :
  other ≠ name →
  find (fun bs => bool_decide (bsName bs = other))
       (filter (fun bs => bsName bs ≠ name) rows)
  = find (fun bs => bool_decide (bsName bs = other)) rows.
Proof.
  intros Hne. induction rows as [|r rows IH]; [done|].
  rewrite filter_cons. case_decide as Hr; simpl.
  - by rewrite IH.
  - rewrite bool_decide_eq_false_2 by congruence. done.
Qed.

(** Executes [DeleteBackupStorage] along every path. *)
Ltac run_DeleteBackupStorage H :=
  unfold DeleteBackupStorage, deleteBackupStorage, storage_Transaction,
    storage_DeleteBackupStorage, secrets_DeleteSecret, initKubeClient,
    kubernetes_NewFromSecretsStorage, storage_GetKubernetesCluster,
    storage_ListKubernetesClusters, storage_GetBackupStorage, kube_DeleteConfig,
    kube_call, log_Error, bind, ret in H;
  simpl in H;
  repeat (case_match; simpl in *; simplify_eq).

(** X19. When [DeleteBackupStorage] answers 204, a record was stored under
    the name and [DeleteConfig] succeeded for it, with the backup-storage
    in-use check, on the client of the first registered cluster. The
    record is now gone from the table, its two secrets are gone from the
    vault, and every other record and every other secret is as before. *)
Theorem DeleteBackupStorage_removes_the_record_and_its_secrets
    env failsToDelete ctx name w code w' :
  DeleteBackupStorage env failsToDelete ctx name w = (NoContent code, w') →
  code = StatusNoContent
  ∧ ∃ bs k0 rest evs,
      lookupBackupStorage name (stores w) = Some bs
      ∧ kubernetesClusters (stores w) = k0 :: rest
      ∧ trace w' = trace w ++ evs
      ∧ Called (CDeleteConfig {| kubeID := kID k0; kubeNamespace := kNamespace k0 |}
                  (CfgBackupStorage bs) IsBackupStorageConfigInUse) None ∈ evs
      ∧ lookupBackupStorage name (stores w') = None
      ∧ (∀ other, other ≠ name →
           lookupBackupStorage other (stores w') = lookupBackupStorage other (stores w))
      ∧ secrets (stores w') !! bsAccessKeyID bs = None
      ∧ secrets (stores w') !! bsSecretKeyID bs = None
      ∧ (∀ id, id ≠ bsAccessKeyID bs → id ≠ bsSecretKeyID bs →
           secrets (stores w') !! id = secrets (stores w) !! id)
      ∧ monitoringInstances (stores w') = monitoringInstances (stores w)
      ∧ kubernetesClusters (stores w') = kubernetesClusters (stores w).
Proof.
  intros H. run_DeleteBackupStorage H.
  split; [reflexivity|].
  match goal with
  | Hl : kubernetesClusters (stores w) = _ :: _,
    Hf : find _ (kubernetesClusters (stores w)) = Some _ |- _ =>
      rewrite Hl in Hf; simpl in Hf; rewrite bool_decide_eq_true_2 in Hf by done;
      simplify_eq
  end.
  match goal with
  | Hfind : find _ (storages (stores w)) = Some ?r |- _ =>
      rename r into bs; pose proof (find_bsName _ _ _ Hfind) as Hn
  end.
  eexists _, _, _, _. unfold lookupBackupStorage. simpl.
  split_and!; try eassumption; try reflexivity.
  - rewrite <- !app_assoc. reflexivity.
  - solve_in.
  - rewrite Hn. apply find_bsName_filter.
  - intros other Hne. rewrite Hn. by apply find_bsName_filter_ne.
  - destruct (decide (bsAccessKeyID bs = bsSecretKeyID bs)) as [->|];
      [by rewrite lookup_delete_eq|].
    rewrite lookup_delete_ne by congruence. by rewrite lookup_delete_eq.
  - by rewrite lookup_delete_eq.
  - intros id ? ?. by rewrite !lookup_delete_ne by congruence.
Qed.

Lemma DeleteBackupStorage_removes_the_record_and_its_secrets_witness :
  DeleteBackupStorage reliableEnv alwaysDeletes emptyRequest "s3" s3Registered
  = (NoContent 204,
     (DeleteBackupStorage reliableEnv alwaysDeletes emptyRequest "s3" s3Registered).2)
  ∧ StatusNoContent = 204.
Proof.
  assert (Hrun :
    DeleteBackupStorage reliableEnv alwaysDeletes emptyRequest "s3" s3Registered
    = (NoContent 204,
       (DeleteBackupStorage reliableEnv alwaysDeletes emptyRequest "s3" s3Registered).2))
    by (vm_compute; reflexivity).
  split; [exact Hrun|].
  symmetry.
  apply (DeleteBackupStorage_removes_the_record_and_its_secrets _ _ _ _ _ _ _ Hrun).
Defined.

(** X20. [DeleteBackupStorage] answers 204, or 400, 404 or 500 with a
    message. Unless it answers 204 the table of backup storages is as
    before, and unless a [DeleteConfig] call succeeded nothing at all was
    written. An unknown name is answered with 404 while the store
    answers; with no Kubernetes cluster registered [DeleteConfig] is never
    called and nothing is deleted; and when [DeleteConfig] reports that the
    config is in use the reply is 400 and the record and its secrets
    stay. *)
Theorem DeleteBackupStorage_refuses_without_deleting
    env failsToDelete ctx name w response w' :
  DeleteBackupStorage env failsToDelete ctx name w = (response, w') →
  ∃ evs,
    trace w' = trace w ++ evs
    ∧ (response = NoContent StatusNoContent
       ∨ (storages (stores w') = storages (stores w)
          ∧ ∃ code message,
              response = Replied (JSON code (BodyError message))
              ∧ (code = StatusBadRequest ∨ code = StatusNotFound
                 ∨ code = StatusInternalServerError)))
    ∧ ((∃ kube cfg inUse, Called (CDeleteConfig kube cfg inUse) None ∈ evs)
       ∨ (stores w' = stores w ∧ history w' = history w))
    ∧ (fault env w (CGetBackupStorage name) = None →
       lookupBackupStorage name (stores w) = None →
       response = Replied (JSON StatusNotFound
                             (BodyError "Could not find backup storage")))
    ∧ (kubernetesClusters (stores w) = [] →
       deleteConfigCalls evs = [] ∧ stores w' = stores w)
    ∧ (∀ kube cfg inUse e,
         Called (CDeleteConfig kube cfg inUse) (Some e) ∈ evs →
         errors_Is e ErrConfigInUse = true →
         stores w' = stores w
         ∧ response
           = Replied (JSON StatusBadRequest
                        (BodyError "Cannot delete the backup storage because it's used on the Kubernetes cluster"))).
Proof.
  unfold lookupBackupStorage.
  intros H. run_DeleteBackupStorage H.
  all: split_trace.
  all: split_and!.
  all: try (intros kube cfg inUse e' Hin; in_list Hin; intros His; try congruence;
            by split).
  all: try (intros Hnone; congruence).
  all: try (intros ? ?; congruence).
  all: try (right; done).
  all: try (left; reflexivity).
  all: try (right; split; [done|]; eexists _, _; split; [reflexivity|]; auto).
  all: try (left; eexists _, _, _; solve_in).
  all: intros _; by split.
Qed.

Lemma DeleteBackupStorage_refuses_without_deleting_witness :
  DeleteBackupStorage inUseEnv alwaysDeletes emptyRequest "s3" s3Registered
  = (Replied (JSON StatusBadRequest
                (BodyError "Cannot delete the backup storage because it's used on the Kubernetes cluster")),
     (DeleteBackupStorage inUseEnv alwaysDeletes emptyRequest "s3" s3Registered).2)
  ∧ ∃ evs,
      trace (DeleteBackupStorage inUseEnv alwaysDeletes emptyRequest "s3" s3Registered).2
      = trace s3Registered ++ evs.
Proof.
  assert (Hrun :
    DeleteBackupStorage inUseEnv alwaysDeletes emptyRequest "s3" s3Registered
    = (Replied (JSON StatusBadRequest
                  (BodyError "Cannot delete the backup storage because it's used on the Kubernetes cluster")),
       (DeleteBackupStorage inUseEnv alwaysDeletes emptyRequest "s3" s3Registered).2))
    by (vm_compute; reflexivity).
  split; [exact Hrun|].
  destruct (DeleteBackupStorage_refuses_without_deleting _ _ _ _ _ _ _ Hrun)
    as (evs & Ht & _).
  by exists evs.
Defined.

(** X21. The vault is not part of the store transaction in which
    [deleteBackupStorage] runs. So when a run of [DeleteBackupStorage] that
    does not answer 204 has deleted a secret, the transaction has been
    rolled back and the record is in the table as before, the secret
    deleted is one of the two the record references, the access key is
    among those deleted, and the record now references ids the vault no
    longer holds; the reply is 500. *)
Theorem a_failed_delete_keeps_the_record_without_its_secrets
    env failsToDelete ctx name w reply w' evs id :
  DeleteBackupStorage env failsToDelete ctx name w = (Replied reply, w') →
  trace w' = trace w ++ evs →
  Called (CDeleteSecret id) None ∈ evs →
  ∃ bs message,
    lookupBackupStorage name (stores w) = Some bs
    ∧ lookupBackupStorage name (stores w') = Some bs
    ∧ storages (stores w') = storages (stores w)
    ∧ (id = bsAccessKeyID bs ∨ id = bsSecretKeyID bs)
    ∧ secrets (stores w') !! id = None
    ∧ secrets (stores w') !! bsAccessKeyID bs = None
    ∧ reply = JSON StatusInternalServerError (BodyError message).
Proof.
  unfold lookupBackupStorage.
  intros H Ht Hin. run_DeleteBackupStorage H.
  all: try (rewrite <- ?app_assoc in Ht; apply app_inv_head in Ht; subst evs).
  all: in_list Hin.
  all: eexists _, _; split_and!; try eassumption; try reflexivity; auto.
  all: simpl;
       repeat first [ rewrite lookup_delete_eq
                    | rewrite lookup_delete_None; right ];
       done.
Qed.

Lemma a_failed_delete_keeps_the_record_without_its_secrets_witness :
  DeleteBackupStorage keepingEnv alwaysDeletes emptyRequest "s3" s3Registered
  = (Replied (JSON StatusInternalServerError
                (BodyError (Error_string
                   (ErrJoin (ErrNew "connection refused")
                      (ErrNew "could not delete secret key from secrets storage"))))),
     (DeleteBackupStorage keepingEnv alwaysDeletes emptyRequest "s3" s3Registered).2)
  ∧ ∃ bs,
      lookupBackupStorage "s3"
        (stores (DeleteBackupStorage keepingEnv alwaysDeletes emptyRequest "s3"
                   s3Registered).2) = Some bs
      ∧ secrets (stores (DeleteBackupStorage keepingEnv alwaysDeletes emptyRequest "s3"
                           s3Registered).2) !! bsAccessKeyID bs = None.
Proof.
  assert (Hrun :
    DeleteBackupStorage keepingEnv alwaysDeletes emptyRequest "s3" s3Registered
    = (Replied (JSON StatusInternalServerError
                  (BodyError (Error_string
                     (ErrJoin (ErrNew "connection refused")
                        (ErrNew "could not delete secret key from secrets storage"))))),
       (DeleteBackupStorage keepingEnv alwaysDeletes emptyRequest "s3" s3Registered).2))
    by (vm_compute; reflexivity).
  split; [exact Hrun|].
  assert (Hin : Called (CDeleteSecret "old-access") None
                ∈ [Called (CGetBackupStorage "s3") None;
                   Called CListKubernetesClusters None;
                   Called (CGetKubernetesCluster "k1") None;
                   Called (CNewFromSecretsStorage "k1" "everest") None;
                   Called (CDeleteConfig kube1
                             (CfgBackupStorage (storageRecord "s3" "old-access" "old-secret"))
                             IsBackupStorageConfigInUse) None;
                   Called (CDeleteSecret "old-access") None;
                   Called (CDeleteSecret "old-secret")
                     (Some (ErrNew "connection refused"))]) by solve_in.
  destruct (a_failed_delete_keeps_the_record_without_its_secrets
              _ _ _ _ _ _ _ _ _ Hrun ltac:(vm_compute; reflexivity) Hin)
    as (bs & message & _ & Hbs & _ & _ & _ & Hgone & _).
  by exists bs.
Defined.

(** ** Updating a backup storage: before and after the writes *)

(** Four facts about every run of [UpdateBackupStorage], established by
    one execution of the handler. *)
Lemma UpdateBackupStorage_run env ctx name w reply w' :
  UpdateBackupStorage env ctx name w = (reply, w') →
  ∃ evs,
    trace w' = trace w ++ evs
    (* the check comes before the writes *)
    ∧ (((stores w' = stores w
         ∧ history w' = history w
         ∧ omap updateStep evs = []
         ∧ ∃ code message,
             reply = JSON code (BodyError message)
             ∧ (code = StatusBadRequest ∨ code = StatusNotFound))
        ∨ ∃ params bs accessKey secretKey rest w0,
            bodyUpdateBackupStorage ctx = Ok params
            ∧ lookupBackupStorage name (stores w) = Some bs
            ∧ secrets (stores w) !! bsAccessKeyID bs = Some accessKey
            ∧ secrets (stores w) !! bsSecretKeyID bs = Some secretKey
            ∧ evs = [Called (CGetBackupStorage name) None;
                     Called (CGetSecret (bsAccessKeyID bs)) None;
                     Called (CGetSecret (bsSecretKeyID bs)) None] ++ rest
            ∧ stores w0 = stores w
            ∧ validateStorageAccessByUpdate env w0 bs accessKey secretKey params = None)
       ∧ (∀ params,
            bodyUpdateBackupStorage ctx = Ok params →
            fault env w (CGetBackupStorage name) = None →
            lookupBackupStorage name (stores w) = None →
            reply = JSON StatusNotFound (BodyError "Could not find backup storage")
            ∧ evs = [Called (CGetBackupStorage name) (Some ErrRecordNotFound)]))
    (* a failed commit *)
    ∧ (∀ e,
         Called CCommit (Some e) ∈ evs →
         reply = JSON 0 (BodyError (Error_string e))
         ∧ storages (stores w') = storages (stores w))
    (* the secrets created and the secrets deleted *)
    ∧ ((∀ id value,
          Called (CCreateSecret id value) None ∈ evs →
          secrets (stores w) !! id = None ∧ secrets (stores w') !! id = Some value)
       ∧ (∀ id r,
            Called (CDeleteSecret id) r ∈ evs →
            ∃ bs, lookupBackupStorage name (stores w) = Some bs
                  ∧ (id = bsAccessKeyID bs ∨ id = bsSecretKeyID bs)))
    (* a record update the store refuses *)
    ∧ (∀ p e,
         Called (CUpdateBackupStorage p) (Some e) ∈ evs →
         storages (stores w') = storages (stores w)
         ∧ (∀ codeName detail,
              errors_As_pq e = Some (codeName, detail) →
              codeName = pgErrUniqueViolation →
              reply = JSON StatusBadRequest
                        (BodyError ("backup storage with the same name already exists. "
                                    +:+ detail))
              ∧ loggedErrors evs = [])
         ∧ ((∀ codeName detail,
               errors_As_pq e = Some (codeName, detail) →
               codeName ≠ pgErrUniqueViolation) →
            reply = JSON StatusInternalServerError
                      (BodyError "could not update backup storage")
            ∧ loggedErrors evs = [e])).
Proof.
  unfold lookupBackupStorage.
  intros H. run_UpdateBackupStorage H.
  all: name_ids env.
  all: split_trace.
  all: split_and!.
  (* a record update the store refuses *)
  all: try solve [ intros p' e' Hin; in_list Hin; split_and!; try done;
                   first
                     [ solve [ intros codeName detail Has Hc; simplify_eq;
                               try (case_bool_decide; simplify_eq); done ]
                     | solve [ intros Hother;
                               try (match goal with
                                    | Has : errors_As_pq _ = Some _ |- _ =>
                                        specialize (Hother _ _ Has)
                                    end; try case_bool_decide; simplify_eq);
                               done ] ] ].
  (* the check comes before the writes *)
  all: try solve [ intros params' ? ? ?; simplify_eq; try done ].
  all: try solve [ left; split_and!; try done; eexists _, _; split; [reflexivity|auto] ].
  all: try (right; eexists _, _, _, _, _, _; split_and!).
  all: try eassumption.
  all: try solve [ simpl; reflexivity ].
  (* a failed commit *)
  all: try solve [ intros e' Hin; in_list Hin; by split ].
  (* the secrets created and deleted *)
  all: try solve [ intros id' r Hin; in_list Hin;
                   eexists; (split; [first [reflexivity|eassumption]|]); auto ].
  all: intros id' value Hin; in_list Hin.
  all: fresh_facts.
  all: split; [assumption|simpl; solve_lookup].
Qed.

(** X22. [UpdateBackupStorage] checks before it writes. Either the run
    made none of the steps of an update, wrote nothing and answered 400 or
    404 with a message; or the request body was valid, the record stored
    under the name and the values of its two secrets were read, these
    three reads being the first calls of the run, and the check of the
    storage access passed on them. While the store answers, an unknown name
    is answered with 404. *)
Theorem UpdateBackupStorage_checks_before_it_writes env ctx name w reply w' :
  UpdateBackupStorage env ctx name w = (reply, w') →
  ∃ evs,
    trace w' = trace w ++ evs
    ∧ ((stores w' = stores w
        ∧ history w' = history w
        ∧ omap updateStep evs = []
        ∧ ∃ code message,
            reply = JSON code (BodyError message)
            ∧ (code = StatusBadRequest ∨ code = StatusNotFound))
       ∨ ∃ params bs accessKey secretKey rest w0,
           bodyUpdateBackupStorage ctx = Ok params
           ∧ lookupBackupStorage name (stores w) = Some bs
           ∧ secrets (stores w) !! bsAccessKeyID bs = Some accessKey
           ∧ secrets (stores w) !! bsSecretKeyID bs = Some secretKey
           ∧ evs = [Called (CGetBackupStorage name) None;
                    Called (CGetSecret (bsAccessKeyID bs)) None;
                    Called (CGetSecret (bsSecretKeyID bs)) None] ++ rest
           ∧ stores w0 = stores w
           ∧ validateStorageAccessByUpdate env w0 bs accessKey secretKey params = None)
    ∧ (∀ params,
         bodyUpdateBackupStorage ctx = Ok params →
         fault env w (CGetBackupStorage name) = None →
         lookupBackupStorage name (stores w) = None →
         reply = JSON StatusNotFound (BodyError "Could not find backup storage")
         ∧ evs = [Called (CGetBackupStorage name) (Some ErrRecordNotFound)]).
Proof.
  intros H. apply UpdateBackupStorage_run in H as (evs & Ht & (H1 & H2) & _).
  by exists evs.
Qed.

Lemma UpdateBackupStorage_checks_before_it_writes_witness :
  UpdateBackupStorage reliableEnv rotateS3 "unknown" twoClusters
  = (JSON StatusNotFound (BodyError "Could not find backup storage"),
     (UpdateBackupStorage reliableEnv rotateS3 "unknown" twoClusters).2)
  ∧ ∃ evs,
      trace (UpdateBackupStorage reliableEnv rotateS3 "unknown" twoClusters).2
      = trace twoClusters ++ evs.
Proof.
  assert (Hrun :
    UpdateBackupStorage reliableEnv rotateS3 "unknown" twoClusters
    = (JSON StatusNotFound (BodyError "Could not find backup storage"),
       (UpdateBackupStorage reliableEnv rotateS3 "unknown" twoClusters).2))
    by (vm_compute; reflexivity).
  split; [exact Hrun|].
  destruct (UpdateBackupStorage_checks_before_it_writes _ _ _ _ _ _ Hrun)
    as (evs & Ht & _).
  by exists evs.
Defined.

(** X23. When the record update of [UpdateBackupStorage] succeeds inside
    the transaction and the commit then fails, the handler answers with
    the status code [updateBackupStorage] returned on success, which is 0,
    and with the message of the commit error; the table of backup storages
    is as before. *)
Theorem a_failed_commit_is_answered_with_status_0 env ctx name w reply w' evs e :
  UpdateBackupStorage env ctx name w = (reply, w') →
  trace w' = trace w ++ evs →
  Called CCommit (Some e) ∈ evs →
  reply = JSON 0 (BodyError (Error_string e))
  ∧ storages (stores w') = storages (stores w).
Proof.
  intros H Ht Hin. apply UpdateBackupStorage_run in H as (evs' & Ht' & _ & Hc & _).
  rewrite Ht' in Ht. apply app_inv_head in Ht. subst evs'. by apply Hc.
Qed.

(** X24. [UpdateBackupStorage] never deletes a secret it created: every
    secret a run has stored was stored under an id absent from the vault
    before and is in the vault, with its value, when the run ends,
    whatever the reply; and every [DeleteSecret] call of a run is for one
    of the two ids the record referenced before the run. *)
Theorem UpdateBackupStorage_keeps_the_secrets_it_created env ctx name w reply w' evs :
  UpdateBackupStorage env ctx name w = (reply, w') →
  trace w' = trace w ++ evs →
  (∀ id value,
     Called (CCreateSecret id value) None ∈ evs →
     secrets (stores w) !! id = None ∧ secrets (stores w') !! id = Some value)
  ∧ (∀ id r,
       Called (CDeleteSecret id) r ∈ evs →
       ∃ bs, lookupBackupStorage name (stores w) = Some bs
             ∧ (id = bsAccessKeyID bs ∨ id = bsSecretKeyID bs)).
Proof.
  intros H Ht. apply UpdateBackupStorage_run in H as (evs' & Ht' & _ & _ & Hs & _).
  rewrite Ht' in Ht. apply app_inv_head in Ht. by subst evs'.
Qed.

Lemma a_failed_commit_is_answered_with_status_0_witness :
  UpdateBackupStorage commitFailsEnv rotateS3 "s3" twoClusters
  = (JSON 0 (BodyError "commit failed"),
     (UpdateBackupStorage commitFailsEnv rotateS3 "s3" twoClusters).2)
  ∧ storages (stores (UpdateBackupStorage commitFailsEnv rotateS3 "s3" twoClusters).2)
    = storages (stores twoClusters).
Proof.
  assert (Hrun : UpdateBackupStorage commitFailsEnv rotateS3 "s3" twoClusters
                 = (JSON 0 (BodyError "commit failed"),
                    (UpdateBackupStorage commitFailsEnv rotateS3 "s3" twoClusters).2))
    by (vm_compute; reflexivity).
  split; [exact Hrun|].
  assert (Ht : trace (UpdateBackupStorage commitFailsEnv rotateS3 "s3" twoClusters).2
               = trace twoClusters
                 ++ trace (UpdateBackupStorage commitFailsEnv rotateS3 "s3" twoClusters).2)
    by (vm_compute; reflexivity).
  assert (Hin : Called CCommit (Some (ErrNew "commit failed"))
                ∈ trace (UpdateBackupStorage commitFailsEnv rotateS3 "s3" twoClusters).2)
    by (vm_compute; solve_in).
  apply (a_failed_commit_is_answered_with_status_0 _ _ _ _ _ _ _ _ Hrun Ht Hin).
Defined.

Lemma UpdateBackupStorage_keeps_the_secrets_it_created_witness :
  UpdateBackupStorage commitFailsEnv rotateS3 "s3" twoClusters
  = (JSON 0 (BodyError "commit failed"),
     (UpdateBackupStorage commitFailsEnv rotateS3 "s3" twoClusters).2)
  ∧ secrets (stores (UpdateBackupStorage commitFailsEnv rotateS3 "s3" twoClusters).2)
    !! "0" = Some "AK1".
Proof.
  assert (Hrun : UpdateBackupStorage commitFailsEnv rotateS3 "s3" twoClusters
                 = (JSON 0 (BodyError "commit failed"),
                    (UpdateBackupStorage commitFailsEnv rotateS3 "s3" twoClusters).2))
    by (vm_compute; reflexivity).
  split; [exact Hrun|].
  assert (Ht : trace (UpdateBackupStorage commitFailsEnv rotateS3 "s3" twoClusters).2
               = trace twoClusters
                 ++ trace (UpdateBackupStorage commitFailsEnv rotateS3 "s3" twoClusters).2)
    by (vm_compute; reflexivity).
  assert (Hin : Called (CCreateSecret "0" "AK1") None
                ∈ trace (UpdateBackupStorage commitFailsEnv rotateS3 "s3" twoClusters).2)
    by (vm_compute; solve_in).
  destruct (UpdateBackupStorage_keeps_the_secrets_it_created _ _ _ _ _ _ _ Hrun Ht)
    as (Hkept & _).
  apply (Hkept _ _ Hin).
Defined.

(** ** What the delete phase of an update logs *)

Lemma errors_Is_wrapped e message :
  errors_Is (ErrJoin e (ErrNew message)) ErrConfigInUse = errors_Is e ErrConfigInUse.
Proof.
  simpl. by destruct (errors_Is e ErrConfigInUse).
Qed.

Lemma deleteBackupStoragesOnUpdate_loop_log env kube keys w u w' :
  deleteBackupStoragesOnUpdate_loop env kube keys w = (u, w') →
  ∃ evs, frame w w' evs ∧ loggedErrors evs = updateCleanupFailures evs.
Proof.
  revert w. induction keys as [|name keys IH]; intros w H; simpl in H.
  - inversion H; subst. exists []. split; [apply frame_refl|done].
  - unfold bind at 1, deleteK8SBackupStorage, bind at 1 in H.
    destruct (storage_GetBackupStorage env name w) as [[bs|e] w1] eqn:Hget.
    + apply storage_GetBackupStorage_Ok in Hget as (Hn & -> & _).
      unfold bind, kube_DeleteConfig, kube_call, log_Error, ret in H. simpl in H.
      destruct (fault env _ _) as [err|] eqn:Hf; simpl in H;
        [destruct (errors_Is err ErrConfigInUse) eqn:His; simpl in H;
         rewrite ?orb_false_r, ?His in H; simpl in H|];
        apply IH in H as (evs & Hfr & Hlog).
      * eexists ([_; _] ++ evs). split; [chain_frame Hfr|].
        simpl. by rewrite His, Hlog.
      * eexists ([_; _; _] ++ evs). split; [chain_frame Hfr|].
        simpl. by rewrite His, Hlog, Hn.
      * eexists ([_; _] ++ evs). split; [chain_frame Hfr|].
        simpl. by rewrite Hlog.
    + apply storage_GetBackupStorage_Err in Hget as ->.
      unfold bind, log_Error, ret in H. simpl in H.
      rewrite ?orb_false_r in H.
      destruct (errors_Is e ErrConfigInUse) eqn:His; simpl in H;
        apply IH in H as (evs & Hfr & Hlog).
      * eexists ([_] ++ evs). split; [chain_frame Hfr|].
        simpl. by rewrite His, Hlog.
      * eexists ([_; _] ++ evs). split; [chain_frame Hfr|].
        simpl. by rewrite His, Hlog.
Qed.

(** X25. The goroutine of the delete phase of an update writes to the log
    exactly the failures it met, in the order it met them: a record that
    could not be fetched and a [DeleteConfig] call that failed, each with
    the name of the storage. A failure that is or wraps [ErrConfigInUse] is
    never logged. *)
Theorem deleteBackupStoragesOnUpdate_logs_what_fails env kube oldDB newNames w u w' :
  run_task env (go_deleteBackupStoragesOnUpdate kube oldDB newNames) w = (u, w') →
  ∃ evs,
    trace w' = trace w ++ evs
    ∧ loggedErrors evs = updateCleanupFailures evs
    ∧ Forall (fun e => errors_Is e ErrConfigInUse = false) (loggedErrors evs).
Proof.
  simpl. unfold deleteBackupStoragesOnUpdate, bind, range. intros H.
  destruct (deleteBackupStoragesOnUpdate_loop _ _ _ _) as [u1 w1] eqn:Hloop.
  apply deleteBackupStoragesOnUpdate_loop_log in Hloop as (evs & (Ht & _) & Hlog).
  apply waitGroup_Done_spec in H as (Ht' & _).
  exists evs. rewrite Ht'. split_and!; try done.
  rewrite Hlog. clear. induction evs as [|ev evs IH]; [constructor|].
  simpl. destruct ev as [[] [e|]| | | |]; simpl; try done.
  all: destruct (errors_Is e ErrConfigInUse) eqn:His; simpl; try done.
  all: constructor; [|done].
  all: by rewrite errors_Is_wrapped, errors_Is_wrapped.
Qed.

Lemma deleteBackupStoragesOnUpdate_logs_what_fails_witness :
  run_task inUseEnv
    (go_deleteBackupStoragesOnUpdate kube1 (stored (Some "A") ["B"] "M") {[ "B" ]})
    registeredWorld
  = (tt, (run_task inUseEnv
            (go_deleteBackupStoragesOnUpdate kube1 (stored (Some "A") ["B"] "M") {[ "B" ]})
            registeredWorld).2)
  ∧ ∃ evs,
      trace (run_task inUseEnv
               (go_deleteBackupStoragesOnUpdate kube1 (stored (Some "A") ["B"] "M")
                  {[ "B" ]})
               registeredWorld).2
      = trace registeredWorld ++ evs
      ∧ loggedErrors evs = updateCleanupFailures evs.
Proof.
  assert (Hrun :
    run_task inUseEnv
      (go_deleteBackupStoragesOnUpdate kube1 (stored (Some "A") ["B"] "M") {[ "B" ]})
      registeredWorld
    = (tt, (run_task inUseEnv
              (go_deleteBackupStoragesOnUpdate kube1 (stored (Some "A") ["B"] "M")
                 {[ "B" ]})
              registeredWorld).2)) by (vm_compute; reflexivity).
  split; [exact Hrun|].
  destruct (deleteBackupStoragesOnUpdate_logs_what_fails _ _ _ _ _ _ _ Hrun)
    as (evs & Ht & Hlog & _).
  exists evs. by split.
Defined.

(** X26. How the two writing endpoints answer when the metadata store
    refuses the write. If the error is, or wraps, a driver error whose code
    is a unique violation, the reply is 400 with a fixed sentence followed
    by the detail of the driver error, and nothing is written to the log.
    Otherwise the reply is 500 with a fixed message and the error is
    logged, once. In both cases the table of backup storages is as it was
    before the request. *)
Theorem a_unique_violation_is_a_bad_request env ctx w reply w' evs e :
  trace w' = trace w ++ evs →
  (∀ name p,
     UpdateBackupStorage env ctx name w = (reply, w') →
     Called (CUpdateBackupStorage p) (Some e) ∈ evs →
     storages (stores w') = storages (stores w)
     ∧ (∀ codeName detail,
          errors_As_pq e = Some (codeName, detail) →
          codeName = pgErrUniqueViolation →
          reply = JSON StatusBadRequest
                    (BodyError ("backup storage with the same name already exists. "
                                +:+ detail))
          ∧ loggedErrors evs = [])
     ∧ ((∀ codeName detail,
           errors_As_pq e = Some (codeName, detail) →
           codeName ≠ pgErrUniqueViolation) →
        reply = JSON StatusInternalServerError
                  (BodyError "could not update backup storage")
        ∧ loggedErrors evs = [e]))
  ∧ (∀ p,
       CreateBackupStorage env ctx w = (reply, w') →
       Called (CCreateBackupStorage p) (Some e) ∈ evs →
       storages (stores w') = storages (stores w)
       ∧ (∀ codeName detail,
            errors_As_pq e = Some (codeName, detail) →
            codeName = pgErrUniqueViolation →
            reply = JSON StatusBadRequest
                      (BodyError ("Backup storage with the same name already exists. "
                                  +:+ detail))
            ∧ loggedErrors evs = [])
       ∧ ((∀ codeName detail,
             errors_As_pq e = Some (codeName, detail) →
             codeName ≠ pgErrUniqueViolation) →
          reply = JSON StatusInternalServerError
                    (BodyError "Could not create a new backup storage")
          ∧ loggedErrors evs = [e])).
Proof.
  intros Ht. split.
  - intros name p H Hin.
    apply UpdateBackupStorage_run in H as (evs' & Ht' & _ & _ & _ & Hrefused).
    rewrite Ht' in Ht. apply app_inv_head in Ht. subst evs'.
    by apply (Hrefused p e).
  - intros p H Hin. revert H Ht Hin.
    unfold CreateBackupStorage, createSecrets, createBackupStorage,
      cleanUpNewSecretsOnUpdateError, storage_CreateBackupStorage,
      storage_GetBackupStorage, secrets_CreateSecret, uuid_New, log_Error, bind, ret.
    intros H Ht Hin. simpl in H.
    repeat (case_match; simpl in *; simplify_eq).
    all: try (rewrite <- ?app_assoc in Ht; apply app_inv_head in Ht; subst evs).
    all: try match goal with
             | Hnil : trace ?x = trace ?x ++ ?l |- _ =>
                 assert (l = [])
                   by (apply (app_inv_head (trace x)); rewrite app_nil_r;
                       by rewrite <- Hnil);
                 subst l
             end.
    all: in_list Hin.
    all: split_and!; try done.
    all: first
           [ solve [ intros codeName detail Has Hc; simpl in *; simplify_eq;
                     try (case_bool_decide; simplify_eq); done ]
           | solve [ intros Hother;
                     try (match goal with
                          | Has : errors_As_pq _ = Some _ |- _ =>
                              specialize (Hother _ _ Has)
                          end; try case_bool_decide; simplify_eq);
                     try (by specialize (Hother _ _ eq_refl));
                     done ] ].
Qed.

Lemma a_unique_violation_is_a_bad_request_witness :
  CreateBackupStorage insertFailsEnv createS3 noStorages
  = (JSON StatusInternalServerError (BodyError "Could not create a new backup storage"),
     (CreateBackupStorage insertFailsEnv createS3 noStorages).2)
  ∧ storages (stores (CreateBackupStorage insertFailsEnv createS3 noStorages).2)
    = storages (stores noStorages).
Proof.
  assert (Hrun :
    CreateBackupStorage insertFailsEnv createS3 noStorages
    = (JSON StatusInternalServerError (BodyError "Could not create a new backup storage"),
       (CreateBackupStorage insertFailsEnv createS3 noStorages).2))
    by (vm_compute; reflexivity).
  split; [exact Hrun|].
  assert (Ht : trace (CreateBackupStorage insertFailsEnv createS3 noStorages).2
               = trace noStorages
                 ++ trace (CreateBackupStorage insertFailsEnv createS3 noStorages).2)
    by (vm_compute; reflexivity).
  assert (Hin :
    Called (CCreateBackupStorage
              {| mcName := "s3"; mcDescription := ""; mcType := "s3";
                 mcBucketName := "bucket"; mcURL := ""; mcRegion := "us-east-1";
                 mcAccessKeyID := "0"; mcSecretKeyID := "1" |})
           (Some (ErrNew "connection refused"))
    ∈ trace (CreateBackupStorage insertFailsEnv createS3 noStorages).2)
    by (vm_compute; solve_in).
  destruct (a_unique_violation_is_a_bad_request insertFailsEnv createS3 noStorages
              (JSON StatusInternalServerError
                 (BodyError "Could not create a new backup storage"))
              _ _ (ErrNew "connection refused") Ht) as (_ & Hcreate).
  apply (Hcreate _ Hrun Hin).
Defined.
